(** * CHAETRA cognitive core: a shallow embedding and its properties

    The development follows the Python package [app.chaetra]:

    - [Py]        the fragment of Python values, exceptions and control flow
                  that the package relies on;
    - [Json]      a reference JSON decoder, to run the gateway on texts;
    - [LLM]       [llm.py]: [BaseLLMProvider._serialize_context] and the
                  [LLMManager] gateway;
    - [Cache]     the keyed store behind the memory system;
    - [Memory]    [memory.py]: [MemorySystem];
    - [OpinionSystem]  [opinion.py];
    - [Doubles]   [opinion.py]: the two confidence functions on doubles;
    - [LearningSystem] [learning.py];
    - [CHAETRA]   [brain.py]: the orchestrator's feedback loop;
    - [ReasoningSystem] [reasoning.py];
    - [Brain]     [brain.py]: the status report, the parsing of a query
                  into an intent and the analysis pipeline;
    - [Providers], [Response]  [llm.py]: the constructors of the
                  providers and the reading of a service's answer.

    Modelling conventions.
    - In the model of the engines a Python [float] is an exact rational
      ([Q]): it serves where neither rounding nor a special value decides.
      [Doubles] has the arithmetic of the two confidence functions on IEEE
      754 doubles, with rounding, infinities and NaN; the bounds of the
      confidence are proved there.  Python [int]s are [Z].
    - A text is the sequence of the UTF-8 bytes of the Python [str].
    - A [uuid.UUID] and its canonical text [str(u)] are the same value of
      type [UUID]; [uuid.UUID(str(u)) = u] and [str] is injective.
    - [uuid.uuid4()], [datetime.utcnow()] and the answers of the generation
      backends are inputs of the operation that consumes them; all the
      readings of the clock within one call give the same instant.
    - An [async] method is the sequential function it computes: the package
      awaits every call immediately. *)

From Stdlib Require Import Bool Ascii String List ZArith QArith Qminmax Lia.
From Stdlib Require Import Floats.
Import ListNotations.

Local Close Scope Q_scope.
Local Open Scope string_scope.
Local Open Scope list_scope.

(* ================================================================== *)
(** * Python values, exceptions, control flow *)
(* ================================================================== *)

Module Py.

(** [datetime.datetime]; the only observation the package makes of a
    datetime is [isoformat()]. *)
Record datetime : Type := mk_datetime { isoformat : string }.

(** JSON-like Python values, plus [datetime]. A [dict] is an association
    list in insertion order. *)
#[warnings="-register-all"]
Inductive PyVal : Type :=
| VNone
| VBool (b : bool)
| VInt (z : Z)
| VFloat (q : Q)
| VStr (s : string)
| VDatetime (d : datetime)
| VList (items : list PyVal)
| VDict (entries : list (string * PyVal)).

Definition dict : Type := list (string * PyVal).

(** [d.get(k)] / [k in d] / [d[k]]. *)
Fixpoint dict_get {A : Type} (d : list (string * A)) (k : string) : option A :=
  match d with
  | [] => None
  | (k', v) :: rest => if String.eqb k' k then Some v else dict_get rest k
  end.

(** [d[k] = v] on a dict. *)
Fixpoint dict_set {A : Type} (d : list (string * A)) (k : string) (v : A)
  : list (string * A) :=
  match d with
  | [] => [(k, v)]
  | (k', v') :: rest =>
      if String.eqb k' k then (k, v) :: rest else (k', v') :: dict_set rest k v
  end.

Definition dict_keys {A : Type} (d : list (string * A)) : list string :=
  map fst d.

(** Python truthiness ([bool(v)]). *)
Definition truthy (v : PyVal) : bool :=
  match v with
  | VNone => false
  | VBool b => b
  | VInt z => negb (Z.eqb z 0)
  | VFloat q => negb (Qeq_bool q 0)
  | VStr s => negb (String.eqb s "")
  | VDatetime _ => true
  | VList l => match l with [] => false | _ => true end
  | VDict d => match d with [] => false | _ => true end
  end.

(** The numeric reading of a value, [None] for a non-number. *)
Definition as_number (v : PyVal) : option Q :=
  match v with
  | VBool b => Some (if b then 1%Q else 0%Q)
  | VInt z => Some (inject_Z z)
  | VFloat q => Some q
  | _ => None
  end.

(** [a < b] on floats, and Python's two-argument [max] and [min], which
    return their first argument unless the second is strictly better. *)
Definition Qltb (a b : Q) : bool := negb (Qle_bool b a).
Definition py_max (a b : Q) : Q := if Qltb a b then b else a.
Definition py_min (a b : Q) : Q := if Qltb b a then b else a.

(** [s in t] for two strings: substring test. *)
Fixpoint str_contains (s t : string) : bool :=
  String.prefix s t
  || match t with
     | EmptyString => false
     | String _ t' => str_contains s t'
     end.

(** Exceptions raised in the package. [ValueError] may be chained to its
    cause ([raise ... from e]); [JSONDecodeError] keeps the document that
    failed to parse (its [doc] attribute). *)
#[warnings="-register-all"]
Inductive Exn : Type :=
| ValueError (msg : string) (cause : option Exn)
| JSONDecodeError (doc : string)
| AttributeError (obj attr : string)
| KeyError (key : string)
| TypeError (msg : string)
| ProviderError (provider msg : string).

(** Result of running a call: it returns or it raises. *)
Inductive Outcome (A : Type) : Type :=
| Return (a : A)
| Raise (e : Exn).
Arguments Return {A} a.
Arguments Raise {A} e.

(** Stateful, fallible computations. Effects performed before an
    exception is raised persist, as on the Python heap. *)
Definition M (S A : Type) : Type := S -> Outcome A * S.

Definition ret {S A : Type} (a : A) : M S A := fun s => (Return a, s).
Definition raise {S A : Type} (e : Exn) : M S A := fun s => (Raise e, s).
Definition bind {S A B : Type} (m : M S A) (k : A -> M S B) : M S B :=
  fun s => match m s with
           | (Return a, s') => k a s'
           | (Raise e, s') => (Raise e, s')
           end.
Definition lift {S A : Type} (o : Outcome A) : M S A := fun s => (o, s).

(** [try: body  except Exception: handler]. *)
Definition try_except {S A : Type} (body : M S A) (handler : Exn -> M S A)
  : M S A :=
  fun s => match body s with
           | (Return a, s') => (Return a, s')
           | (Raise e, s') => handler e s'
           end.

End Py.
Import Py.

Declare Scope py_scope.
Delimit Scope py_scope with py.
Notation "x <- m ;; k" := (bind m (fun x => k))
  (at level 61, m at next level, right associativity) : py_scope.
Notation "m ;;; k" := (bind m (fun _ => k))
  (at level 61, right associativity) : py_scope.

(* ================================================================== *)
(** * A reference JSON decoder *)
(* ================================================================== *)

(** [json.loads] belongs to the Python standard library. The gateway is
    stated over an arbitrary decoder; [Json.loads] is a reference decoder
    for the grammar of RFC 8259 on byte strings (escapes [\uXXXX] below
    0x80 only; the non-standard literals NaN and Infinity are not read),
    used to run the gateway on concrete texts. *)
Module Json.

Definition dquote : ascii := ascii_of_nat 34.
Definition backslash : ascii := ascii_of_nat 92.
Definition newline : ascii := ascii_of_nat 10.

Definition is_ws (c : ascii) : bool :=
  let n := nat_of_ascii c in
  Nat.eqb n 32 || Nat.eqb n 9 || Nat.eqb n 10 || Nat.eqb n 13.

Fixpoint skip_ws (s : string) : string :=
  match s with
  | String c r => if is_ws c then skip_ws r else s
  | EmptyString => s
  end.

Definition digit_of (c : ascii) : option Z :=
  let n := nat_of_ascii c in
  if Nat.leb 48 n && Nat.leb n 57 then Some (Z.of_nat (n - 48)) else None.

Definition hex_of (c : ascii) : option nat :=
  let n := nat_of_ascii c in
  if Nat.leb 48 n && Nat.leb n 57 then Some (n - 48)
  else if Nat.leb 97 n && Nat.leb n 102 then Some (n - 87)
  else if Nat.leb 65 n && Nat.leb n 70 then Some (n - 55)
  else None.

(** A run of decimal digits: its value, its length and what follows. *)
Fixpoint digits (s : string) (acc : Z) (n : nat) : Z * nat * string :=
  match s with
  | String c r =>
      match digit_of c with
      | Some d => digits r (acc * 10 + d)%Z (S n)
      | None => (acc, n, s)
      end
  | EmptyString => (acc, n, s)
  end.

Definition parse_frac (s : string) : option (Z * nat) * string :=
  match s with
  | String c r =>
      if Ascii.eqb c "." then
        match digits r 0%Z 0 with
        | (_, O, _) => (None, s)
        | (v, n, rest) => (Some (v, n), rest)
        end
      else (None, s)
  | EmptyString => (None, s)
  end.

Definition parse_exp (s : string) : option Z * string :=
  match s with
  | String c r =>
      if Ascii.eqb c "e" || Ascii.eqb c "E" then
        let '(neg, r1) :=
          match r with
          | String sg r' =>
              if Ascii.eqb sg "-" then (true, r')
              else if Ascii.eqb sg "+" then (false, r')
              else (false, r)
          | EmptyString => (false, r)
          end in
        match digits r1 0%Z 0 with
        | (_, O, _) => (None, s)
        | (v, _, rest) => (Some (if neg then (- v)%Z else v), rest)
        end
      else (None, s)
  | EmptyString => (None, s)
  end.

Definition parse_number (s : string) : option (PyVal * string) :=
  let '(neg, s1) :=
    match s with
    | String c r => if Ascii.eqb c "-" then (true, r) else (false, s)
    | EmptyString => (false, s)
    end in
  match s1 with
  | EmptyString => None
  | String c r =>
      match digit_of c with
      | None => None
      | Some d =>
          let '(ip, rest) :=
            if Z.eqb d 0 then (0%Z, r)
            else let '(v, _, rest) := digits r d 1 in (v, rest) in
          let '(frac, rest1) := parse_frac rest in
          let '(ex, rest2) := parse_exp rest1 in
          match frac, ex with
          | None, None => Some (VInt (if neg then (- ip)%Z else ip), rest2)
          | _, _ =>
              let m :=
                match frac with
                | Some (fv, fn) =>
                    (inject_Z ip + inject_Z fv / inject_Z (10 ^ Z.of_nat fn))%Q
                | None => inject_Z ip
                end in
              let scaled :=
                match ex with
                | Some e => (m * Qpower 10 e)%Q
                | None => m
                end in
              Some (VFloat (Qred (if neg then (- scaled)%Q else scaled)), rest2)
          end
      end
  end.

Definition unescape (c : ascii) : option ascii :=
  let n := nat_of_ascii c in
  if Nat.eqb n 34 then Some dquote
  else if Nat.eqb n 92 then Some backslash
  else if Ascii.eqb c "/" then Some "/"%char
  else if Ascii.eqb c "b" then Some (ascii_of_nat 8)
  else if Ascii.eqb c "f" then Some (ascii_of_nat 12)
  else if Ascii.eqb c "n" then Some (ascii_of_nat 10)
  else if Ascii.eqb c "r" then Some (ascii_of_nat 13)
  else if Ascii.eqb c "t" then Some (ascii_of_nat 9)
  else None.

(** The characters of a string after its opening quote, up to the closing
    quote; a raw control character is refused. *)
Fixpoint parse_string (s : string) : option (string * string) :=
  match s with
  | EmptyString => None
  | String c r =>
      if Ascii.eqb c dquote then Some (EmptyString, r)
      else if Ascii.eqb c backslash then
        match r with
        | String e r' =>
            if Ascii.eqb e "u" then
              match r' with
              | String h1 (String h2 (String h3 (String h4 r5))) =>
                  match hex_of h1, hex_of h2, hex_of h3, hex_of h4 with
                  | Some 0, Some 0, Some a, Some b =>
                      if Nat.ltb (16 * a + b) 128 then
                        match parse_string r5 with
                        | Some (t, rest) =>
                            Some (String (ascii_of_nat (16 * a + b)) t, rest)
                        | None => None
                        end
                      else None
                  | _, _, _, _ => None
                  end
              | _ => None
              end
            else
              match unescape e with
              | Some ch =>
                  match parse_string r' with
                  | Some (t, rest) => Some (String ch t, rest)
                  | None => None
                  end
              | None => None
              end
        | EmptyString => None
        end
      else if Nat.ltb (nat_of_ascii c) 32 then None
      else
        match parse_string r with
        | Some (t, rest) => Some (String c t, rest)
        | None => None
        end
  end.

Definition literal (word : string) (v : PyVal) (s : string)
  : option (PyVal * string) :=
  if String.prefix word s
  then Some (v, String.substring (String.length word)
                  (String.length s - String.length word) s)
  else None.

(** Recursive descent; [fuel] bounds the number of nested calls. A later
    duplicate key of an object replaces the earlier one, as in a dict. *)
Fixpoint parse_value (fuel : nat) (s : string) : option (PyVal * string) :=
  match fuel with
  | O => None
  | S fuel' =>
      match skip_ws s with
      | EmptyString => None
      | String c r =>
          if Ascii.eqb c "{" then
            match skip_ws r with
            | String c' r' =>
                if Ascii.eqb c' "}" then Some (VDict [], r')
                else parse_members fuel' (skip_ws r) []
            | EmptyString => None
            end
          else if Ascii.eqb c "[" then
            match skip_ws r with
            | String c' r' =>
                if Ascii.eqb c' "]" then Some (VList [], r')
                else parse_elements fuel' (skip_ws r) []
            | EmptyString => None
            end
          else if Ascii.eqb c dquote then
            match parse_string r with
            | Some (t, rest) => Some (VStr t, rest)
            | None => None
            end
          else if Ascii.eqb c "t" then literal "true" (VBool true) (String c r)
          else if Ascii.eqb c "f"
          then literal "false" (VBool false) (String c r)
          else if Ascii.eqb c "n" then literal "null" VNone (String c r)
          else parse_number (String c r)
      end
  end

with parse_elements (fuel : nat) (s : string) (acc : list PyVal)
  : option (PyVal * string) :=
  match fuel with
  | O => None
  | S fuel' =>
      match parse_value fuel' s with
      | None => None
      | Some (v, rest) =>
          match skip_ws rest with
          | String c r =>
              if Ascii.eqb c "," then parse_elements fuel' r (acc ++ [v])
              else if Ascii.eqb c "]" then Some (VList (acc ++ [v]), r)
              else None
          | EmptyString => None
          end
      end
  end

with parse_members (fuel : nat) (s : string) (acc : list (string * PyVal))
  : option (PyVal * string) :=
  match fuel with
  | O => None
  | S fuel' =>
      match skip_ws s with
      | String q r =>
          if Ascii.eqb q dquote then
            match parse_string r with
            | None => None
            | Some (k, rest) =>
                match skip_ws rest with
                | String c r1 =>
                    if Ascii.eqb c ":" then
                      match parse_value fuel' r1 with
                      | None => None
                      | Some (v, rest1) =>
                          match skip_ws rest1 with
                          | String c2 r2 =>
                              if Ascii.eqb c2 ","
                              then parse_members fuel' r2 (dict_set acc k v)
                              else if Ascii.eqb c2 "}"
                              then Some (VDict (dict_set acc k v), r2)
                              else None
                          | EmptyString => None
                          end
                      end
                    else None
                | EmptyString => None
                end
            end
          else None
      | EmptyString => None
      end
  end.

(** [json.loads(s)]: one value, then nothing but whitespace. *)
Definition loads (s : string) : option PyVal :=
  match parse_value (2 * String.length s + 2) s with
  | Some (v, rest) =>
      match skip_ws rest with
      | EmptyString => Some v
      | String _ _ => None
      end
  | None => None
  end.

End Json.

(* ================================================================== *)
(** * llm.py *)
(* ================================================================== *)

Module LLM.

(** ** BaseLLMProvider._serialize_context

    The loop over [context.items()] with its three [isinstance] tests; the
    list branch has its own loop over the items with two tests and a
    pass-through [else]. *)
Fixpoint serialize_value (v : PyVal) : PyVal :=
  match v with
  | VDatetime d => VStr (isoformat d)
  | VDict entries =>
      VDict ((fix items (l : list (string * PyVal)) : list (string * PyVal) :=
                match l with
                | [] => []
                | (k, v') :: rest => (k, serialize_value v') :: items rest
                end) entries)
  | VList l =>
      VList ((fix each (l : list PyVal) : list PyVal :=
                match l with
                | [] => []
                | item :: rest =>
                    match item with
                    | VDatetime d => VStr (isoformat d)
                    | VDict _ => serialize_value item
                    | _ => item
                    end :: each rest
                end) l)
  | _ => v
  end.

Definition serialize_items (context : dict) : dict :=
  map (fun kv => (fst kv, serialize_value (snd kv))) context.

Definition _serialize_context (context : option dict) : option dict :=
  match context with
  | None => None
  | Some c => Some (serialize_items c)
  end.

(** A serialized context is handed to [json.dumps], which accepts every
    value of the model except a [datetime]. *)
Fixpoint json_serializable (v : PyVal) : bool :=
  match v with
  | VDatetime _ => false
  | VList l => forallb json_serializable l
  | VDict entries =>
      (fix all (l : list (string * PyVal)) : bool :=
         match l with
         | [] => true
         | (_, v') :: rest => json_serializable v' && all rest
         end) entries
  | _ => true
  end.

(** How every provider's [generate_text] opens: the context is
    serialized and, unless the result is empty, rendered into the request
    with [json.dumps]. *)
Definition render_context (context : option dict) : Outcome (option dict) :=
  match _serialize_context context with
  | Some (entry :: rest) =>
      if json_serializable (VDict (entry :: rest))
      then Return (Some (entry :: rest))
      else Raise (TypeError "Object of type datetime is not JSON serializable")
  | _ => Return None
  end.

(** ** LLMManager *)

(** A provider object, as far as the manager looks at it. *)
Record Provider : Type := mk_provider { provider_name : string }.

(** The part of [settings] that [_initialize_providers] reads: the
    priority order and, per backend, whether its branch registers the
    provider (keys and model present, feature flag on, the constructor
    not raising; for LM Studio also the liveness probe answering 200). *)
Record Settings : Type := mk_settings {
  LLM_PROVIDER_ORDER : list string;
  gemini_ready : bool;
  openai_ready : bool;
  lm_studio_ready : bool;
  ollama_ready : bool
}.

Record LLMManager : Type := mk_manager {
  providers : list (string * Provider);
  provider_order : list string;
  default_provider_name : option string
}.

Definition ready (cfg : Settings) (name : string) : bool :=
  if String.eqb name "gemini" then gemini_ready cfg
  else if String.eqb name "openai" then openai_ready cfg
  else if String.eqb name "lm_studio" then lm_studio_ready cfg
  else if String.eqb name "ollama" then ollama_ready cfg
  else false.

Fixpoint _initialize_providers (cfg : Settings) (order : list string)
    (acc : list (string * Provider)) : list (string * Provider) :=
  match order with
  | [] => acc
  | name :: rest =>
      _initialize_providers cfg rest
        (if ready cfg name then dict_set acc name (mk_provider name) else acc)
  end.

(** The [for ... break] loop of [create] that picks the default. *)
Fixpoint first_available (order : list string) (ps : list (string * Provider))
  : option string :=
  match order with
  | [] => None
  | name :: rest =>
      match dict_get ps name with
      | Some _ => Some name
      | None => first_available rest ps
      end
  end.

Definition create (cfg : Settings) : Outcome LLMManager :=
  let ps := _initialize_providers cfg (LLM_PROVIDER_ORDER cfg) [] in
  let dflt := first_available (LLM_PROVIDER_ORDER cfg) ps in
  match ps with
  | [] => Raise (ValueError "No LLM providers configured." None)
  | _ =>
      match dflt with
      | None | Some EmptyString =>
          Raise (ValueError "Could not determine a default LLM provider." None)
      | Some _ => Return (mk_manager ps (LLM_PROVIDER_ORDER cfg) dflt)
      end
  end.

Definition _get_provider (m : LLMManager) (provider_name : option string)
  : option Provider :=
  let by_default :=
    match default_provider_name m with
    | Some d => dict_get (providers m) d
    | None => None
    end in
  match provider_name with
  | Some n =>
      if negb (String.eqb n "") then
        match dict_get (providers m) n with
        | Some p => Some p
        | None => by_default
        end
      else by_default
  | None => by_default
  end.

(** The backends are the environment: [backend name] is what the provider
    called [name] does when its [generate_text] is awaited. The state of a
    gateway call is the log of provider calls made so far, oldest first. *)
Definition Backend : Type := string -> Outcome string.
Definition CallLog : Type := list string.

Definition provider_generate_text (backend : Backend) (p : Provider)
  : M CallLog string :=
  fun log => (backend (provider_name p), log ++ [provider_name p]).

Definition is_default (m : LLMManager) (p : Provider) : bool :=
  match default_provider_name m with
  | Some d => String.eqb (provider_name p) d
  | None => false
  end.

Definition show_requested (provider_name : option string) : string :=
  match provider_name with Some n => n | None => "None" end.

Definition generate_text (backend : Backend) (m : LLMManager)
    (provider_name : option string) : M CallLog string :=
  match _get_provider m provider_name with
  | None =>
      raise (ValueError ("No provider available. Requested: "
                           ++ show_requested provider_name) None)
  | Some provider =>
      try_except (provider_generate_text backend provider)
        (fun e =>
           if negb (is_default m provider) then
             match _get_provider m None with
             | Some default_provider =>
                 provider_generate_text backend default_provider
             | None => raise e
             end
           else raise e)
  end.

(** ** String helpers of [generate_structured_output] *)

(** [str.isspace] on an ASCII character. *)
Definition is_space (c : ascii) : bool :=
  let n := nat_of_ascii c in
  (Nat.leb 9 n && Nat.leb n 13) || (Nat.leb 28 n && Nat.leb n 32).

(** The other characters for which [str.isspace] holds, by the bytes of
    their UTF-8 form: U+0085 and U+00A0 on two bytes; U+1680, U+2000 to
    U+200A, U+2028, U+2029, U+202F, U+205F and U+3000 on three. *)
Definition wide2 (a b : nat) : bool :=
  Nat.eqb a 194 && (Nat.eqb b 133 || Nat.eqb b 160).

Definition wide3 (a b c : nat) : bool :=
  (Nat.eqb a 225 && Nat.eqb b 154 && Nat.eqb c 128)
  || (Nat.eqb a 226 && Nat.eqb b 128
      && ((Nat.leb 128 c && Nat.leb c 138)
          || Nat.eqb c 168 || Nat.eqb c 169 || Nat.eqb c 175))
  || (Nat.eqb a 226 && Nat.eqb b 129 && Nat.eqb c 159)
  || (Nat.eqb a 227 && Nat.eqb b 128 && Nat.eqb c 128).

(** The number of bytes of the white-space character that [s] starts
    with, 0 when it starts with none. *)
Definition space_width (s : string) : nat :=
  match s with
  | String a r =>
      if is_space a then 1
      else
        match r with
        | String b r' =>
            if wide2 (nat_of_ascii a) (nat_of_ascii b) then 2
            else
              match r' with
              | String c _ =>
                  if wide3 (nat_of_ascii a) (nat_of_ascii b) (nat_of_ascii c)
                  then 3 else 0
              | EmptyString => 0
              end
        | EmptyString => 0
        end
  | EmptyString => 0
  end.

(** The same for the character that a text ends with, on the text read
    backwards. *)
Definition space_width_back (s : string) : nat :=
  match s with
  | String c r =>
      if is_space c then 1
      else
        match r with
        | String b r' =>
            if wide2 (nat_of_ascii b) (nat_of_ascii c) then 2
            else
              match r' with
              | String a _ =>
                  if wide3 (nat_of_ascii a) (nat_of_ascii b) (nat_of_ascii c)
                  then 3 else 0
              | EmptyString => 0
              end
        | EmptyString => 0
        end
  | EmptyString => 0
  end.

(** [s[n:]] and [s[:n]]. *)
Fixpoint str_drop (n : nat) (s : string) : string :=
  match n, s with
  | O, _ => s
  | S n', String _ r => str_drop n' r
  | S _, EmptyString => EmptyString
  end.

Fixpoint str_take (n : nat) (s : string) : string :=
  match n, s with
  | O, _ => EmptyString
  | S n', String c r => String c (str_take n' r)
  | S _, EmptyString => EmptyString
  end.

Fixpoint reverse_onto (s acc : string) : string :=
  match s with
  | EmptyString => acc
  | String c r => reverse_onto r (String c acc)
  end.

Definition reverse (s : string) : string := reverse_onto s EmptyString.

(** White-space characters are removed from the front one by one; there
    are no more of them than bytes. *)
Fixpoint drop_spaces (width : string -> nat) (fuel : nat) (s : string)
  : string :=
  match fuel with
  | O => s
  | S fuel' =>
      match width s with
      | O => s
      | n => drop_spaces width fuel' (str_drop n s)
      end
  end.

Definition lstrip (s : string) : string :=
  drop_spaces space_width (String.length s) s.

Definition rstrip (s : string) : string :=
  reverse (drop_spaces space_width_back (String.length s) (reverse s)).

(** [str.strip()]. *)
Definition strip (s : string) : string := rstrip (lstrip s).

(** [str.lower] changes the letters from A to Z; the tests below compare
    with tokens made of ASCII characters, and no other character has one
    of these as its lower case. *)
Definition lower_char (c : ascii) : ascii :=
  let n := nat_of_ascii c in
  if Nat.leb 65 n && Nat.leb n 90 then ascii_of_nat (n + 32) else c.

Fixpoint lower (s : string) : string :=
  match s with
  | EmptyString => EmptyString
  | String c r => String (lower_char c) (lower r)
  end.

Definition startswith (s p : string) : bool := String.prefix p s.

Definition endswith (s p : string) : bool :=
  Nat.leb (String.length p) (String.length s)
  && String.eqb (str_drop (String.length s - String.length p) s) p.

(** The two [if]s that remove the fence tokens. *)
Definition unfence (response : string) : string :=
  let response :=
    if startswith (lower response) "```json" then str_drop 7 response
    else response in
  if endswith (lower response) "```"
  then str_take (String.length response - 3) response
  else response.

Definition parse_error_message : string :=
  "LLM response could not be parsed as JSON".

Section StructuredOutput.

(** [json.loads]: [None] stands for [JSONDecodeError]. *)
Variable json_loads : string -> option PyVal.

(** The provider is called directly, not through [generate_text]; the
    outer handler logs and re-raises. *)
Definition generate_structured_output (backend : Backend) (m : LLMManager)
    (provider_name : option string) : M CallLog PyVal :=
  match _get_provider m provider_name with
  | None =>
      raise (ValueError ("No provider available. Requested: "
                           ++ show_requested provider_name) None)
  | Some provider =>
      try_except
        (bind (provider_generate_text backend provider) (fun response =>
           let response := strip response in
           let response := unfence response in
           match json_loads response with
           | Some v => ret v
           | None =>
               raise (ValueError parse_error_message
                        (Some (JSONDecodeError response)))
           end))
        (fun e => raise e)
  end.

End StructuredOutput.

End LLM.

(* ================================================================== *)
(** * interfaces.py: the dataclasses *)
(* ================================================================== *)

Definition UUID : Type := string.

Module Opinion.

(** [@dataclass class Opinion]. An evidence item is a dict. *)
Record t : Type := mk {
  id : UUID;
  topic : string;
  belief : string;
  confidence : Q;
  evidence : list dict;
  formed_at : datetime;
  last_updated : option datetime;
  validation_count : Z;
  metadata : dict
}.

(** The keys of [opinion.__dict__], in field order. *)
Definition keys : list string :=
  ["id"; "topic"; "belief"; "confidence"; "evidence"; "formed_at";
   "last_updated"; "validation_count"; "metadata"].

(** [opinion.__dict__] as a value. *)
Definition to_dict (o : t) : dict :=
  [("id", VStr (id o));
   ("topic", VStr (topic o));
   ("belief", VStr (belief o));
   ("confidence", VFloat (confidence o));
   ("evidence", VList (map VDict (evidence o)));
   ("formed_at", VDatetime (formed_at o));
   ("last_updated",
     match last_updated o with Some d => VDatetime d | None => VNone end);
   ("validation_count", VInt (validation_count o));
   ("metadata", VDict (metadata o))].

Definition with_evidence (o : t) (ev : list dict) : t :=
  mk (id o) (topic o) (belief o) (confidence o) ev (formed_at o)
     (last_updated o) (validation_count o) (metadata o).

Definition with_validation_count (o : t) (n : Z) : t :=
  mk (id o) (topic o) (belief o) (confidence o) (evidence o) (formed_at o)
     (last_updated o) n (metadata o).

Definition with_last_updated (o : t) (d : datetime) : t :=
  mk (id o) (topic o) (belief o) (confidence o) (evidence o) (formed_at o)
     (Some d) (validation_count o) (metadata o).

Definition with_confidence (o : t) (c : Q) : t :=
  mk (id o) (topic o) (belief o) c (evidence o) (formed_at o)
     (last_updated o) (validation_count o) (metadata o).

End Opinion.

(** The [content] of a memory item: the dict of an opinion (what the
    [Opinion] constructor accepts as keyword arguments), or any other
    payload. *)
Inductive Content : Type :=
| COpinion (o : Opinion.t)
| COther (d : dict).

Definition content_keys (c : Content) : list string :=
  match c with
  | COpinion _ => Opinion.keys
  | COther d => dict_keys d
  end.

Module MemoryItem.

(** [@dataclass class MemoryItem]; also the dict [memory_item.__dict__]
    that the store keeps. *)
Record t : Type := mk {
  id : UUID;
  content : Content;
  source : string;
  timestamp : datetime;
  memory_type : string;
  confidence : Q;
  validation_count : Z;
  tags : list PyVal;
  metadata : dict
}.

Definition with_memory_type (i : t) (ty : string) : t :=
  mk (id i) (content i) (source i) (timestamp i) ty (confidence i)
     (validation_count i) (tags i) (metadata i).

Definition with_content (i : t) (c : Content) : t :=
  mk (id i) c (source i) (timestamp i) (memory_type i) (confidence i)
     (validation_count i) (tags i) (metadata i).

End MemoryItem.

(* ================================================================== *)
(** * The keyed store *)
(* ================================================================== *)

Module Cache.

(** Modelled from the spec: the keyed store that [MemorySystem] is
    written against, with the four operations [get(key)],
    [set(key, value, ttl?)], [delete(key)] and [scan(prefix) -> [key]],
    under which what is read back is what was written, ids and timestamps
    in their text form, with the time-to-live it was written with. Keys
    are listed in insertion order. No time passes inside a call, so no
    entry expires.

    This is the store that [memory.py] presupposes, not the class that
    [core/cache.py] ships. [RedisCache] has [get], [set] and [delete] but
    no [scan], which [retrieve_memory] calls with the prefix followed by
    a star. Its [set] encodes the value with [json.dumps] inside a [try],
    and [json.dumps] refuses the [UUID] and the [datetime] of
    [memory_item.__dict__]: the error is logged, [False] is returned and
    nothing is stored; a [set] without [ttl] would store with the default
    of 3600 seconds. Statements about what a run asks of the memory
    system are made on the log of its calls ([calls]), which does not
    depend on the store; statements that read the store back hold for
    this store. *)
Record Entry : Type := mk_entry {
  value : MemoryItem.t;
  ttl : option Z
}.

Definition t : Type := list (string * Entry).

Definition get (c : t) (key : string) : option MemoryItem.t :=
  option_map value (dict_get c key).

Definition set (c : t) (key : string) (v : MemoryItem.t) (ttl : option Z) : t :=
  dict_set c key (mk_entry v ttl).

Fixpoint delete (c : t) (key : string) : t :=
  match c with
  | [] => []
  | (k, e) :: rest =>
      if String.eqb k key then delete rest key else (k, e) :: delete rest key
  end.

(** [scan]: the keys that start with the prefix. *)
Definition scan (c : t) (prefix : string) : list string :=
  filter (String.prefix prefix) (dict_keys c).

End Cache.

(* ================================================================== *)
(** * memory.py *)
(* ================================================================== *)

(** What the memory system did, oldest call first. *)
Inductive Call : Type :=
| AddToShortTerm (item : MemoryItem.t)
| MoveToCore (item : MemoryItem.t).

(** The state that the engines share: the store and the log of calls. *)
Record World : Type := mk_world {
  cache : Cache.t;
  calls : list Call
}.

Definition empty_world : World := mk_world [] [].

Module Memory.

Definition short_term_cache_prefix : string := "st_memory:".
Definition core_memory_cache_prefix : string := "core_memory:".

(** [add_to_short_term]; [id] is the value of [uuid.uuid4()] and [now] the
    value of [datetime.utcnow()]. *)
Definition add_to_short_term (id : UUID) (now : datetime) (content : Content)
    (source : string) (tags : option (list PyVal)) : M World MemoryItem.t :=
  fun w =>
    let memory_item :=
      MemoryItem.mk id content source now "short_term" 0%Q 0%Z
        (match tags with Some l => l | None => [] end) [] in
    (Return memory_item,
     mk_world
       (Cache.set (cache w) (short_term_cache_prefix ++ id) memory_item
          (Some 86400%Z))
       (calls w ++ [AddToShortTerm memory_item])).

(** [move_to_core]. The three steps cannot raise on this store, so the
    [except] branch that returns [False] is not reached. *)
Definition move_to_core (memory_item : MemoryItem.t) : M World bool :=
  fun w =>
    let memory_item := MemoryItem.with_memory_type memory_item "core" in
    let c := Cache.delete (cache w)
               (short_term_cache_prefix ++ MemoryItem.id memory_item) in
    let c := Cache.set c
               (core_memory_cache_prefix ++ MemoryItem.id memory_item)
               memory_item None in
    (Return true, mk_world c (calls w ++ [MoveToCore memory_item])).

(** A query value is a string or a list of strings. *)
Inductive QueryValue : Type :=
| QStr (s : string)
| QList (vs : list string).

Definition Query : Type := list (string * QueryValue).

(** How [memory_data[key]] answers [==] with a string and [in]. *)
Inductive Field : Type :=
| FString (s : string)
| FNumber
| FSequence (items : list PyVal)
| FMapping (keys : list string).

Definition memory_data (m : MemoryItem.t) (key : string) : option Field :=
  if String.eqb key "id" then Some (FString (MemoryItem.id m))
  else if String.eqb key "content"
       then Some (FMapping (content_keys (MemoryItem.content m)))
  else if String.eqb key "source" then Some (FString (MemoryItem.source m))
  else if String.eqb key "timestamp"
       then Some (FString (isoformat (MemoryItem.timestamp m)))
  else if String.eqb key "memory_type"
       then Some (FString (MemoryItem.memory_type m))
  else if String.eqb key "confidence" then Some FNumber
  else if String.eqb key "validation_count" then Some FNumber
  else if String.eqb key "tags" then Some (FSequence (MemoryItem.tags m))
  else if String.eqb key "metadata"
       then Some (FMapping (dict_keys (MemoryItem.metadata m)))
  else None.

Definition is_str (v : string) (x : PyVal) : bool :=
  match x with VStr s => String.eqb s v | _ => false end.

(** [any(v in field for v in vs)]; [in] on a number raises [TypeError]
    at the first [v]. *)
Definition any_in (vs : list string) (f : Field) : Outcome bool :=
  match f with
  | FString s => Return (existsb (fun v => str_contains v s) vs)
  | FSequence items => Return (existsb (fun v => existsb (is_str v) items) vs)
  | FMapping keys => Return (existsb (fun v => existsb (String.eqb v) keys) vs)
  | FNumber =>
      match vs with
      | [] => Return false
      | _ => Raise (TypeError "argument is not iterable")
      end
  end.

Fixpoint _matches_query (m : MemoryItem.t) (query : Query) : Outcome bool :=
  match query with
  | [] => Return true
  | (key, value) :: rest =>
      match memory_data m key with
      | None => Return false
      | Some f =>
          match value with
          | QList vs =>
              match any_in vs f with
              | Raise e => Raise e
              | Return false => Return false
              | Return true => _matches_query m rest
              end
          | QStr s =>
              match f with
              | FString s' =>
                  if String.eqb s' s then _matches_query m rest
                  else Return false
              | _ => Return false
              end
          end
      end
  end.

(** The inner [for key in keys] loop, with its [break]. *)
Fixpoint collect (c : Cache.t) (query : Query) (limit : nat)
    (keys : list string) (memories : list MemoryItem.t)
  : Outcome (list MemoryItem.t) :=
  match keys with
  | [] => Return memories
  | key :: rest =>
      match Cache.get c key with
      | None => collect c query limit rest memories
      | Some data =>
          match _matches_query data query with
          | Raise e => Raise e
          | Return false => collect c query limit rest memories
          | Return true =>
              let memories := memories ++ [data] in
              if Nat.leb limit (List.length memories) then Return memories
              else collect c query limit rest memories
          end
      end
  end.

(** The outer [for prefix in prefixes] loop, with its [break]. *)
Fixpoint collect_prefixes (c : Cache.t) (query : Query) (limit : nat)
    (prefixes : list string) (memories : list MemoryItem.t)
  : Outcome (list MemoryItem.t) :=
  match prefixes with
  | [] => Return memories
  | prefix :: rest =>
      match collect c query limit (Cache.scan c prefix) memories with
      | Raise e => Raise e
      | Return memories =>
          if Nat.leb limit (List.length memories) then Return memories
          else collect_prefixes c query limit rest memories
      end
  end.

Definition prefixes_of (memory_type : string) : list string :=
  (if String.eqb memory_type "all" || String.eqb memory_type "short_term"
   then [short_term_cache_prefix] else [])
  ++ (if String.eqb memory_type "all" || String.eqb memory_type "core"
      then [core_memory_cache_prefix] else []).

Definition retrieve_memory (query : Query) (memory_type : string)
    (limit : nat) : M World (list MemoryItem.t) :=
  fun w =>
    (match collect_prefixes (cache w) query limit (prefixes_of memory_type) []
     with
     | Raise e => Raise e
     | Return memories => Return (firstn limit memories)
     end, w).

End Memory.

(* ================================================================== *)
(** * opinion.py *)
(* ================================================================== *)

Module OpinionSystem.

Local Open Scope py_scope.

Definition min_confidence : Q := 0.6%Q.

(** [_calculate_confidence]. A value that is not a number makes the
    multiplication or the comparison inside [max] raise [TypeError]. *)
Definition _calculate_confidence (analysis_result : dict) : Outcome Q :=
  let confidence :=
    match dict_get analysis_result "confidence" with
    | Some v => v
    | None => VFloat 0.5%Q
    end in
  match as_number confidence with
  | None => Raise (TypeError "confidence is not a number")
  | Some confidence =>
      match dict_get analysis_result "data_quality_score" with
      | Some score =>
          if truthy score then
            match as_number score with
            | Some q =>
                Return (py_min (py_max (confidence * q)%Q 0%Q) 1%Q)
            | None => Raise (TypeError "data_quality_score is not a number")
            end
          else Return (py_min (py_max confidence 0%Q) 1%Q)
      | None => Return (py_min (py_max confidence 0%Q) 1%Q)
      end
  end.

(** [evidence.get("matches_belief", False)] as a condition. *)
Definition matches_belief (evidence : dict) : bool :=
  match dict_get evidence "matches_belief" with
  | Some v => truthy v
  | None => false
  end.

(** One round of the [for evidence in new_evidence] loop. *)
Definition adjust (confidence : Q) (evidence : dict) : Q :=
  if matches_belief evidence then (confidence * 1.1)%Q
  else (confidence * 0.9)%Q.

Definition _recalculate_confidence (current_confidence : Q)
    (validation_count : Z) (new_evidence : list dict) : Q :=
  let confidence := current_confidence in
  let confidence :=
    (confidence * (1 + inject_Z (validation_count - 1) * 0.1))%Q in
  let confidence := fold_left adjust new_evidence confidence in
  py_min (py_max confidence 0%Q) 1%Q.

(** [_create_opinion_prompt] renders [context] with [json.dumps], which
    raises on a value it cannot serialize; the text of the prompt itself
    is not modelled, the answer of the gateway being an input. *)
Definition _create_opinion_prompt (topic : string)
    (analysis_result context : dict) : Outcome unit :=
  if LLM.json_serializable (VDict context) then Return tt
  else Raise (TypeError "Object of type datetime is not JSON serializable").

(** [*value] inside a list display. *)
Fixpoint chars (s : string) : list PyVal :=
  match s with
  | EmptyString => []
  | String c r => VStr (String c EmptyString) :: chars r
  end.

Definition unpack (v : PyVal) : Outcome (list PyVal) :=
  match v with
  | VList l => Return l
  | VStr s => Return (chars s)
  | VDict d => Return (map VStr (dict_keys d))
  | _ => Raise (TypeError "Value after * must be an iterable")
  end.

Definition current_symbols (context : dict) : Outcome (list PyVal) :=
  match dict_get context "current_symbols" with
  | Some v => unpack v
  | None => Return []
  end.

(** [form_opinion]. [opinion_id] and [memory_id] are the two values of
    [uuid.uuid4()], in the order they are drawn; [generated] is what
    [self.llm.generate_text] does. *)
Definition form_opinion (opinion_id memory_id : UUID) (now : datetime)
    (generated : Outcome string) (topic : string)
    (analysis_result context : dict) : M World Opinion.t :=
  _ <- lift (_create_opinion_prompt topic analysis_result context) ;;
  opinion_text <- lift generated ;;
  confidence <- lift (_calculate_confidence analysis_result) ;;
  let opinion :=
    Opinion.mk opinion_id topic opinion_text confidence
      [[("type", VStr "analysis_result");
        ("content", VDict analysis_result);
        ("timestamp", VStr (isoformat now))]]
      now (Some now) 1%Z
      [("context", VDict context); ("source", VStr "initial_analysis")] in
  (if Qle_bool min_confidence confidence then
     try_except
       (symbols <- lift (current_symbols context) ;;
        Memory.add_to_short_term memory_id now (COpinion opinion)
          "opinion_formation" (Some (VStr topic :: symbols)) ;;;
        ret tt)
       (fun _ => ret tt)
   else ret tt) ;;;
  ret opinion.

(** What the two lines that turn the loaded content into an [Opinion]
    raise for a content that is not the dict of an opinion.
    [memory_content["id"]] raises [KeyError] without the key. [uuid.UUID]
    raises [TypeError] for [None] and, for another value that is not a
    string, [AttributeError] at its [hex.replace]; a string is the text
    of a UUID. The constructor [Opinion] then refuses the keyword
    arguments with [TypeError]. *)
Definition conversion_error (memory_content : dict) : Exn :=
  match dict_get memory_content "id" with
  | None => KeyError "id"
  | Some VNone =>
      TypeError
        "one of the hex, bytes, bytes_le, fields, or int arguments must be given"
  | Some (VStr _) => TypeError "Opinion.__init__() got unexpected arguments"
  | Some (VBool _) => AttributeError "bool" "replace"
  | Some (VInt _) => AttributeError "int" "replace"
  | Some (VFloat _) => AttributeError "float" "replace"
  | Some (VDatetime _) => AttributeError "datetime.datetime" "replace"
  | Some (VList _) => AttributeError "list" "replace"
  | Some (VDict _) => AttributeError "dict" "replace"
  end.

(** [update_opinion]. [memory_id] is the value of [uuid.uuid4()] drawn by
    [add_to_short_term].

    [current_opinion.evidence] is the very list held by the loaded item's
    content, so [extend] lengthens both; the counters and the confidence
    of the loaded item are left as loaded. *)
Definition update_opinion (memory_id : UUID) (now : datetime)
    (opinion_id : UUID) (new_evidence : list dict) : M World Opinion.t :=
  opinions <- Memory.retrieve_memory [("id", Memory.QStr opinion_id)] "all" 1 ;;
  match opinions with
  | [] => raise (ValueError ("Opinion " ++ opinion_id ++ " not found") None)
  | first :: _ =>
      match MemoryItem.content first with
      | COther d => raise (conversion_error d)
      | COpinion memory_content =>
          let current_opinion := memory_content in
          let current_opinion :=
            Opinion.with_evidence current_opinion
              (Opinion.evidence current_opinion ++ new_evidence) in
          let first :=
            MemoryItem.with_content first
              (COpinion
                 (Opinion.with_evidence memory_content
                    (Opinion.evidence memory_content ++ new_evidence))) in
          let current_opinion :=
            Opinion.with_validation_count current_opinion
              (Opinion.validation_count current_opinion + 1)%Z in
          let current_opinion :=
            Opinion.with_last_updated current_opinion now in
          let new_confidence :=
            _recalculate_confidence (Opinion.confidence current_opinion)
              (Opinion.validation_count current_opinion) new_evidence in
          let current_opinion :=
            Opinion.with_confidence current_opinion new_confidence in
          try_except
            (Memory.add_to_short_term memory_id now (COpinion current_opinion)
               "opinion_update"
               (Some [VStr (Opinion.topic current_opinion)]) ;;;
             if Qle_bool 0.8%Q (Opinion.confidence current_opinion)
                && Z.leb 3 (Opinion.validation_count current_opinion)
             then Memory.move_to_core first ;;; ret tt
             else ret tt)
            (fun _ => ret tt) ;;;
          ret current_opinion
      end
  end.

End OpinionSystem.

(* ================================================================== *)
(** * opinion.py: the confidence on doubles *)
(* ================================================================== *)

(** The two functions that compute a confidence, on the floats of Python:
    IEEE 754 doubles, with rounding to nearest, signed zeros, infinities
    and NaN. A decimal constant of the source is the double nearest to
    it, as the Python parser makes it. *)
Set Warnings "-inexact-float".

Module Doubles.

Local Open Scope float_scope.

(** Python's two-argument [max] and [min]: the first argument, unless the
    second compares strictly better; a comparison with NaN is false. *)
Definition py_max (a b : float) : float := if a <? b then b else a.
Definition py_min (a b : float) : float := if b <? a then b else a.

(** The truth value of a float: false for the two zeros only. *)
Definition truthy (x : float) : bool := negb (x =? 0).

(** The conversion of an [int] to [float] that [int * float] makes: the
    nearest double, ties to even; [None] stands for the [OverflowError]
    of an [int] beyond the range of the doubles. *)
Definition float_of_int (n : Z) : option float :=
  let f := SF2Prim (binary_normalize prec emax n 0%Z false) in
  if is_infinity f then None else Some f.

(** [_calculate_confidence], for an [analysis_result] whose entries under
    ["confidence"] and ["data_quality_score"], when they are there, are
    floats. *)
Definition _calculate_confidence (analysis_result : list (string * float))
  : float :=
  let confidence := 0.5 in
  let confidence :=
    match dict_get analysis_result "confidence" with
    | Some given => given
    | None => confidence
    end in
  let confidence :=
    match dict_get analysis_result "data_quality_score" with
    | Some score => if truthy score then confidence * score else confidence
    | None => confidence
    end in
  py_min (py_max confidence 0) 1.

(** One round of the [for evidence in new_evidence] loop. *)
Definition adjust (confidence : float) (evidence : dict) : float :=
  if OpinionSystem.matches_belief evidence then confidence * 1.1
  else confidence * 0.9.

(** [_recalculate_confidence]; [None] stands for the [OverflowError] of
    the conversion of [validation_count - 1]. *)
Definition _recalculate_confidence (current_confidence : float)
    (validation_count : Z) (new_evidence : list dict) : option float :=
  match float_of_int (validation_count - 1) with
  | None => None
  | Some validations =>
      let confidence := current_confidence in
      let confidence := confidence * (1.0 + validations * 0.1) in
      let confidence := fold_left adjust new_evidence confidence in
      Some (py_min (py_max confidence 0) 1)
  end.

End Doubles.

(* ================================================================== *)
(** * learning.py *)
(* ================================================================== *)

Module LearningSystem.

Local Open Scope py_scope.

(** The methods that [class LearningSystem] defines. *)
Inductive Method : Type :=
| Identify_patterns
| Validate_pattern
| Learn_from_feedback.

(** Attribute lookup on a [LearningSystem] object, for a method name. *)
Definition getattr (name : string) : option Method :=
  if String.eqb name "identify_patterns" then Some Identify_patterns
  else if String.eqb name "validate_pattern" then Some Validate_pattern
  else if String.eqb name "learn_from_feedback" then Some Learn_from_feedback
  else None.

(** [learn_from_feedback]: one [add_to_short_term]. *)
Definition learn_from_feedback (memory_id : UUID) (now : datetime)
    (data_context outcome : dict) (previous_opinion : option Opinion.t)
  : M World unit :=
  Memory.add_to_short_term memory_id now
    (COther
       [("data_context", VDict data_context);
        ("outcome", VDict outcome);
        ("previous_opinion",
          match previous_opinion with
          | Some o => VDict (Opinion.to_dict o)
          | None => VNone
          end);
        ("timestamp", VStr (isoformat now))])
    "feedback_learning"
    (Some [VStr "learning";
           match dict_get data_context "symbol" with
           | Some v => v
           | None => VStr "unknown"
           end]) ;;;
  ret tt.

(** A call with the keyword arguments [data_context], [outcome] and
    [previous_opinion]; only [learn_from_feedback] has these parameters. *)
Definition call (m : Method) (memory_id : UUID) (now : datetime)
    (data_context outcome : dict) (previous_opinion : option Opinion.t)
  : M World unit :=
  match m with
  | Learn_from_feedback =>
      learn_from_feedback memory_id now data_context outcome previous_opinion
  | Identify_patterns | Validate_pattern =>
      raise (TypeError "got an unexpected keyword argument")
  end.

End LearningSystem.

(* ================================================================== *)
(** * brain.py *)
(* ================================================================== *)

Module CHAETRA.

Local Open Scope py_scope.

(** What [learn_from_interaction_outcome] reads of [interaction_data]:
    [opinion] is [interaction_data["chaetra_response"]["opinion"]] when it
    is there and not empty. *)
Record InteractionData : Type := mk_interaction {
  opinion : option Opinion.t;
  query_intent : PyVal;
  input_data_summary : PyVal;
  request_context : option dict
}.

Definition data_context_for_learning (interaction_data : InteractionData)
  : dict :=
  [("query_intent", query_intent interaction_data);
   ("input_data", input_data_summary interaction_data);
   ("request_context",
     match request_context interaction_data with
     | Some c => VDict c
     | None => VNone
     end);
   ("symbol",
     match request_context interaction_data with
     | Some c =>
         match dict_get c "symbol" with Some v => v | None => VNone end
     | None => VNone
     end)].

Definition evidence_from_outcome (actual_outcome : dict) : dict :=
  [("type", VStr "observed_outcome");
   ("content", VDict actual_outcome);
   ("source", VStr "feedback_loop");
   ("matches_belief",
     match dict_get actual_outcome "matches_belief" with
     | Some v => v
     | None => VBool false
     end)].

(** [learn_from_interaction_outcome]. The method awaited on
    [self.learning] is looked up under the name written in [brain.py].
    [learning_id] and [update_id] are the values [uuid.uuid4()] would give
    to the two memory writes. *)
Definition learn_from_interaction_outcome (learning_id update_id : UUID)
    (now : datetime) (interaction_data : InteractionData)
    (actual_outcome : dict) : M World unit :=
  let previous_opinion := opinion interaction_data in
  match LearningSystem.getattr "learn_from_outcome" with
  | None => raise (AttributeError "LearningSystem" "learn_from_outcome")
  | Some method =>
      LearningSystem.call method learning_id now
        (data_context_for_learning interaction_data) actual_outcome
        previous_opinion
  end ;;;
  match previous_opinion with
  | Some previous_opinion =>
      OpinionSystem.update_opinion update_id now
        (Opinion.id previous_opinion)
        [evidence_from_outcome actual_outcome] ;;;
      ret tt
  | None => ret tt
  end.

End CHAETRA.

(* ================================================================== *)
(** * Sequences of opinion-engine calls *)
(* ================================================================== *)

(** One call of the opinion engine, with what the environment gives it. *)
Inductive Op : Type :=
| FormOpinion (opinion_id memory_id : UUID) (now : datetime)
    (generated : Outcome string) (topic : string)
    (analysis_result context : dict)
| UpdateOpinion (memory_id : UUID) (now : datetime) (opinion_id : UUID)
    (new_evidence : list dict).

Definition step (op : Op) : M World Opinion.t :=
  match op with
  | FormOpinion oid mid now generated topic analysis_result context =>
      OpinionSystem.form_opinion oid mid now generated topic analysis_result
        context
  | UpdateOpinion mid now oid new_evidence =>
      OpinionSystem.update_opinion mid now oid new_evidence
  end.

(** The calls are made one after the other; a call that raises leaves the
    world as it was when the exception left it, and the next is made. *)
Fixpoint run (ops : list Op) (w : World) : list (Outcome Opinion.t) * World :=
  match ops with
  | [] => ([], w)
  | op :: rest =>
      let (r, w') := step op w in
      let (rs, w'') := run rest w' in
      (r :: rs, w'')
  end.

(** The promotion test of [update_opinion], on a returned opinion. *)
Definition meets_thresholds (o : Opinion.t) : bool :=
  Qle_bool 0.8%Q (Opinion.confidence o) && Z.leb 3 (Opinion.validation_count o).

Definition promoted_by (r : Outcome Opinion.t) : bool :=
  match r with
  | Return o => meets_thresholds o
  | Raise _ => false
  end.

(** The items that [move_to_core] was called with, oldest first. *)
Fixpoint moves (cs : list Call) : list MemoryItem.t :=
  match cs with
  | [] => []
  | MoveToCore item :: rest => item :: moves rest
  | AddToShortTerm _ :: rest => moves rest
  end.

Definition promotions (w : World) : list MemoryItem.t := moves (calls w).

Definition core_keys (w : World) : list string :=
  Cache.scan (cache w) Memory.core_memory_cache_prefix.

Definition short_term_keys (w : World) : list string :=
  Cache.scan (cache w) Memory.short_term_cache_prefix.

(** What the opinion stored under a key looks like, when there is one. *)
Definition snapshot_at (w : World) (key : string)
  : option (Q * Z * nat) :=
  match Cache.get (cache w) key with
  | Some item =>
      match MemoryItem.content item with
      | COpinion o =>
          Some (Qred (Opinion.confidence o), Opinion.validation_count o,
                List.length (Opinion.evidence o))
      | COther _ => None
      end
  | None => None
  end.

Definition summary (r : Outcome Opinion.t) : option (Q * Z * nat) :=
  match r with
  | Return o =>
      Some (Qred (Opinion.confidence o), Opinion.validation_count o,
            List.length (Opinion.evidence o))
  | Raise _ => None
  end.

(** The product that the evidence loop builds. *)
Fixpoint evidence_factor (ev : list dict) : Q :=
  match ev with
  | [] => 1%Q
  | e :: rest =>
      ((if OpinionSystem.matches_belief e then 1.1 else 0.9)
       * evidence_factor rest)%Q
  end.

(** The first record under [keys] whose top-level [id] is [oid]. *)
Fixpoint first_match (c : Cache.t) (oid : UUID) (keys : list string)
  : option MemoryItem.t :=
  match keys with
  | [] => None
  | key :: rest =>
      match Cache.get c key with
      | Some data =>
          if String.eqb (MemoryItem.id data) oid then Some data
          else first_match c oid rest
      | None => first_match c oid rest
      end
  end.

(** The record that [update_opinion] loads for [oid]: short-term keys are
    scanned before core keys. *)
Definition loaded (w : World) (oid : UUID) : option MemoryItem.t :=
  match first_match (cache w) oid
          (Cache.scan (cache w) Memory.short_term_cache_prefix) with
  | Some d => Some d
  | None =>
      first_match (cache w) oid
        (Cache.scan (cache w) Memory.core_memory_cache_prefix)
  end.

(** The opinion that [update_opinion] returns from a stored one. *)
Definition revised (stored : Opinion.t) (now : datetime)
    (new_evidence : list dict) : Opinion.t :=
  Opinion.mk (Opinion.id stored) (Opinion.topic stored)
    (Opinion.belief stored)
    (OpinionSystem._recalculate_confidence (Opinion.confidence stored)
       (Opinion.validation_count stored + 1) new_evidence)
    (Opinion.evidence stored ++ new_evidence)
    (Opinion.formed_at stored) (Some now)
    (Opinion.validation_count stored + 1)%Z
    (Opinion.metadata stored).

(** The loaded item as it stands when [move_to_core] receives it: only
    its evidence list has grown. *)
Definition handed_over (first : MemoryItem.t) (stored : Opinion.t)
    (new_evidence : list dict) : MemoryItem.t :=
  MemoryItem.with_content first
    (COpinion (Opinion.with_evidence stored
                 (Opinion.evidence stored ++ new_evidence))).

(** The record that [update_opinion] writes to the short-term tier. *)
Definition update_record (memory_id : UUID) (now : datetime)
    (o : Opinion.t) : MemoryItem.t :=
  MemoryItem.mk memory_id (COpinion o) "opinion_update" now "short_term"
    0%Q 0%Z [VStr (Opinion.topic o)] [].

(** The world after the write of [update_opinion]. *)
Definition after_write (memory_id : UUID) (now : datetime) (o : Opinion.t)
    (w : World) : World :=
  mk_world
    (Cache.set (cache w) (Memory.short_term_cache_prefix ++ memory_id)
       (update_record memory_id now o) (Some 86400%Z))
    (calls w ++ [AddToShortTerm (update_record memory_id now o)]).

(** The world after [move_to_core item]. *)
Definition after_move (item : MemoryItem.t) (w : World) : World :=
  mk_world
    (Cache.set
       (Cache.delete (cache w)
          (Memory.short_term_cache_prefix ++ MemoryItem.id item))
       (Memory.core_memory_cache_prefix ++ MemoryItem.id item)
       (MemoryItem.with_memory_type item "core") None)
    (calls w ++ [MoveToCore (MemoryItem.with_memory_type item "core")]).

(** The opinion that [form_opinion] builds. *)
Definition formed (opinion_id : UUID) (now : datetime) (text topic : string)
    (confidence : Q) (analysis_result context : dict) : Opinion.t :=
  Opinion.mk opinion_id topic text confidence
    [[("type", VStr "analysis_result");
      ("content", VDict analysis_result);
      ("timestamp", VStr (isoformat now))]]
    now (Some now) 1%Z
    [("context", VDict context); ("source", VStr "initial_analysis")].

(** The record that [form_opinion] writes to the short-term tier. *)
Definition formation_record (memory_id : UUID) (now : datetime)
    (o : Opinion.t) (tags : list PyVal) : MemoryItem.t :=
  MemoryItem.mk memory_id (COpinion o) "opinion_formation" now "short_term"
    0%Q 0%Z tags [].

Definition after_formation (memory_id : UUID) (now : datetime)
    (o : Opinion.t) (tags : list PyVal) (w : World) : World :=
  mk_world
    (Cache.set (cache w) (Memory.short_term_cache_prefix ++ memory_id)
       (formation_record memory_id now o tags) (Some 86400%Z))
    (calls w ++ [AddToShortTerm (formation_record memory_id now o tags)]).

(** ** The cap of the confidence, on doubles *)






(** The unit interval. *)
Definition in_unit_interval (q : Q) : Prop := (0 <= q /\ q <= 1)%Q.

(** No record answers the query for [oid]. *)
Definition unanswered (c : Cache.t) (oid : UUID) : Prop :=
  forall key item, Cache.get c key = Some item -> MemoryItem.id item <> oid.

(** Every provider sits under its own name. *)
Definition named_by_key (ps : list (string * LLM.Provider)) : Prop :=
  forall k p, dict_get ps k = Some p -> LLM.provider_name p = k.

(** No list stands directly inside a list, in any part of the value that
    [_serialize_context] walks through. *)
Fixpoint no_list_in_list (v : PyVal) : bool :=
  match v with
  | VList l =>
      (fix each (l : list PyVal) : bool :=
         match l with
         | [] => true
         | item :: rest =>
             match item with
             | VList _ => false
             | VDict _ => no_list_in_list item
             | _ => true
             end && each rest
         end) l
  | VDict entries =>
      (fix all (l : list (string * PyVal)) : bool :=
         match l with
         | [] => true
         | (_, v') :: rest => no_list_in_list v' && all rest
         end) entries
  | _ => true
  end.

(** ** A worked scenario

    An opinion is formed from an analysis of confidence 0.675 in an empty
    store; [uuid4] gives ["op-1"] to the opinion and ["mem-1"], ["mem-2"],
    ["mem-3"] to the memory items, in that order. *)
Module Scenario.

Definition now : datetime := mk_datetime "2024-01-01T00:00:00".

Definition supporting : dict :=
  [("type", VStr "observed_outcome");
   ("content", VDict []);
   ("source", VStr "feedback_loop");
   ("matches_belief", VBool true)].

Definition w1 : World :=
  snd (OpinionSystem.form_opinion "op-1" "mem-1" now (Return "bullish")
         "AAPL" [("confidence", VFloat 0.675%Q)] [] empty_world).

(** First update, addressed to the stored record. *)
Definition r2 : Outcome Opinion.t * World :=
  OpinionSystem.update_opinion "mem-2" now "mem-1" [supporting] w1.

(** The same call again. *)
Definition r3 : Outcome Opinion.t * World :=
  OpinionSystem.update_opinion "mem-3" now "mem-1" [supporting] (snd r2).

(** An update addressed to the record that the first update wrote. *)
Definition r3' : Outcome Opinion.t * World :=
  OpinionSystem.update_opinion "mem-3" now "mem-2" [supporting] (snd r2).

End Scenario.

(** ** Gateway scenarios *)
Module Gateway.

(** OpenAI and Ollama are configured; OpenAI comes first. *)
Definition cfg : LLM.Settings :=
  LLM.mk_settings ["openai"; "ollama"; "gemini"] false true false true.

Definition manager : LLM.LLMManager :=
  LLM.mk_manager
    [("openai", LLM.mk_provider "openai");
     ("ollama", LLM.mk_provider "ollama")]
    ["openai"; "ollama"; "gemini"] (Some "openai").

Definition refused (name : string) : Exn :=
  ProviderError name "connection refused".

Definition ollama_down : LLM.Backend :=
  fun name => if String.eqb name "ollama" then Raise (refused name)
              else Return "fine".

Definition all_down : LLM.Backend := fun name => Raise (refused name).

Definition answers (text : string) : LLM.Backend := fun _ => Return text.

Definition quote : string := String Json.dquote EmptyString.
Definition nl : string := String Json.newline EmptyString.

(** The object with the one key [a] bound to 1, as JSON text. *)
Definition object_text : string := "{" ++ quote ++ "a" ++ quote ++ ": 1}".



End Gateway.


(** ** Retrieval, seen as a filter *)

(** The query holds of the record, a raising test counting as a miss. *)
Definition matches (q : Memory.Query) (m : MemoryItem.t) : bool :=
  match Memory._matches_query m q with
  | Return true => true
  | _ => false
  end.

(** The records that [cache.get] gives for the keys, in their order. *)
Fixpoint records (c : Cache.t) (keys : list string) : list MemoryItem.t :=
  match keys with
  | [] => []
  | key :: rest =>
      match Cache.get c key with
      | Some data => data :: records c rest
      | None => records c rest
      end
  end.

(** The records that [retrieve_memory] goes through for a memory type:
    the short-term tier first, then the core tier. *)
Definition scanned (c : Cache.t) (memory_type : string) : list MemoryItem.t :=
  records c (flat_map (Cache.scan c) (Memory.prefixes_of memory_type)).

(** The two fields of a memory item that hold a number. *)
Definition number_field (key : string) : bool :=
  String.eqb key "confidence" || String.eqb key "validation_count".

(** No list value of the query is tested against a number field. *)
Definition safe_query (q : Memory.Query) : bool :=
  forallb (fun kv =>
             match snd kv with
             | Memory.QStr _ => true
             | Memory.QList [] => true
             | Memory.QList (_ :: _) => negb (number_field (fst kv))
             end) q.

(** The keys of [memory_item.__dict__]. *)
Definition memory_item_fields : list string :=
  ["id"; "content"; "source"; "timestamp"; "memory_type"; "confidence";
   "validation_count"; "tags"; "metadata"].

Definition is_field (key : string) : bool :=
  existsb (String.eqb key) memory_item_fields.

(** ** Memory scenarios *)
Module Listed.

Definition item : MemoryItem.t :=
  MemoryItem.mk "mem-9" (COther []) "note" Scenario.now "short_term" 0%Q 0%Z
    [VStr "AAPL"; VStr "tech"] [].

Definition other : MemoryItem.t :=
  MemoryItem.mk "mem-7" (COther []) "note" Scenario.now "core" 0%Q 0%Z
    [VStr "MSFT"] [].

(** A store that lists one record in each tier. *)
Definition w : World :=
  mk_world
    [("core_memory:mem-7", Cache.mk_entry other None);
     ("st_memory:mem-9", Cache.mk_entry item (Some 86400%Z))]
    [].

End Listed.

(** ** Built-ins used by the reasoning engine and the orchestrator *)
Module Builtins.

(** [type(v).__name__]. *)
Definition type_name (v : PyVal) : string :=
  match v with
  | VNone => "NoneType"
  | VBool _ => "bool"
  | VInt _ => "int"
  | VFloat _ => "float"
  | VStr _ => "str"
  | VDatetime _ => "datetime"
  | VList _ => "list"
  | VDict _ => "dict"
  end.

(** [d.get(key, default)] on a dict. *)
Definition get_or (d : dict) (key : string) (default : PyVal) : PyVal :=
  match dict_get d key with
  | Some v => v
  | None => default
  end.

(** [v.get(key, default)] on any value: only a dict has [get]. *)
Definition attr_get (v : PyVal) (key : string) (default : PyVal)
  : Outcome PyVal :=
  match v with
  | VDict d => Return (get_or d key default)
  | other => Raise (AttributeError (type_name other) "get")
  end.

(** [v == word] for a string [word]. *)
Definition eq_str (v : PyVal) (word : string) : bool :=
  match v with
  | VStr s => String.eqb s word
  | _ => false
  end.

(** [json.dumps(v, indent=2)]; the text is not modelled. *)
Definition dumps (v : PyVal) : Outcome unit :=
  if LLM.json_serializable v then Return tt
  else Raise (TypeError "Object of type datetime is not JSON serializable").

(** The dict comprehension that maps every key to the type name of its
    value. *)
Definition type_names (data : dict) : dict :=
  map (fun kv => (fst kv, VStr (type_name (snd kv)))) data.

(** The items of a list when they all are strings. *)
Fixpoint strings (l : list PyVal) : option (list string) :=
  match l with
  | [] => Some []
  | VStr s :: rest =>
      match strings rest with
      | Some ss => Some (s :: ss)
      | None => None
      end
  | _ :: _ => None
  end.

Fixpoint letters (s : string) : list string :=
  match s with
  | EmptyString => []
  | String c r => String c EmptyString :: letters r
  end.

(** [sep.join(v)]: [v] is iterated, and every item has to be a string;
    a string gives its characters and a dict its keys. *)
Definition join (sep : string) (v : PyVal) : Outcome string :=
  match v with
  | VList l =>
      match strings l with
      | Some ss => Return (String.concat sep ss)
      | None => Raise (TypeError "sequence item: expected str instance")
      end
  | VStr s => Return (String.concat sep (letters s))
  | VDict d => Return (String.concat sep (dict_keys d))
  | _ => Raise (TypeError "can only join an iterable")
  end.

End Builtins.

(* ================================================================== *)
(** * reasoning.py *)
(* ================================================================== *)

Module ReasoningSystem.

Local Open Scope py_scope.

Definition min_confidence : Q := 0.7%Q.

Section Analysis.

(** [json.dumps(data, indent=2, cls=DateTimeEncoder)]: the encoder is
    imported from a module that is not part of the package as given, so
    what the call does with [data] is left open. *)
Variable dumps_with_encoder : dict -> Outcome unit.

(** The four prompts; each renders a slice of [data]. *)
Definition _create_technical_analysis_prompt (data context : dict)
  : Outcome unit :=
  Builtins.dumps (Builtins.get_or data "technical_data" (VDict [])).

Definition _create_fundamental_analysis_prompt (data context : dict)
  : Outcome unit :=
  Builtins.dumps (Builtins.get_or data "fundamental_data" (VDict [])).

Definition _create_sentiment_analysis_prompt (data context : dict)
  : Outcome unit :=
  Builtins.dumps (Builtins.get_or data "sentiment_data" (VDict [])).

Definition _create_general_analysis_prompt (data context : dict)
  : Outcome unit :=
  dumps_with_encoder data.

Definition _extract_chart_recommendations (data : dict) : list PyVal := [].

(** The dict that [analyze_data] builds and returns. *)
Definition result_of (analysis_text : string) (now : datetime)
    (data : dict) (query_type : PyVal) : dict :=
  [("analysis_summary", VStr analysis_text);
   ("timestamp", VStr (isoformat now));
   ("data_analyzed", VDict (Builtins.type_names data));
   ("query_type", query_type);
   ("confidence", VFloat min_confidence);
   ("insights", VList []);
   ("charts_for_frontend", VList (_extract_chart_recommendations data))].

(** [analyze_data]. [memory_id] is the value of [uuid.uuid4()] and
    [generated] what [self.llm.generate_text] does. *)
Definition analyze_data (memory_id : UUID) (now : datetime)
    (generated : Outcome string) (data context query_intent : dict)
  : M World dict :=
  let query_type :=
    Builtins.get_or query_intent "query_type" (VStr "general") in
  lift (if Builtins.eq_str query_type "technical_analysis"
        then _create_technical_analysis_prompt data context
        else if Builtins.eq_str query_type "fundamental_analysis"
        then _create_fundamental_analysis_prompt data context
        else if Builtins.eq_str query_type "market_sentiment"
        then _create_sentiment_analysis_prompt data context
        else _create_general_analysis_prompt data context) ;;;
  analysis_text <- lift generated ;;
  let result := result_of analysis_text now data query_type in
  symbols <- lift (OpinionSystem.current_symbols context) ;;
  Memory.add_to_short_term memory_id now (COther result)
    "reasoning_analysis" (Some (query_type :: symbols)) ;;;
  ret result.

End Analysis.

(** [generate_trading_suggestion]; [generated] is what
    [self.llm.generate_text] does. *)
Definition generate_trading_suggestion (generated : Outcome string)
    (analysis_result : dict) (current_portfolio risk_profile : PyVal)
  : Outcome dict :=
  match generated with
  | Raise e => Raise e
  | Return suggestion_text =>
      Return [("suggestion", VStr suggestion_text);
              ("risk_profile", risk_profile);
              ("analysis_timestamp",
                Builtins.get_or analysis_result "timestamp" VNone);
              ("confidence", VFloat min_confidence)]
  end.

End ReasoningSystem.

(** ** brain.py: status report, query intent and analysis pipeline *)
Module Brain.

Local Open Scope py_scope.

(** The dict that [get_system_status_and_recent_learnings] returns. *)
Record Status : Type := mk_status {
  status : string;
  default_llm_provider : option string;
  recent_core_memories_count : nat;
  recent_patterns_learned_count : nat;
  sample_recent_patterns : list PyVal
}.

Section StatusReport.

(** The [name] of the [Pattern] built from the content of a record; the
    constructor raises on a content that lacks one of its required
    fields or has a key that is not a field. *)
Variable pattern_name : Content -> Outcome PyVal.

(** The list comprehension over [recent_patterns]. *)
Fixpoint names (recent_patterns : list MemoryItem.t) : Outcome (list PyVal) :=
  match recent_patterns with
  | [] => Return []
  | p :: rest =>
      match pattern_name (MemoryItem.content p) with
      | Raise e => Raise e
      | Return n =>
          match names rest with
          | Raise e => Raise e
          | Return ns => Return (n :: ns)
          end
      end
  end.

Definition get_system_status_and_recent_learnings (llm : LLM.LLMManager)
  : M World Status :=
  recent_core_memories <- Memory.retrieve_memory [] "core" 3 ;;
  recent_patterns <-
    Memory.retrieve_memory [("type", Memory.QStr "core_pattern")] "core" 3 ;;
  sample <- lift (names recent_patterns) ;;
  ret (mk_status "Operational" (LLM.default_provider_name llm)
         (List.length recent_core_memories) (List.length recent_patterns)
         sample).

End StatusReport.

Section QueryIntent.

(** [json.loads], as in the gateway, and [str] on an exception. *)
Variable json_loads : string -> option PyVal.
Variable str : Exn -> string.

(** The prompt of [understand_query_intent] renders a chat context that
    is not empty with [json.dumps]; its text is not modelled. *)
Definition intent_prompt (chat_context : option dict) : Outcome unit :=
  match chat_context with
  | Some (entry :: rest) =>
      if LLM.json_serializable (VDict (entry :: rest)) then Return tt
      else Raise (TypeError "Object of type datetime is not JSON serializable")
  | _ => Return tt
  end.

(** One round of the loop over the three keys: a value that is not a
    list is replaced by the empty list. *)
Definition clean_key (entities : dict) (key : string) : dict :=
  match dict_get entities key with
  | Some (VList _) => entities
  | _ => dict_set entities key (VList [])
  end.

(** The clean-up of the decoded intent. [structured_intent.get] exists
    on a dict only; the entities are updated in place. *)
Definition clean (structured_intent : PyVal) : Outcome PyVal :=
  match structured_intent with
  | VDict intent =>
      let intent :=
        match dict_get intent "entities" with
        | Some (VDict _) => intent
        | _ => dict_set intent "entities" (VDict [])
        end in
      match dict_get intent "entities" with
      | Some (VDict entities) =>
          Return
            (VDict
               (dict_set intent "entities"
                  (VDict
                     (fold_left clean_key
                        ["symbols"; "indicators"; "keywords"] entities))))
      | Some other => Raise (AttributeError (Builtins.type_name other) "get")
      | None => Raise (KeyError "entities")
      end
  | other => Raise (AttributeError (Builtins.type_name other) "get")
  end.

(** The intent returned when anything inside the [try] raised. *)
Definition degraded (e : Exn) : PyVal :=
  VDict [("query_type", VStr "unknown");
         ("entities", VDict []);
         ("user_goal", VStr "unknown");
         ("error", VStr (str e))].

(** [understand_query_intent]. The prompt is built before the [try]. *)
Definition understand_query_intent (backend : LLM.Backend)
    (llm : LLM.LLMManager) (chat_context : option dict)
    (provider_name : option string) : M LLM.CallLog PyVal :=
  lift (intent_prompt chat_context) ;;;
  try_except
    (structured_intent <-
       LLM.generate_structured_output json_loads backend llm provider_name ;;
     lift (clean structured_intent))
    (fun e => ret (degraded e)).

End QueryIntent.

(** What [process_data_and_generate_analysis] returns. *)
Record Analysis : Type := mk_analysis {
  analysis : dict;
  opinion : Opinion.t;
  trading_suggestion : option dict
}.

Section Pipeline.

(** The encoder of the general prompt, as in [ReasoningSystem], and
    [str] on a value that is not a string, for the text of the topic. *)
Variable dumps_with_encoder : dict -> Outcome unit.
Variable str_of : PyVal -> string.

(** A value inside an f-string. *)
Definition format (v : PyVal) : string :=
  match v with
  | VStr s => s
  | _ => str_of v
  end.

(** [query_intent.get("entities", {}).get("symbols", [])]. *)
Definition symbols_of (query_intent : dict) : Outcome PyVal :=
  Builtins.attr_get (Builtins.get_or query_intent "entities" (VDict []))
    "symbols" (VList []).

(** The topic handed to [form_opinion]. *)
Definition topic_of (query_intent : dict) : Outcome string :=
  match symbols_of query_intent with
  | Raise e => Raise e
  | Return topic =>
      match
        (if truthy topic then
           match Builtins.join ", " topic with
           | Return joined => Return (VStr joined)
           | Raise e => Raise e
           end
         else
           Return (Builtins.get_or query_intent "query_type"
                     (VStr "general_market")))
      with
      | Raise e => Raise e
      | Return topic_str =>
          Return (format topic_str ++ " ("
                  ++ format (Builtins.get_or query_intent "query_type"
                               (VStr ""))
                  ++ ")")%string
      end
  end.

(** [query_intent.get("user_goal")] is one of the three trading goals. *)
Definition trading_goal (query_intent : dict) : bool :=
  match dict_get query_intent "user_goal" with
  | Some (VStr goal) =>
      existsb (String.eqb goal)
        ["find_buy_opportunity"; "find_sell_opportunity"; "assess_trade"]
  | _ => false
  end.

(** The tags of the session record: the symbols, which [+] requires to
    be a list, and the query type. *)
Definition session_tags (query_intent : dict) : Outcome (list PyVal) :=
  match symbols_of query_intent with
  | Raise e => Raise e
  | Return (VList symbols) =>
      Return (symbols
              ++ [Builtins.get_or query_intent "query_type"
                    (VStr "analysis")])
  | Return _ => Raise (TypeError "unsupported operand type(s) for +")
  end.

(** The content of the session record. *)
Definition session_content (input_data query_intent analysis_result : dict)
    (formed_opinion : Opinion.t) (suggestion : option dict) : dict :=
  [("type", VStr "analysis_session");
   ("query_intent", VDict query_intent);
   ("input_data_summary", VDict (Builtins.type_names input_data));
   ("analysis_summary",
     Builtins.get_or analysis_result "analysis_summary" VNone);
   ("opinion_belief", VStr (Opinion.belief formed_opinion));
   ("opinion_confidence", VFloat (Opinion.confidence formed_opinion));
   ("trading_suggestion",
     match suggestion with Some d => VDict d | None => VNone end)].

(** [process_data_and_generate_analysis]. The four ids are the values of
    [uuid.uuid4()] in the order they are drawn, the three instants the
    clock of the three stages, and the three texts what the gateway does
    for the analysis, the opinion and the suggestion. *)
Definition process_data_and_generate_analysis
    (analysis_id opinion_id opinion_memory_id session_id : UUID)
    (analysis_now opinion_now session_now : datetime)
    (analysis_text opinion_text suggestion_text : Outcome string)
    (input_data query_intent request_context : dict) : M World Analysis :=
  analysis_result <-
    ReasoningSystem.analyze_data dumps_with_encoder analysis_id analysis_now
      analysis_text input_data request_context query_intent ;;
  topic <- lift (topic_of query_intent) ;;
  formed_opinion <-
    OpinionSystem.form_opinion opinion_id opinion_memory_id opinion_now
      opinion_text topic analysis_result request_context ;;
  suggestion <-
    (if trading_goal query_intent
        || Qltb 0.7%Q (Opinion.confidence formed_opinion)
     then
       made <-
         lift (ReasoningSystem.generate_trading_suggestion suggestion_text
                 analysis_result
                 (Builtins.get_or request_context "portfolio_snapshot" VNone)
                 (Builtins.get_or request_context "user_risk_profile"
                    (VStr "moderate"))) ;;
       ret (Some made)
     else ret None) ;;
  tags <- lift (session_tags query_intent) ;;
  Memory.add_to_short_term session_id session_now
    (COther
       (session_content input_data query_intent analysis_result
          formed_opinion suggestion))
    "chaetra_processing" (Some tags) ;;;
  ret (mk_analysis analysis_result formed_opinion suggestion).

End Pipeline.

End Brain.

(** ** llm.py: the constructors of the providers *)
Module Providers.

(** A provider object with the attributes that [BaseLLMProvider.__init__]
    sets. *)
Record t : Type := mk {
  provider_name : string;
  model_name : option string;
  api_key : option string;
  base_url : option string;
  headers : list (string * string)
}.

(** [s.rstrip('/')]. *)
Fixpoint rstrip_slash (s : string) : string :=
  match s with
  | EmptyString => EmptyString
  | String c r =>
      match rstrip_slash r with
      | EmptyString =>
          if Ascii.eqb c "/" then EmptyString else String c EmptyString
      | r' => String c r'
      end
  end.

(** The truth value of an optional string. *)
Definition given (o : option string) : bool :=
  match o with
  | Some s => negb (String.eqb s "")
  | None => false
  end.

Definition gemini_host : string := "generativelanguage.googleapis.com".

(** [BaseLLMProvider.__init__]. *)
Definition init (provider_name : string)
    (model_name api_key base_url : option string) : t :=
  let base_url :=
    if given base_url then option_map rstrip_slash base_url else None in
  let headers := [("Content-Type", "application/json")] in
  let headers :=
    match api_key with
    | Some key =>
        if given api_key
           && negb (str_contains gemini_host
                      match base_url with Some u => u | None => "" end)
        then dict_set headers "Authorization" ("Bearer " ++ key)%string
        else headers
    | None => headers
    end in
  mk provider_name model_name api_key base_url headers.

(** The settings that the four constructors read. *)
Record Settings : Type := mk_settings {
  OPENAI_API_KEY : option string;
  OPENAI_MODEL : string;
  GEMINI_API_KEY : option string;
  GEMINI_MODEL : string;
  OLLAMA_API_URL : option string;
  OLLAMA_MODEL : option string;
  LM_STUDIO_BASE_URL : option string;
  LM_STUDIO_MODEL : option string
}.

(** [key.get_secret_value() if key else None]. *)
Definition secret (key : option string) : option string :=
  if given key then key else None.

Definition OllamaProvider (settings : Settings) : t :=
  init "ollama" (OLLAMA_MODEL settings) None (OLLAMA_API_URL settings).

Definition OpenAIProvider (settings : Settings) : t :=
  init "openai" (Some (OPENAI_MODEL settings))
    (secret (OPENAI_API_KEY settings)) (Some "https://api.openai.com/v1").

Definition GeminiProvider (settings : Settings) : t :=
  init "gemini" (Some (GEMINI_MODEL settings))
    (secret (GEMINI_API_KEY settings))
    (Some ("https://generativelanguage.googleapis.com/v1beta/models/"
           ++ GEMINI_MODEL settings)%string).

(** [headers.pop(key, None)]. *)
Definition pop (headers : list (string * string)) (key : string)
  : list (string * string) :=
  filter (fun kv => negb (String.eqb (fst kv) key)) headers.

(** [LMStudioProvider.__init__]: the OpenAI constructor, then the name,
    the address and the model are replaced and the bearer header is
    dropped. *)
Definition LMStudioProvider (settings : Settings) : t :=
  let p := OpenAIProvider settings in
  mk "lm_studio"
     (if given (LM_STUDIO_MODEL settings) then LM_STUDIO_MODEL settings
      else model_name p)
     (api_key p) (LM_STUDIO_BASE_URL settings)
     (pop (headers p) "Authorization").

End Providers.

(** ** llm.py: reading the answer of a service *)
Module Response.

(** The built-in exceptions that a lookup in the decoded answer raises;
    which one it is decides whether the handler of the Gemini provider
    catches it. *)
Inductive LookupError : Type :=
| KeyError
| IndexError
| TypeError
| AttributeError.

Inductive Lookup : Type :=
| Found (v : PyVal)
| Failed (e : LookupError).

Definition and_then (r : Lookup) (k : PyVal -> Lookup) : Lookup :=
  match r with
  | Found v => k v
  | Failed e => Failed e
  end.

(** [x.get(key, default)]: only a dict has [get]. *)
Definition get (key : string) (default : PyVal) (x : PyVal) : Lookup :=
  match x with
  | VDict d =>
      Found (match dict_get d key with Some v => v | None => default end)
  | _ => Failed AttributeError
  end.

(** [x[key]] for a string [key]: a list and a string take integer
    indices only, the other values take none. *)
Definition item (key : string) (x : PyVal) : Lookup :=
  match x with
  | VDict d =>
      match dict_get d key with
      | Some v => Found v
      | None => Failed KeyError
      end
  | _ => Failed TypeError
  end.

(** [x[0]]. The keys of a decoded JSON object are strings, so 0 is not
    among them. *)
Definition first (x : PyVal) : Lookup :=
  match x with
  | VList (v :: _) => Found v
  | VList [] => Failed IndexError
  | VStr (String c _) => Found (VStr (String c EmptyString))
  | VStr EmptyString => Failed IndexError
  | VDict _ => Failed KeyError
  | _ => Failed TypeError
  end.

(** What [OllamaProvider.generate_text] returns for the decoded answer. *)
Definition ollama_text (response_data : PyVal) : Lookup :=
  get "response" (VStr "") response_data.

(** What [OpenAIProvider.generate_text] returns, and with it the LM
    Studio provider. *)
Definition openai_text (response_data : PyVal) : Lookup :=
  and_then (get "choices" (VList [VDict []]) response_data) (fun choices =>
  and_then (first choices) (fun choice =>
  and_then (get "message" (VDict []) choice) (fun message =>
  get "content" (VStr "") message))).

(** What [GeminiProvider.generate_text] returns: the lookup inside
    [try], [KeyError] and [IndexError] handled. *)
Definition gemini_text (response_data : PyVal) : Lookup :=
  match
    and_then (item "candidates" response_data) (fun candidates =>
    and_then (first candidates) (fun candidate =>
    and_then (item "content" candidate) (fun content =>
    and_then (item "parts" content) (fun parts =>
    and_then (first parts) (fun part =>
    item "text" part)))))
  with
  | Failed KeyError | Failed IndexError => Found (VStr "")
  | r => r
  end.

End Response.

(** ** Intent scenarios *)
Module Asked.

(** [str] on an exception, as far as the scenarios need it. *)
Definition str (e : Exn) : string :=
  match e with
  | ValueError msg _ => msg
  | _ => "error"
  end.

Definition q (word : string) : string :=
  Gateway.quote ++ word ++ Gateway.quote.

(** An answer with a query type, one list of symbols, a null for the
    keywords and no indicators. *)
Definition answer_text : string :=
  "{" ++ q "query_type" ++ ": " ++ q "stock_price" ++ ", "
  ++ q "entities" ++ ": {" ++ q "symbols" ++ ": [" ++ q "AAPL" ++ "], "
  ++ q "keywords" ++ ": null}}".

Definition answer : dict :=
  [("query_type", VStr "stock_price");
   ("entities",
     VDict [("symbols", VList [VStr "AAPL"]); ("keywords", VNone)])].

End Asked.

(** ** A session of the pipeline *)
Module Session.

Definition encoder (data : dict) : Outcome unit := Return tt.

Definition str_of (v : PyVal) : string := Builtins.type_name v.

Definition query_intent : dict :=
  [("query_type", VStr "technical_analysis");
   ("entities", VDict [("symbols", VList [VStr "AAPL"; VStr "MSFT"])]);
   ("user_goal", VStr "assess_risk")].

Definition request_context : dict :=
  [("current_symbols", VList [VStr "AAPL"])].

Definition input_data : dict :=
  [("technical_data", VDict [("rsi", VInt 55)])].

(** One run on the empty store, every gateway call answering. *)
Definition run : Outcome Brain.Analysis * World :=
  Brain.process_data_and_generate_analysis encoder str_of
    "mem-a" "op-1" "mem-o" "mem-s" Scenario.now Scenario.now Scenario.now
    (Return "uptrend") (Return "bullish") (Return "buy")
    input_data query_intent request_context empty_world.

End Session.

(** The prompt that [analyze_data] builds for the query type of the
    intent. *)
Definition selected_prompt (dumps_with_encoder : dict -> Outcome unit)
    (data context query_intent : dict) : Outcome unit :=
  let query_type :=
    Builtins.get_or query_intent "query_type" (VStr "general") in
  if Builtins.eq_str query_type "technical_analysis"
  then ReasoningSystem._create_technical_analysis_prompt data context
  else if Builtins.eq_str query_type "fundamental_analysis"
  then ReasoningSystem._create_fundamental_analysis_prompt data context
  else if Builtins.eq_str query_type "market_sentiment"
  then ReasoningSystem._create_sentiment_analysis_prompt data context
  else ReasoningSystem._create_general_analysis_prompt dumps_with_encoder
         data context.

(** An outcome that is a return. *)
Definition returns {A : Type} (o : Outcome A) : Prop :=
  exists a, o = Return a.

(* ================================================================== *)
(** * Properties *)
(* ================================================================== *)

(** ** Arithmetic of the confidence *)

Lemma Qltb_true (a b : Q) : Qltb a b = true -> (a < b)%Q.
Proof.
  unfold Qltb. intros H. apply negb_true_iff in H.
  apply Qnot_le_lt. intros Hle. apply Qle_bool_iff in Hle. congruence.
Qed.

Lemma Qltb_false (a b : Q) : Qltb a b = false -> (b <= a)%Q.
Proof.
  unfold Qltb. intros H. apply negb_false_iff in H.
  now apply Qle_bool_iff.
Qed.

(** [min(max(c, 0.0), 1.0)] lies in the unit interval. *)
Lemma clamp_bounds (c : Q) :
  (0 <= py_min (py_max c 0) 1 /\ py_min (py_max c 0) 1 <= 1)%Q.
Proof.
  unfold py_min, py_max.
  destruct (Qltb c 0) eqn:H0.
  - destruct (Qltb 1 0) eqn:H1.
    + apply Qltb_true in H1. discriminate H1.
    + split; [apply Qle_refl | discriminate].
  - apply Qltb_false in H0.
    destruct (Qltb 1 c) eqn:H1.
    + split; [discriminate | apply Qle_refl].
    + apply Qltb_false in H1. split; assumption.
Qed.

(** A value already in the unit interval is left alone. *)
Lemma clamp_id (c : Q) :
  (0 <= c)%Q -> (c <= 1)%Q -> py_min (py_max c 0) 1 = c.
Proof.
  intros H0 H1. unfold py_min, py_max.
  assert (E0 : Qltb c 0 = false).
  { unfold Qltb. apply negb_false_iff. now apply Qle_bool_iff. }
  rewrite E0.
  assert (E1 : Qltb 1 c = false).
  { unfold Qltb. apply negb_false_iff. now apply Qle_bool_iff. }
  now rewrite E1.
Qed.

Lemma _recalculate_confidence_bounds (c : Q) (n : Z) (ev : list dict) :
  (0 <= OpinionSystem._recalculate_confidence c n ev
   /\ OpinionSystem._recalculate_confidence c n ev <= 1)%Q.
Proof. unfold OpinionSystem._recalculate_confidence. apply clamp_bounds. Qed.

Lemma _calculate_confidence_bounds (analysis_result : dict) (c : Q) :
  OpinionSystem._calculate_confidence analysis_result = Return c ->
  (0 <= c /\ c <= 1)%Q.
Proof.
  unfold OpinionSystem._calculate_confidence.
  destruct (as_number _) as [q|]; [|discriminate].
  destruct (dict_get analysis_result "data_quality_score") as [score|].
  - destruct (truthy score).
    + destruct (as_number score); [|discriminate].
      intros H; injection H as <-. apply clamp_bounds.
    + intros H; injection H as <-. apply clamp_bounds.
  - intros H; injection H as <-. apply clamp_bounds.
Qed.

Lemma fold_adjust (ev : list dict) (c : Q) :
  (fold_left OpinionSystem.adjust ev c == c * evidence_factor ev)%Q.
Proof.
  revert c. induction ev as [|e rest IH]; intros c; simpl.
  - ring.
  - rewrite IH. unfold OpinionSystem.adjust.
    destruct (OpinionSystem.matches_belief e); ring.
Qed.

(** The confidence after an update is the stored one times the boost of
    the incremented count times one factor per evidence item, clamped. *)
Lemma _recalculate_confidence_formula (c : Q) (n : Z) (ev : list dict) :
  exists raw : Q,
    (raw == c * (1 + inject_Z (n - 1) * 0.1) * evidence_factor ev)%Q
    /\ OpinionSystem._recalculate_confidence c n ev
       = py_min (py_max raw 0) 1.
Proof.
  eexists. split; [|reflexivity]. apply fold_adjust.
Qed.

(** ** Dicts, strings and the store *)

Lemma dict_get_set_same {A : Type} (d : list (string * A)) (k : string)
    (v : A) :
  dict_get (dict_set d k v) k = Some v.
Proof.
  induction d as [|[k' v'] rest IH]; cbn.
  - now rewrite String.eqb_refl.
  - destruct (String.eqb k' k) eqn:E; cbn.
    + now rewrite String.eqb_refl.
    + now rewrite E.
Qed.

Lemma dict_get_set_other {A : Type} (d : list (string * A)) (k k' : string)
    (v : A) :
  k <> k' -> dict_get (dict_set d k v) k' = dict_get d k'.
Proof.
  intros Hk. induction d as [|[k0 v0] rest IH]; cbn.
  - now apply String.eqb_neq in Hk as ->.
  - destruct (String.eqb k0 k) eqn:E; cbn.
    + apply String.eqb_eq in E. subst k0.
      now apply String.eqb_neq in Hk as ->.
    + destruct (String.eqb k0 k'); [reflexivity | exact IH].
Qed.

Lemma dict_get_set_inv {A : Type} (d : list (string * A)) (k k' : string)
    (v x : A) :
  dict_get (dict_set d k v) k' = Some x -> x = v \/ dict_get d k' = Some x.
Proof.
  induction d as [|[k0 v0] rest IH]; cbn.
  - destruct (String.eqb k k'); [|discriminate].
    intros H; injection H as <-. now left.
  - destruct (String.eqb k0 k) eqn:E; cbn.
    + destruct (String.eqb k k') eqn:E'.
      * intros H; injection H as <-. now left.
      * apply String.eqb_eq in E. subst k0. rewrite E'. now right.
    + destruct (String.eqb k0 k'); [now right | exact IH].
Qed.

Lemma dict_keys_set_filter {A : Type} (f : string -> bool)
    (d : list (string * A)) (k : string) (v : A) :
  f k = false ->
  filter f (dict_keys (dict_set d k v)) = filter f (dict_keys d).
Proof.
  intros Hk. induction d as [|[k' v'] rest IH]; cbn.
  - now rewrite Hk.
  - destruct (String.eqb k' k) eqn:E; cbn.
    + apply String.eqb_eq in E. now subst k'.
    + fold (dict_keys (dict_set rest k v)). fold (dict_keys rest).
      now rewrite IH.
Qed.

Lemma dict_keys_set_fresh {A : Type} (d : list (string * A)) (k : string)
    (v : A) :
  dict_get d k = None -> dict_keys (dict_set d k v) = dict_keys d ++ [k].
Proof.
  induction d as [|[k' v'] rest IH]; cbn; [reflexivity|].
  destruct (String.eqb k' k); [discriminate|].
  intros H. cbn. fold (dict_keys (dict_set rest k v)). fold (dict_keys rest).
  now rewrite IH.
Qed.

Lemma length_append (a b : string) :
  String.length (a ++ b)%string = (String.length a + String.length b)%nat.
Proof. induction a as [|c a IH]; cbn; [reflexivity | now rewrite IH]. Qed.

Lemma prefix_append (a b : string) :
  String.prefix a (a ++ b)%string = true.
Proof.
  induction a as [|c a IH]; cbn.
  - now destruct b.
  - destruct (ascii_dec c c) as [_|Hne]; [exact IH | now destruct Hne].
Qed.

Lemma cache_get_none (c : Cache.t) (k : string) :
  Cache.get c k = None -> dict_get c k = None.
Proof. unfold Cache.get. now destruct (dict_get c k). Qed.

Lemma short_term_key_not_core (id : UUID) :
  String.prefix Memory.core_memory_cache_prefix
    (Memory.short_term_cache_prefix ++ id) = false.
Proof. reflexivity. Qed.

Lemma scan_core_after_short_term_set (c : Cache.t) (id : UUID)
    (v : MemoryItem.t) (ttl : option Z) :
  Cache.scan (Cache.set c (Memory.short_term_cache_prefix ++ id) v ttl)
    Memory.core_memory_cache_prefix
  = Cache.scan c Memory.core_memory_cache_prefix.
Proof.
  unfold Cache.scan, Cache.set.
  apply dict_keys_set_filter, short_term_key_not_core.
Qed.

Lemma scan_short_term_after_fresh_set (c : Cache.t) (id : UUID)
    (v : MemoryItem.t) (ttl : option Z) :
  Cache.get c (Memory.short_term_cache_prefix ++ id) = None ->
  Cache.scan (Cache.set c (Memory.short_term_cache_prefix ++ id) v ttl)
    Memory.short_term_cache_prefix
  = Cache.scan c Memory.short_term_cache_prefix
    ++ [(Memory.short_term_cache_prefix ++ id)%string].
Proof.
  intros Hk. unfold Cache.scan, Cache.set.
  rewrite dict_keys_set_fresh by now apply cache_get_none.
  rewrite filter_app. cbn [filter].
  now rewrite prefix_append.
Qed.

Lemma cache_get_set_same (c : Cache.t) (k : string) (v : MemoryItem.t)
    (ttl : option Z) :
  Cache.get (Cache.set c k v ttl) k = Some v.
Proof. unfold Cache.get, Cache.set. now rewrite dict_get_set_same. Qed.

Lemma cache_get_set_other (c : Cache.t) (k k' : string) (v : MemoryItem.t)
    (ttl : option Z) :
  k <> k' -> Cache.get (Cache.set c k v ttl) k' = Cache.get c k'.
Proof.
  intros Hk. unfold Cache.get, Cache.set.
  now rewrite dict_get_set_other.
Qed.

Lemma cache_get_set_inv (c : Cache.t) (k k' : string) (v x : MemoryItem.t)
    (ttl : option Z) :
  Cache.get (Cache.set c k v ttl) k' = Some x ->
  x = v \/ Cache.get c k' = Some x.
Proof.
  unfold Cache.get, Cache.set. intros H.
  destruct (dict_get (dict_set c k _) k') as [e|] eqn:E; [|discriminate].
  cbn in H. injection H as <-.
  apply dict_get_set_inv in E as [-> | E]; [now left | right].
  now rewrite E.
Qed.


(** ** What [update_opinion] loads and what the two calls do *)

Lemma _matches_query_id (m : MemoryItem.t) (oid : UUID) :
  Memory._matches_query m [("id", Memory.QStr oid)]
  = Return (String.eqb (MemoryItem.id m) oid).
Proof.
  cbn. destruct (String.eqb (MemoryItem.id m) oid); reflexivity.
Qed.

Lemma collect_id (c : Cache.t) (oid : UUID) (keys : list string) :
  Memory.collect c [("id", Memory.QStr oid)] 1 keys []
  = Return (match first_match c oid keys with
            | Some d => [d]
            | None => []
            end).
Proof.
  induction keys as [|key rest IH].
  - reflexivity.
  - cbn [Memory.collect first_match].
    destruct (Cache.get c key) as [data|]; [|exact IH].
    rewrite _matches_query_id.
    destruct (String.eqb (MemoryItem.id data) oid); [reflexivity | exact IH].
Qed.

Lemma retrieve_by_id (w : World) (oid : UUID) :
  Memory.retrieve_memory [("id", Memory.QStr oid)] "all" 1 w
  = (Return (match loaded w oid with Some d => [d] | None => [] end), w).
Proof.
  unfold Memory.retrieve_memory, loaded. cbn [Memory.prefixes_of String.eqb
    Ascii.eqb Bool.eqb orb app Memory.collect_prefixes].
  rewrite collect_id.
  destruct (first_match (cache w) oid
              (Cache.scan (cache w) Memory.short_term_cache_prefix)) as [d|].
  - reflexivity.
  - cbn [Nat.leb List.length]. rewrite collect_id.
    destruct (first_match (cache w) oid
                (Cache.scan (cache w) Memory.core_memory_cache_prefix));
      reflexivity.
Qed.

(** The equation of [update_opinion]: what it returns and what it leaves
    behind, by what it loads. *)
Lemma update_opinion_eq (memory_id : UUID) (now : datetime) (oid : UUID)
    (new_evidence : list dict) (w : World) :
  OpinionSystem.update_opinion memory_id now oid new_evidence w
  = match loaded w oid with
    | None => (Raise (ValueError ("Opinion " ++ oid ++ " not found") None), w)
    | Some first =>
        match MemoryItem.content first with
        | COther d => (Raise (OpinionSystem.conversion_error d), w)
        | COpinion stored =>
            let o := revised stored now new_evidence in
            (Return o,
             if meets_thresholds o
             then after_move (handed_over first stored new_evidence)
                    (after_write memory_id now o w)
             else after_write memory_id now o w)
        end
    end.
Proof.
  unfold OpinionSystem.update_opinion, bind.
  rewrite retrieve_by_id.
  destruct (loaded w oid) as [first|]; [|reflexivity].
  destruct (MemoryItem.content first) as [stored|d] eqn:Hc;
    [|reflexivity].
  cbv zeta. unfold meets_thresholds, try_except, bind, ret.
  cbn [Opinion.confidence Opinion.validation_count Opinion.topic revised
       Opinion.with_confidence Opinion.with_last_updated
       Opinion.with_validation_count Opinion.with_evidence
       Memory.add_to_short_term].
  destruct (Qle_bool 0.8 _ && (3 <=? _)%Z); reflexivity.
Qed.

Lemma form_opinion_eq (oid mid : UUID) (now : datetime)
    (generated : Outcome string) (topic : string)
    (analysis_result context : dict) (w : World) :
  OpinionSystem.form_opinion oid mid now generated topic analysis_result
    context w
  = match OpinionSystem._create_opinion_prompt topic analysis_result context
    with
    | Raise e => (Raise e, w)
    | Return _ =>
        match generated with
        | Raise e => (Raise e, w)
        | Return text =>
            match OpinionSystem._calculate_confidence analysis_result with
            | Raise e => (Raise e, w)
            | Return c =>
                let o := formed oid now text topic c analysis_result context in
                (Return o,
                 if Qle_bool OpinionSystem.min_confidence c then
                   match OpinionSystem.current_symbols context with
                   | Return symbols =>
                       after_formation mid now o (VStr topic :: symbols) w
                   | Raise _ => w
                   end
                 else w)
            end
        end
    end.
Proof.
  unfold OpinionSystem.form_opinion, bind, lift.
  destruct (OpinionSystem._create_opinion_prompt _ _ _); [|reflexivity].
  destruct generated as [text|e]; [|reflexivity].
  destruct (OpinionSystem._calculate_confidence analysis_result) as [c|e];
    [|reflexivity].
  cbv zeta.
  destruct (Qle_bool OpinionSystem.min_confidence c); [|reflexivity].
  unfold try_except, bind, lift.
  destruct (OpinionSystem.current_symbols context); reflexivity.
Qed.

Lemma first_match_unanswered (c : Cache.t) (oid : UUID) (keys : list string) :
  unanswered c oid -> first_match c oid keys = None.
Proof.
  intros H. induction keys as [|key rest IH]; cbn; [reflexivity|].
  destruct (Cache.get c key) as [data|] eqn:E; [|exact IH].
  destruct (String.eqb_spec (MemoryItem.id data) oid) as [Heq|_];
    [|exact IH].
  now destruct (H key data E).
Qed.

Lemma loaded_unanswered (w : World) (oid : UUID) :
  unanswered (cache w) oid -> loaded w oid = None.
Proof.
  intros H. unfold loaded. now rewrite !first_match_unanswered.
Qed.

Lemma unanswered_after_set (c : Cache.t) (oid : UUID) (k : string)
    (v : MemoryItem.t) (ttl : option Z) :
  unanswered c oid -> MemoryItem.id v <> oid ->
  unanswered (Cache.set c k v ttl) oid.
Proof.
  intros H Hv key item Hget.
  apply cache_get_set_inv in Hget as [-> | Hget]; [exact Hv|].
  exact (H key item Hget).
Qed.

Lemma first_match_app (c : Cache.t) (oid : UUID) (a b : list string) :
  first_match c oid (a ++ b)
  = match first_match c oid a with
    | Some d => Some d
    | None => first_match c oid b
    end.
Proof.
  induction a as [|key rest IH]; cbn; [reflexivity|].
  destruct (Cache.get c key) as [data|]; [|exact IH].
  destruct (String.eqb (MemoryItem.id data) oid); [reflexivity | exact IH].
Qed.

Lemma first_match_after_set (c : Cache.t) (oid : UUID) (k : string)
    (v : MemoryItem.t) (ttl : option Z) (keys : list string) :
  MemoryItem.id v <> oid -> Cache.get c k = None ->
  first_match (Cache.set c k v ttl) oid keys = first_match c oid keys.
Proof.
  intros Hv Hk. induction keys as [|key rest IH]; cbn; [reflexivity|].
  destruct (String.eqb_spec k key) as [<-|Hne].
  - rewrite cache_get_set_same, Hk.
    now apply String.eqb_neq in Hv as ->.
  - rewrite cache_get_set_other by exact Hne.
    destruct (Cache.get c key) as [data|]; [|exact IH].
    destruct (String.eqb (MemoryItem.id data) oid); [reflexivity | exact IH].
Qed.

(** A write under a fresh memory id that is not the queried id does not
    change what the query loads. *)
Lemma loaded_after_write (mid : UUID) (now : datetime) (o : Opinion.t)
    (w : World) (oid : UUID) :
  mid <> oid ->
  Cache.get (cache w) (Memory.short_term_cache_prefix ++ mid) = None ->
  loaded (after_write mid now o w) oid = loaded w oid.
Proof.
  intros Hne Hfresh. unfold loaded, after_write. cbn [cache].
  rewrite scan_short_term_after_fresh_set by exact Hfresh.
  rewrite scan_core_after_short_term_set.
  rewrite !first_match_after_set by (cbn; assumption).
  rewrite first_match_app.
  destruct (first_match (cache w) oid
              (Cache.scan (cache w) Memory.short_term_cache_prefix));
    [reflexivity|].
  cbn [first_match]. now rewrite Hfresh.
Qed.

(** ** Confidence bounds *)

Lemma step_confidence_bounds (op : Op) (w w' : World) (o : Opinion.t) :
  step op w = (Return o, w') -> in_unit_interval (Opinion.confidence o).
Proof.
  destruct op as [oid mid now generated topic ar ctx | mid now oid ev];
    cbn [step].
  - rewrite form_opinion_eq.
    destruct (OpinionSystem._create_opinion_prompt _ _ _); [|discriminate].
    destruct generated; [|discriminate].
    destruct (OpinionSystem._calculate_confidence ar) as [c|] eqn:Hc;
      [|discriminate].
    cbv zeta. intros H. injection H as <- _.
    exact (_calculate_confidence_bounds ar c Hc).
  - rewrite update_opinion_eq.
    destruct (loaded w oid) as [first|]; [|discriminate].
    destruct (MemoryItem.content first) as [stored|d];
      [|discriminate].
    cbv zeta. intros H. injection H as <- _.
    apply _recalculate_confidence_bounds.
Qed.

(** In exact arithmetic, where no value is NaN: whatever the store holds
    at the start and whatever sequence of [form_opinion] and
    [update_opinion] calls is made, every opinion that a call returns has
    its confidence in the closed interval from 0 to 1. *)
Lemma exact_confidence_in_unit_interval (ops : list Op) (w : World) :
  Forall (fun r => match r with
                   | Return o => in_unit_interval (Opinion.confidence o)
                   | Raise _ => True
                   end)
         (fst (run ops w)).
Proof.
  revert w. induction ops as [|op rest IH]; intros w; cbn [run].
  - constructor.
  - destruct (step op w) as [r w'] eqn:Hstep.
    specialize (IH w'). destruct (run rest w') as [rs w''].
    cbn [fst] in *. constructor; [|exact IH].
    destruct r as [o|e]; [|exact I].
    exact (step_confidence_bounds op w w' o Hstep).
Qed.

(** The calls of the scenario do return opinions, so the bound above is
    about something. *)
Example scenario_returns :
  map summary (fst (run [FormOpinion "op-1" "mem-1" Scenario.now
                           (Return "bullish") "AAPL"
                           [("confidence", VFloat 0.675%Q)] [];
                         UpdateOpinion "mem-2" Scenario.now "mem-1"
                           [Scenario.supporting]]
                      empty_world))
  = [Some (Qred 0.675%Q, 1%Z, 1); Some (Qred 0.81675%Q, 2%Z, 2)].
Proof. vm_compute. reflexivity. Qed.

(** ** The bounds of the confidence on doubles *)





(** *** No NaN from rounding *)

Local Open Scope float_scope.






















Local Close Scope float_scope.

(** ** Repeated updates *)

(** C1. Let [update_opinion] find a stored opinion for the id it is given,
    let the memory id it draws be fresh and different from that id, and
    let the revised opinion not pass the promotion test. The call returns
    the revision of the stored snapshot: count plus one, confidence
    recomputed from the stored confidence. The same call made again, at
    any later instant, loads the same stored snapshot and returns the same
    revision of it, with the same count and the same confidence: the
    first call's result is not what the second starts from. *)
Theorem repeated_update_returns_the_same_revision
    (mid mid' : UUID) (now now' : datetime) (oid : UUID)
    (new_evidence : list dict) (w : World) (first : MemoryItem.t)
    (stored : Opinion.t)
    (Hloaded : loaded w oid = Some first)
    (Hcontent : MemoryItem.content first = COpinion stored)
    (Hids : mid <> oid)
    (Hfresh : Cache.get (cache w) (Memory.short_term_cache_prefix ++ mid)
              = None)
    (Hkeep : meets_thresholds (revised stored now new_evidence) = false) :
  let r1 := OpinionSystem.update_opinion mid now oid new_evidence w in
  let r2 := OpinionSystem.update_opinion mid' now' oid new_evidence (snd r1) in
  fst r1 = Return (revised stored now new_evidence)
  /\ fst r2 = Return (revised stored now' new_evidence)
  /\ Opinion.validation_count (revised stored now' new_evidence)
     = (Opinion.validation_count stored + 1)%Z
  /\ Opinion.confidence (revised stored now' new_evidence)
     = OpinionSystem._recalculate_confidence (Opinion.confidence stored)
         (Opinion.validation_count stored + 1) new_evidence.
Proof.
  cbv zeta.
  assert (H1 : OpinionSystem.update_opinion mid now oid new_evidence w
               = (Return (revised stored now new_evidence),
                  after_write mid now (revised stored now new_evidence) w)).
  { rewrite update_opinion_eq, Hloaded, Hcontent. cbv zeta. now rewrite Hkeep. }
  rewrite H1. cbn [fst snd]. split; [reflexivity|].
  split; [|split; reflexivity].
  rewrite update_opinion_eq, loaded_after_write by assumption.
  now rewrite Hloaded, Hcontent.
Qed.

Lemma repeated_update_returns_the_same_revision_witness :
  snapshot_at Scenario.w1 "st_memory:mem-1" = Some (Qred 0.675%Q, 1%Z, 1)
  /\ summary (fst Scenario.r2) = Some (Qred (0.675 * 1.1 * 1.1)%Q, 2%Z, 2)
  /\ fst Scenario.r3 = fst Scenario.r2
  /\ summary (fst Scenario.r3) = Some (Qred 0.81675%Q, 2%Z, 2)
  /\ summary (fst Scenario.r3) <> Some (1%Q, 3%Z, 3).
Proof.
  pose proof (repeated_update_returns_the_same_revision "mem-2" "mem-3"
                Scenario.now Scenario.now "mem-1" [Scenario.supporting]
                Scenario.w1
                (formation_record "mem-1" Scenario.now
                   (formed "op-1" Scenario.now "bullish" "AAPL" 0.675%Q
                      [("confidence", VFloat 0.675%Q)] [])
                   [VStr "AAPL"])
                (formed "op-1" Scenario.now "bullish" "AAPL" 0.675%Q
                   [("confidence", VFloat 0.675%Q)] []))
    as H.
  cbv zeta in H. destruct H as (H1 & H2 & _).
  - reflexivity.
  - reflexivity.
  - discriminate.
  - reflexivity.
  - reflexivity.
  - fold Scenario.r2 in H1, H2. fold Scenario.r3 in H2.
    split; [reflexivity|]. split; [reflexivity|].
    split; [now rewrite H1, H2|].
    rewrite H2. split; [reflexivity|]. vm_compute. discriminate.
Defined.

(** ** Looking up a formed opinion *)

(** C2. [form_opinion] persists the opinion in a record whose own id is the
    freshly drawn memory id; the opinion's id sits inside the record's
    content. [update_opinion] matches the query on the record's own id. So
    when the two drawn ids differ and nothing in the store already answers
    to the opinion's id, [form_opinion] returns the opinion and stores it
    (its confidence being at least 0.6), and [update_opinion], called with
    that opinion's id, raises the not-found error. *)
Theorem update_after_form_is_not_found
    (oid mid mid' : UUID) (now now' : datetime) (text topic : string)
    (analysis_result context : dict) (symbols : list PyVal) (c : Q)
    (new_evidence : list dict) (w : World)
    (Hstore : unanswered (cache w) oid)
    (Hids : mid <> oid)
    (Hprompt : OpinionSystem._create_opinion_prompt topic analysis_result
                 context = Return tt)
    (Hconf : OpinionSystem._calculate_confidence analysis_result = Return c)
    (Hmin : Qle_bool OpinionSystem.min_confidence c = true)
    (Hsym : OpinionSystem.current_symbols context = Return symbols) :
  let o := formed oid now text topic c analysis_result context in
  let w' := after_formation mid now o (VStr topic :: symbols) w in
  OpinionSystem.form_opinion oid mid now (Return text) topic analysis_result
    context w = (Return o, w')
  /\ Opinion.id o = oid
  /\ Cache.get (cache w') (Memory.short_term_cache_prefix ++ mid)
     = Some (formation_record mid now o (VStr topic :: symbols))
  /\ OpinionSystem.update_opinion mid' now' (Opinion.id o) new_evidence w'
     = (Raise (ValueError ("Opinion " ++ oid ++ " not found") None), w').
Proof.
  intros o w'. repeat split.
  - rewrite form_opinion_eq, Hprompt, Hconf. cbv zeta.
    now rewrite Hmin, Hsym.
  - apply cache_get_set_same.
  - rewrite update_opinion_eq. cbn [Opinion.id o formed].
    rewrite loaded_unanswered; [reflexivity|].
    apply unanswered_after_set; [exact Hstore | exact Hids].
Qed.

Lemma update_after_form_is_not_found_witness :
  OpinionSystem.form_opinion "op-1" "mem-1" Scenario.now (Return "bullish")
    "AAPL" [("confidence", VFloat 0.675%Q)] [] empty_world
  = (Return (formed "op-1" Scenario.now "bullish" "AAPL" 0.675%Q
               [("confidence", VFloat 0.675%Q)] []),
     Scenario.w1)
  /\ OpinionSystem.update_opinion "mem-2" Scenario.now "op-1"
       [Scenario.supporting] Scenario.w1
     = (Raise (ValueError "Opinion op-1 not found" None), Scenario.w1).
Proof.
  pose proof (update_after_form_is_not_found "op-1" "mem-1" "mem-2"
                Scenario.now Scenario.now "bullish" "AAPL"
                [("confidence", VFloat 0.675%Q)] [] [] 0.675%Q
                [Scenario.supporting] empty_world) as H.
  cbv zeta in H.
  destruct H as (Hform & _ & _ & Hupd).
  - intros key item Hget. discriminate Hget.
  - discriminate.
  - reflexivity.
  - reflexivity.
  - reflexivity.
  - reflexivity.
  - split; [exact Hform | exact Hupd].
Defined.

(** ** Promotion to the core tier *)

Lemma moves_app (a b : list Call) : moves (a ++ b) = moves a ++ moves b.
Proof.
  induction a as [|[item|item] rest IH]; cbn; [reflexivity | exact IH |].
  now rewrite IH.
Qed.

Lemma promotions_after_write (mid : UUID) (now : datetime) (o : Opinion.t)
    (w : World) :
  promotions (after_write mid now o w) = promotions w.
Proof.
  unfold promotions, after_write. cbn [calls]. rewrite moves_app. cbn.
  apply app_nil_r.
Qed.













(** ** What an update leaves in the store *)

(** The item handed to [move_to_core] is the loaded one: its content has
    the longer evidence list and the confidence and count it was loaded
    with. *)
Lemma promoted_item_is_the_loaded_one (mid : UUID) (now : datetime)
    (oid : UUID) (new_evidence : list dict) (w : World)
    (first : MemoryItem.t) (stored : Opinion.t) :
  loaded w oid = Some first ->
  MemoryItem.content first = COpinion stored ->
  meets_thresholds (revised stored now new_evidence) = true ->
  promotions (snd (OpinionSystem.update_opinion mid now oid new_evidence w))
  = promotions w
    ++ [MemoryItem.with_memory_type (handed_over first stored new_evidence)
          "core"].
Proof.
  intros Hl Hc Hm. rewrite update_opinion_eq, Hl, Hc. cbv zeta.
  rewrite Hm. cbn [snd]. unfold promotions, after_move. cbn [calls].
  rewrite moves_app.
  fold (promotions (after_write mid now (revised stored now new_evidence) w)).
  now rewrite promotions_after_write.
Qed.

(** C9. Let [update_opinion] find a stored opinion. The revised snapshot
    is written under the freshly drawn memory id, and that write leaves
    every other key of the store, the loaded record's included, as it was.
    When the revision passes the promotion test, the item handed to
    [move_to_core] is the loaded one: its content has the stored
    confidence and the stored count (only the evidence list is the longer
    one), not the recomputed ones. *)
Theorem update_writes_beside_the_loaded_record
    (mid : UUID) (now : datetime) (oid : UUID) (new_evidence : list dict)
    (w : World) (first : MemoryItem.t) (stored : Opinion.t)
    (Hloaded : loaded w oid = Some first)
    (Hcontent : MemoryItem.content first = COpinion stored) :
  let o := revised stored now new_evidence in
  let r := OpinionSystem.update_opinion mid now oid new_evidence w in
  let written := after_write mid now o w in
  fst r = Return o
  /\ snd r = (if meets_thresholds o
              then after_move (handed_over first stored new_evidence) written
              else written)
  /\ Cache.get (cache written) (Memory.short_term_cache_prefix ++ mid)
     = Some (update_record mid now o)
  /\ (forall key,
        (Memory.short_term_cache_prefix ++ mid)%string <> key ->
        Cache.get (cache written) key = Cache.get (cache w) key)
  /\ (if meets_thresholds o then
        promotions (snd r)
        = promotions w
          ++ [MemoryItem.with_memory_type
                (handed_over first stored new_evidence) "core"]
        /\ MemoryItem.content (handed_over first stored new_evidence)
           = COpinion (Opinion.with_evidence stored
                         (Opinion.evidence stored ++ new_evidence))
      else promotions (snd r) = promotions w).
Proof.
  cbv zeta. rewrite update_opinion_eq, Hloaded, Hcontent. cbv zeta.
  cbn [fst snd]. split; [reflexivity|]. split; [reflexivity|].
  split; [apply cache_get_set_same|].
  split; [intros key Hkey; now apply cache_get_set_other|].
  destruct (meets_thresholds (revised stored now new_evidence)).
  - split; [|reflexivity].
    unfold promotions, after_move. cbn [calls]. rewrite moves_app.
    fold (promotions (after_write mid now (revised stored now new_evidence) w)).
    now rewrite promotions_after_write.
  - apply promotions_after_write.
Qed.

Lemma update_writes_beside_the_loaded_record_witness :
  short_term_keys (snd Scenario.r2) = ["st_memory:mem-1"; "st_memory:mem-2"]
  /\ Cache.get (cache (snd Scenario.r2)) "st_memory:mem-1"
     = Cache.get (cache Scenario.w1) "st_memory:mem-1"
  /\ snapshot_at (snd Scenario.r2) "st_memory:mem-1"
     = Some (Qred 0.675%Q, 1%Z, 1)
  /\ snapshot_at (snd Scenario.r2) "st_memory:mem-2"
     = Some (Qred 0.81675%Q, 2%Z, 2)
  /\ summary (fst Scenario.r3') = Some (1%Q, 3%Z, 3)
  /\ promoted_by (fst Scenario.r3') = true
  /\ map MemoryItem.id (promotions (snd Scenario.r3')) = ["mem-2"]
  /\ snapshot_at (snd Scenario.r3') "core_memory:mem-2"
     = Some (Qred 0.81675%Q, 2%Z, 3)
  /\ snapshot_at (snd Scenario.r3') "st_memory:mem-3" = Some (1%Q, 3%Z, 3).
Proof.
  split; [reflexivity|]. split; [|repeat split; reflexivity].
  pose proof (update_writes_beside_the_loaded_record "mem-2" Scenario.now
                "mem-1" [Scenario.supporting] Scenario.w1
                (formation_record "mem-1" Scenario.now
                   (formed "op-1" Scenario.now "bullish" "AAPL" 0.675%Q
                      [("confidence", VFloat 0.675%Q)] [])
                   [VStr "AAPL"])
                (formed "op-1" Scenario.now "bullish" "AAPL" 0.675%Q
                   [("confidence", VFloat 0.675%Q)] [])
                eq_refl eq_refl) as H.
  cbv zeta in H. destruct H as (_ & Hw & _ & Hframe & _).
  unfold Scenario.r2. rewrite Hw.
  change (meets_thresholds _) with false. cbv iota.
  apply Hframe. discriminate.
Defined.

(** ** The feedback loop *)

(** [learn_from_feedback] itself writes one short-term record and
    returns. *)
Lemma learn_from_feedback_writes_one_record (mid : UUID) (now : datetime)
    (data_context outcome : dict) (previous_opinion : option Opinion.t)
    (w : World) :
  exists item,
    LearningSystem.learn_from_feedback mid now data_context outcome
      previous_opinion w
    = (Return tt,
       mk_world
         (Cache.set (cache w) (Memory.short_term_cache_prefix ++ mid) item
            (Some 86400%Z))
         (calls w ++ [AddToShortTerm item]))
    /\ MemoryItem.source item = "feedback_learning".
Proof. eexists. split; reflexivity. Qed.

(** C5. The orchestrator awaits [self.learning.learn_from_outcome], a
    name that [LearningSystem] does not define (its method is
    [learn_from_feedback]). Every call of [learn_from_interaction_outcome]
    therefore raises [AttributeError] at that point: no short-term record
    is written and [update_opinion] is not reached, whether or not the
    interaction carries a prior opinion. *)
Theorem learn_from_interaction_outcome_raises (learning_id update_id : UUID)
    (now : datetime) (interaction_data : CHAETRA.InteractionData)
    (actual_outcome : dict) (w : World) :
  LearningSystem.getattr "learn_from_feedback"
  = Some LearningSystem.Learn_from_feedback
  /\ LearningSystem.getattr "learn_from_outcome" = None
  /\ CHAETRA.learn_from_interaction_outcome learning_id update_id now
       interaction_data actual_outcome w
     = (Raise (AttributeError "LearningSystem" "learn_from_outcome"), w).
Proof. repeat split. Qed.

(** ** Context serialization *)

(** Induction on values, with the items of a list and the values of a
    dict covered. *)
Lemma PyVal_nested_ind (P : PyVal -> Prop) :
  P VNone ->
  (forall b, P (VBool b)) ->
  (forall z, P (VInt z)) ->
  (forall q, P (VFloat q)) ->
  (forall s, P (VStr s)) ->
  (forall d, P (VDatetime d)) ->
  (forall l, Forall P l -> P (VList l)) ->
  (forall entries,
      Forall (fun kv => P (snd kv)) entries -> P (VDict entries)) ->
  forall v, P v.
Proof.
  intros HN HB HI HF HS HD HL HE.
  fix IH 1. intros [ | b | z | q | s | d | l | entries].
  - exact HN.
  - apply HB.
  - apply HI.
  - apply HF.
  - apply HS.
  - apply HD.
  - apply HL. revert l. fix IHl 1. intros [|x rest].
    + constructor.
    + constructor; [apply IH | apply IHl].
  - apply HE. revert entries. fix IHe 1. intros [|[k x] rest].
    + constructor.
    + constructor; [apply IH | apply IHe].
Qed.

(** Where no list stands directly inside a list, the serialized value has
    no datetime left and [json.dumps] accepts it. *)
Lemma serialize_value_serializable (v : PyVal) :
  no_list_in_list v = true ->
  LLM.json_serializable (LLM.serialize_value v) = true.
Proof.
  induction v as [ | b | z | q | s | d | l IHl | entries IHe]
    using PyVal_nested_ind; try reflexivity.
  - cbn [no_list_in_list LLM.serialize_value LLM.json_serializable].
    induction IHl as [|item rest Hitem _ IHrest]; [reflexivity|].
    intros H. apply andb_true_iff in H as [Hi Hr].
    cbn [forallb]. rewrite (IHrest Hr), andb_true_r.
    destruct item; try reflexivity; [discriminate Hi | exact (Hitem Hi)].
  - cbn [no_list_in_list LLM.serialize_value LLM.json_serializable].
    induction IHe as [|[k x] rest Hx _ IHrest]; [reflexivity|].
    intros H. apply andb_true_iff in H as [Hi Hr].
    cbn [snd] in Hx. now rewrite (Hx Hi), (IHrest Hr).
Qed.

(** C8. A datetime inside a list inside a list is not converted: the list
    loop of [_serialize_context] converts items that are datetimes and
    recurses into items that are dicts, and appends every other item, a
    nested list included, as it is, whatever it holds. With a datetime in
    the nested list the serialized context still holds that datetime,
    which [json.dumps] refuses, so the provider call raises before any
    request is sent. A datetime directly under a key, inside a nested dict,
    or directly inside a list is converted. *)
Theorem datetime_in_nested_list_is_not_converted
    (key : string) (d : datetime) (inner : list PyVal) :
  LLM._serialize_context (Some [(key, VList [VList inner])])
  = Some [(key, VList [VList inner])]
  /\ LLM._serialize_context (Some [(key, VList [VList [VDatetime d]])])
     = Some [(key, VList [VList [VDatetime d]])]
  /\ LLM.render_context (Some [(key, VList [VList [VDatetime d]])])
     = Raise (TypeError "Object of type datetime is not JSON serializable")
  /\ LLM._serialize_context
       (Some [("at", VDatetime d);
              ("inner", VDict [("t", VDatetime d)]);
              ("seen", VList [VDatetime d; VDict [("t", VDatetime d)]])])
     = Some [("at", VStr (isoformat d));
             ("inner", VDict [("t", VStr (isoformat d))]);
             ("seen", VList [VStr (isoformat d);
                             VDict [("t", VStr (isoformat d))]])].
Proof. repeat split. Qed.

(** ** The gateway: fallback *)

Lemma _initialize_providers_named (cfg : LLM.Settings) (order : list string)
    (acc : list (string * LLM.Provider)) :
  named_by_key acc -> named_by_key (LLM._initialize_providers cfg order acc).
Proof.
  revert acc. induction order as [|name rest IH]; intros acc Hacc; cbn.
  - exact Hacc.
  - apply IH. destruct (LLM.ready cfg name); [|exact Hacc].
    intros k p Hget.
    destruct (String.eqb_spec name k) as [->|Hne].
    + rewrite dict_get_set_same in Hget. now injection Hget as <-.
    + rewrite dict_get_set_other in Hget by exact Hne. now apply Hacc.
Qed.

Lemma first_available_found (order : list string)
    (ps : list (string * LLM.Provider)) (d : string) :
  LLM.first_available order ps = Some d -> exists p, dict_get ps d = Some p.
Proof.
  induction order as [|name rest IH]; cbn; [discriminate|].
  destruct (dict_get ps name) as [p|] eqn:E; [|exact IH].
  intros H; injection H as <-. now exists p.
Qed.

(** A manager that [create] returns has a default provider, which is one
    of its providers. *)
Lemma create_has_default (cfg : LLM.Settings) (m : LLM.LLMManager) :
  LLM.create cfg = Return m ->
  exists d p,
    LLM.default_provider_name m = Some d
    /\ dict_get (LLM.providers m) d = Some p
    /\ named_by_key (LLM.providers m).
Proof.
  unfold LLM.create.
  pose proof (_initialize_providers_named cfg (LLM.LLM_PROVIDER_ORDER cfg) [])
    as Hnamed.
  destruct (LLM._initialize_providers cfg (LLM.LLM_PROVIDER_ORDER cfg) [])
    as [|entry ps] eqn:Hps; [discriminate|].
  destruct (LLM.first_available _ _) as [[|ch d]|] eqn:Hd; try discriminate.
  intros H; injection H as <-. cbn.
  destruct (first_available_found _ _ _ Hd) as [p Hp].
  exists (String ch d), p. repeat split; try assumption.
  apply Hnamed. intros k p' Hk. discriminate Hk.
Qed.

Lemma _get_provider_default (m : LLM.LLMManager) (d : string)
    (p : LLM.Provider) :
  LLM.default_provider_name m = Some d ->
  dict_get (LLM.providers m) d = Some p ->
  LLM._get_provider m None = Some p.
Proof. intros Hd Hp. cbn. now rewrite Hd. Qed.

Lemma _get_provider_total (m : LLM.LLMManager) (d : string)
    (p : LLM.Provider) (requested : option string) :
  LLM.default_provider_name m = Some d ->
  dict_get (LLM.providers m) d = Some p ->
  exists q, LLM._get_provider m requested = Some q.
Proof.
  intros Hd Hp. unfold LLM._get_provider. rewrite Hd, Hp.
  destruct requested as [n|]; [|now exists p].
  destruct (negb (String.eqb n EmptyString)); [|now exists p].
  destruct (dict_get (LLM.providers m) n) as [q|]; [now exists q|now exists p].
Qed.

(** C6. On a manager that [create] returned, [generate_text] calls the
    requested-or-default provider. If that call returns, its text is the
    result and no other call is made. If it raises and the provider is the
    default, the exception is raised to the caller after that one call. If
    it raises and the provider is not the default, exactly one more call
    is made, to the default provider, after the first; what that call
    does is the result, so a failure of the retry is raised too. No run
    makes more than two provider calls. *)
Theorem generate_text_retries_default_once (cfg : LLM.Settings)
    (m : LLM.LLMManager) (backend : LLM.Backend) (requested : option string)
    (Hcreate : LLM.create cfg = Return m) :
  exists d p,
    LLM.default_provider_name m = Some d
    /\ LLM._get_provider m requested = Some p
    /\ LLM.generate_text backend m requested []
       = match backend (LLM.provider_name p) with
         | Return text => (Return text, [LLM.provider_name p])
         | Raise e =>
             if String.eqb (LLM.provider_name p) d then (Raise e, [d])
             else (backend d, [LLM.provider_name p; d])
         end
    /\ (List.length (snd (LLM.generate_text backend m requested [])) <= 2)%nat.
Proof.
  destruct (create_has_default cfg m Hcreate) as (d & pd & Hd & Hpd & Hn).
  destruct (_get_provider_total m d pd requested Hd Hpd) as [p Hp].
  exists d, p. split; [exact Hd|]. split; [exact Hp|].
  assert (Heq : LLM.generate_text backend m requested []
       = match backend (LLM.provider_name p) with
         | Return text => (Return text, [LLM.provider_name p])
         | Raise e =>
             if String.eqb (LLM.provider_name p) d then (Raise e, [d])
             else (backend d, [LLM.provider_name p; d])
         end).
  { unfold LLM.generate_text. rewrite Hp.
    unfold try_except, LLM.provider_generate_text, LLM.is_default.
    rewrite Hd. cbn [app].
    destruct (backend (LLM.provider_name p)) as [text|e]; [reflexivity|].
    destruct (String.eqb_spec (LLM.provider_name p) d) as [->|Hne];
      cbn [negb]; [reflexivity|].
    rewrite (_get_provider_default m d pd Hd Hpd). cbn [app].
    now rewrite (Hn d pd Hpd). }
  split; [exact Heq|]. rewrite Heq.
  destruct (backend (LLM.provider_name p)); cbn; [lia|].
  destruct (String.eqb (LLM.provider_name p) d); cbn; lia.
Qed.

Lemma generate_text_retries_default_once_witness :
  LLM.generate_text Gateway.ollama_down Gateway.manager (Some "ollama") []
  = (Return "fine", ["ollama"; "openai"])
  /\ LLM.generate_text Gateway.all_down Gateway.manager (Some "ollama") []
     = (Raise (Gateway.refused "openai"), ["ollama"; "openai"])
  /\ LLM.generate_text Gateway.all_down Gateway.manager None []
     = (Raise (Gateway.refused "openai"), ["openai"]).
Proof.
  assert (Hc : LLM.create Gateway.cfg = Return Gateway.manager)
    by reflexivity.
  split; [|split].
  - destruct (generate_text_retries_default_once Gateway.cfg Gateway.manager
                Gateway.ollama_down (Some "ollama") Hc)
      as (d & p & Hd & Hp & Heq & _).
    cbv in Hd. injection Hd as <-. cbv in Hp. injection Hp as <-.
    rewrite Heq. reflexivity.
  - destruct (generate_text_retries_default_once Gateway.cfg Gateway.manager
                Gateway.all_down (Some "ollama") Hc)
      as (d & p & Hd & Hp & Heq & _).
    cbv in Hd. injection Hd as <-. cbv in Hp. injection Hp as <-.
    rewrite Heq. reflexivity.
  - destruct (generate_text_retries_default_once Gateway.cfg Gateway.manager
                Gateway.all_down None Hc)
      as (d & p & Hd & Hp & Heq & _).
    cbv in Hd. injection Hd as <-. cbv in Hp. injection Hp as <-.
    rewrite Heq. reflexivity.
Defined.

(** ** The gateway: structured output *)

(** The equation of [generate_structured_output]. *)
Lemma generate_structured_output_eq (json_loads : string -> option PyVal)
    (backend : LLM.Backend) (m : LLM.LLMManager) (requested : option string)
    (log : LLM.CallLog) :
  LLM.generate_structured_output json_loads backend m requested log
  = match LLM._get_provider m requested with
    | None =>
        (Raise (ValueError ("No provider available. Requested: "
                              ++ LLM.show_requested requested) None), log)
    | Some p =>
        (match backend (LLM.provider_name p) with
         | Raise e => Raise e
         | Return raw =>
             match json_loads (LLM.unfence (LLM.strip raw)) with
             | Some v => Return v
             | None =>
                 Raise (ValueError LLM.parse_error_message
                          (Some (JSONDecodeError
                                   (LLM.unfence (LLM.strip raw)))))
             end
         end,
         log ++ [LLM.provider_name p])
    end.
Proof.
  unfold LLM.generate_structured_output.
  destruct (LLM._get_provider m requested) as [p|]; [|reflexivity].
  unfold try_except, bind, LLM.provider_generate_text.
  destruct (backend (LLM.provider_name p)) as [raw|e]; [|reflexivity].
  cbv zeta. destruct (json_loads _); reflexivity.
Qed.

(** C10. [generate_structured_output] makes exactly one provider call, to
    the requested-or-default provider, whatever that call does; when the
    call raises, that exception is the result. With Ollama down and OpenAI
    the default, a request for Ollama fails there, where [generate_text]
    goes on to OpenAI and returns its text. *)
Theorem structured_output_makes_one_call
    (json_loads : string -> option PyVal) (backend : LLM.Backend)
    (m : LLM.LLMManager) (requested : option string) :
  match LLM._get_provider m requested with
  | None =>
      snd (LLM.generate_structured_output json_loads backend m requested [])
      = []
  | Some p =>
      snd (LLM.generate_structured_output json_loads backend m requested [])
      = [LLM.provider_name p]
      /\ match backend (LLM.provider_name p) with
         | Raise e =>
             fst (LLM.generate_structured_output json_loads backend m
                    requested []) = Raise e
         | Return _ => True
         end
  end
  /\ LLM.generate_structured_output json_loads Gateway.ollama_down
       Gateway.manager (Some "ollama") []
     = (Raise (Gateway.refused "ollama"), ["ollama"])
  /\ LLM.generate_text Gateway.ollama_down Gateway.manager (Some "ollama") []
     = (Return "fine", ["ollama"; "openai"]).
Proof.
  split; [|split; reflexivity].
  rewrite generate_structured_output_eq.
  destruct (LLM._get_provider m requested) as [p|]; [|reflexivity].
  cbn [fst snd app]. split; [reflexivity|].
  now destruct (backend (LLM.provider_name p)).
Qed.

Lemma lower_app (a b : string) :
  LLM.lower (a ++ b) = (LLM.lower a ++ LLM.lower b)%string.
Proof. induction a as [|c a IH]; cbn; [reflexivity | now rewrite IH]. Qed.


Lemma str_drop_append (a b : string) :
  LLM.str_drop (String.length a) (a ++ b)%string = b.
Proof. induction a as [|c a IH]; cbn; [reflexivity | exact IH]. Qed.

Lemma str_take_append (a b : string) :
  LLM.str_take (String.length a) (a ++ b)%string = a.
Proof. induction a as [|c a IH]; cbn; [reflexivity | now rewrite IH]. Qed.

Lemma endswith_append (a b : string) :
  LLM.endswith (a ++ b)%string b = true.
Proof.
  unfold LLM.endswith. rewrite length_append.
  replace (String.length a + String.length b - String.length b)%nat
    with (String.length a) by lia.
  rewrite str_drop_append, String.eqb_refl, andb_true_r.
  apply Nat.leb_le. lia.
Qed.








(* ================================================================== *)
(** * Further properties of the memory system *)
(* ================================================================== *)

Lemma memory_data_number (m : MemoryItem.t) (key : string) :
  Memory.memory_data m key = Some Memory.FNumber -> number_field key = true.
Proof.
  unfold Memory.memory_data, number_field.
  repeat match goal with
         | |- context [String.eqb key ?k] =>
             destruct (String.eqb key k); try discriminate; try reflexivity
         end.
Qed.

Lemma safe_query_returns (m : MemoryItem.t) (q : Memory.Query) :
  safe_query q = true -> exists b, Memory._matches_query m q = Return b.
Proof.
  induction q as [|[key value] rest IH]; cbn [safe_query forallb fst snd].
  - intros _. now exists true.
  - intros H. apply andb_true_iff in H as [Hv Hrest].
    cbn [Memory._matches_query].
    destruct (Memory.memory_data m key) as [f|] eqn:Hf; [|now exists false].
    destruct value as [s|vs].
    + destruct f; try (now exists false).
      destruct (String.eqb s0 s); [now apply IH | now exists false].
    + assert (Hany : exists b, Memory.any_in vs f = Return b).
      { destruct f; cbn [Memory.any_in]; try (eexists; reflexivity).
        destruct vs as [|v vs]; [now exists false|].
        apply memory_data_number in Hf. rewrite Hf in Hv. discriminate Hv. }
      destruct Hany as [[|] ->]; [now apply IH | now exists false].
Qed.

Lemma collect_spec (c : Cache.t) (q : Memory.Query) (limit : nat) :
  (forall m, exists b, Memory._matches_query m q = Return b) ->
  forall keys acc,
  exists res,
    Memory.collect c q limit keys acc = Return res
    /\ firstn limit res
       = firstn limit (acc ++ filter (matches q) (records c keys))
    /\ (List.length res < limit ->
        res = acc ++ filter (matches q) (records c keys)).
Proof.
  intros Hq. induction keys as [|key rest IH]; intros acc.
  - exists acc. cbn. rewrite app_nil_r. now repeat split.
  - cbn [Memory.collect records].
    destruct (Cache.get c key) as [data|]; [|apply IH].
    cbn [filter].
    destruct (Hq data) as [b Hb].
    assert (Hm : matches q data = b)
      by (unfold matches; rewrite Hb; now destruct b).
    rewrite Hb, Hm. destruct b.
    + destruct (Nat.leb_spec limit (List.length (acc ++ [data]))) as [Hle|Hlt].
      * exists (acc ++ [data]). split; [reflexivity|]. split.
        -- replace (acc ++ data :: filter (matches q) (records c rest))
             with ((acc ++ [data]) ++ filter (matches q) (records c rest))
             by now rewrite <- app_assoc.
           rewrite (firstn_app limit (acc ++ [data])).
           replace (limit - List.length (acc ++ [data])) with 0 by lia.
           cbn [firstn]. now rewrite app_nil_r.
        -- intros H. lia.
      * destruct (IH (acc ++ [data])) as (res & H1 & H2 & H3).
        exists res. rewrite <- app_assoc in H2, H3.
        split; [exact H1 | split; [exact H2 | exact H3]].
    + apply IH.
Qed.

Lemma records_app (c : Cache.t) (a b : list string) :
  records c (a ++ b) = records c a ++ records c b.
Proof.
  induction a as [|key rest IH]; cbn; [reflexivity|].
  destruct (Cache.get c key); cbn; now rewrite IH.
Qed.

Lemma collect_prefixes_spec (c : Cache.t) (q : Memory.Query) (limit : nat) :
  (forall m, exists b, Memory._matches_query m q = Return b) ->
  forall prefixes acc,
  exists res,
    Memory.collect_prefixes c q limit prefixes acc = Return res
    /\ firstn limit res
       = firstn limit
           (acc ++ filter (matches q)
                     (records c (flat_map (Cache.scan c) prefixes))).
Proof.
  intros Hq. induction prefixes as [|p rest IH]; intros acc.
  - exists acc. cbn. now rewrite app_nil_r.
  - cbn [Memory.collect_prefixes flat_map].
    destruct (collect_spec c q limit Hq (Cache.scan c p) acc)
      as (res1 & -> & H2 & H3).
    rewrite records_app, filter_app, app_assoc.
    destruct (Nat.leb_spec limit (List.length res1)) as [Hle|Hlt].
    + exists res1. split; [reflexivity|].
      rewrite firstn_app, <- H2.
      assert (Hlen : limit
                     <= List.length (acc ++ filter (matches q)
                                              (records c (Cache.scan c p)))).
      { apply (f_equal (@List.length _)) in H2.
        rewrite !length_firstn in H2. lia. }
      replace (limit - _) with 0 by lia. cbn [firstn]. now rewrite app_nil_r.
    + rewrite <- (H3 Hlt). apply IH.
Qed.

Lemma retrieve_memory_total (q : Memory.Query) (memory_type : string)
    (limit : nat) (w : World) :
  (forall m, exists b, Memory._matches_query m q = Return b) ->
  Memory.retrieve_memory q memory_type limit w
  = (Return (firstn limit
               (filter (matches q) (scanned (cache w) memory_type))),
     w).
Proof.
  intros Hq. unfold Memory.retrieve_memory, scanned.
  destruct (collect_prefixes_spec (cache w) q limit Hq
              (Memory.prefixes_of memory_type) []) as (res & -> & H).
  now rewrite H.
Qed.

Lemma retrieve_memory_safe (q : Memory.Query) (memory_type : string)
    (limit : nat) (w : World) :
  safe_query q = true ->
  Memory.retrieve_memory q memory_type limit w
  = (Return (firstn limit
               (filter (matches q) (scanned (cache w) memory_type))),
     w).
Proof.
  intros Hsafe. apply retrieve_memory_total.
  intros m. now apply safe_query_returns.
Qed.

(** X1. For a query that tests no list against a number field,
    [retrieve_memory] returns the first [limit] matching records in scan
    order, short-term tier before core tier, and leaves the store as it
    is: the two loops with their breaks are a filter cut at [limit]. *)
Theorem retrieve_memory_is_a_cut_filter (q : Memory.Query)
    (memory_type : string) (limit : nat) (w : World)
    (Hsafe : safe_query q = true) :
  Memory.retrieve_memory q memory_type limit w
  = (Return (firstn limit
               (filter (matches q) (scanned (cache w) memory_type))),
     w).
Proof.
  unfold Memory.retrieve_memory, scanned.
  destruct (collect_prefixes_spec (cache w) q limit
              (fun m => safe_query_returns m q Hsafe)
              (Memory.prefixes_of memory_type) []) as (res & Hres & Hcut).
  rewrite Hres. now rewrite Hcut.
Qed.

Lemma retrieve_memory_is_a_cut_filter_witness :
  fst (Memory.retrieve_memory [("tags", Memory.QList ["AAPL"])] "all" 1
         (snd Scenario.r2))
  = Return [formation_record "mem-1" Scenario.now
              (formed "op-1" Scenario.now "bullish" "AAPL" 0.675%Q
                 [("confidence", VFloat 0.675%Q)] [])
              [VStr "AAPL"]]
  /\ List.length
       (filter (matches [("tags", Memory.QList ["AAPL"])])
          (scanned (cache (snd Scenario.r2)) "all")) = 2.
Proof.
  split; [|reflexivity].
  rewrite (retrieve_memory_is_a_cut_filter [("tags", Memory.QList ["AAPL"])]
             "all" 1 (snd Scenario.r2) eq_refl).
  reflexivity.
Defined.

Lemma memory_data_is_field (m : MemoryItem.t) (key : string) :
  is_field key = false -> Memory.memory_data m key = None.
Proof.
  unfold is_field, memory_item_fields, Memory.memory_data.
  cbn [existsb]. intros H.
  repeat (apply orb_false_iff in H as [-> H]). reflexivity.
Qed.

Lemma matches_unknown_key (m : MemoryItem.t) (q : Memory.Query)
    (key : string) (value : Memory.QueryValue) :
  In (key, value) q -> is_field key = false -> matches q m = false.
Proof.
  intros Hin Hkey. unfold matches.
  induction q as [|[k v] rest IH]; [destruct Hin|].
  cbn [Memory._matches_query].
  destruct Hin as [Heq|Hin].
  - injection Heq as -> ->. now rewrite memory_data_is_field.
  - destruct (Memory.memory_data m k) as [f|]; [|reflexivity].
    destruct v as [s|vs].
    + destruct f; try reflexivity.
      destruct (String.eqb s0 s); [now apply IH | reflexivity].
    + destruct (Memory.any_in vs f) as [[|]|]; try reflexivity.
      now apply IH.
Qed.

Lemma filter_none {A : Type} (f : A -> bool) (l : list A) :
  (forall x, f x = false) -> filter f l = [].
Proof.
  intros H. induction l as [|x rest IH]; cbn; [reflexivity|].
  now rewrite H.
Qed.

Lemma matches_query_unknown_key (m : MemoryItem.t)
    (before after : Memory.Query) (key : string)
    (value : Memory.QueryValue) :
  is_field key = false ->
  safe_query before = true ->
  Memory._matches_query m (before ++ (key, value) :: after) = Return false.
Proof.
  intros Hkey. induction before as [|[k v] rest IH];
    cbn [app Memory._matches_query safe_query forallb fst snd].
  - intros _. now rewrite memory_data_is_field.
  - intros H. apply andb_true_iff in H as [Hv Hrest].
    destruct (Memory.memory_data m k) as [f|] eqn:Hf; [|reflexivity].
    destruct v as [s|vs].
    + destruct f; try reflexivity.
      destruct (String.eqb s0 s); [now apply IH | reflexivity].
    + destruct f; cbn [Memory.any_in].
      * destruct (existsb _ vs); [now apply IH | reflexivity].
      * destruct vs as [|v vs]; [reflexivity|].
        apply memory_data_number in Hf. rewrite Hf in Hv. discriminate Hv.
      * destruct (existsb _ vs); [now apply IH | reflexivity].
      * destruct (existsb _ vs); [now apply IH | reflexivity].
Qed.

(** X2. A key that is not one of the nine fields of a memory item is not
    treated as a wildcard: a query that names such a key, with no test of
    a list against a number field before it, matches no record, whatever
    the query asks after that key. Such a query, and so every query whose
    first key is of this kind, retrieves nothing from any store, for any
    memory type and limit. *)
Theorem unknown_key_retrieves_nothing (before after : Memory.Query)
    (key : string) (value : Memory.QueryValue) (memory_type : string)
    (limit : nat) (w : World)
    (Hkey : is_field key = false)
    (Hbefore : safe_query before = true) :
  (forall m,
      Memory._matches_query m (before ++ (key, value) :: after)
      = Return false)
  /\ Memory.retrieve_memory (before ++ (key, value) :: after) memory_type
       limit w
     = (Return [], w).
Proof.
  assert (Hm : forall m,
             Memory._matches_query m (before ++ (key, value) :: after)
             = Return false)
    by (intros m; now apply matches_query_unknown_key).
  split; [exact Hm|].
  rewrite retrieve_memory_total by (intros m; eexists; apply Hm).
  rewrite filter_none by (intros m; unfold matches; now rewrite Hm).
  now destruct limit.
Qed.

Lemma unknown_key_retrieves_nothing_witness :
  Memory.retrieve_memory
    [("type", Memory.QStr "core_pattern");
     ("confidence", Memory.QList ["high"])] "core" 3 Listed.w
  = (Return [], Listed.w)
  /\ core_keys Listed.w = ["core_memory:mem-7"].
Proof.
  split; [|reflexivity].
  apply (unknown_key_retrieves_nothing []
           [("confidence", Memory.QList ["high"])] "type"
           (Memory.QStr "core_pattern") "core" 3 Listed.w).
  - reflexivity.
  - reflexivity.
Defined.

Lemma number_field_raises (m : MemoryItem.t) (key v : string)
    (vs : list string) (rest : Memory.Query) :
  number_field key = true ->
  Memory._matches_query m ((key, Memory.QList (v :: vs)) :: rest)
  = Raise (TypeError "argument is not iterable").
Proof.
  unfold number_field. intros H. apply orb_true_iff in H as [H|H];
    apply String.eqb_eq in H; subst key; reflexivity.
Qed.

Lemma collect_raising (c : Cache.t) (q : Memory.Query) (e : Exn)
    (limit : nat) (keys : list string) (acc : list MemoryItem.t) :
  (forall m, Memory._matches_query m q = Raise e) ->
  Memory.collect c q limit keys acc
  = match records c keys with
    | [] => Return acc
    | _ :: _ => Raise e
    end.
Proof.
  intros H. induction keys as [|key rest IH]; cbn; [reflexivity|].
  destruct (Cache.get c key) as [data|]; [|exact IH].
  now rewrite H.
Qed.

Lemma collect_prefixes_raising (c : Cache.t) (q : Memory.Query) (e : Exn)
    (limit : nat) (prefixes : list string) :
  (forall m, Memory._matches_query m q = Raise e) ->
  Memory.collect_prefixes c q (S limit) prefixes []
  = match records c (flat_map (Cache.scan c) prefixes) with
    | [] => Return []
    | _ :: _ => Raise e
    end.
Proof.
  intros H. induction prefixes as [|p rest IH]; cbn [Memory.collect_prefixes
    flat_map]; [reflexivity|].
  rewrite (collect_raising c q e) by exact H. rewrite records_app.
  destruct (records c (Cache.scan c p)) as [|x xs]; [|reflexivity].
  cbn [app List.length Nat.leb]. exact IH.
Qed.

(** X3. A query that tests a non-empty list against [confidence] or
    [validation_count] makes [retrieve_memory] raise [TypeError] as soon
    as it examines a record: with a limit of at least one it raises
    whenever the tiers it scans hold any record at all, and returns the
    empty list only when they hold none. *)
Theorem list_query_on_number_field_raises (key v : string)
    (vs : list string) (rest : Memory.Query) (memory_type : string)
    (limit : nat) (w : World)
    (Hkey : number_field key = true) :
  fst (Memory.retrieve_memory ((key, Memory.QList (v :: vs)) :: rest)
         memory_type (S limit) w)
  = match scanned (cache w) memory_type with
    | [] => Return []
    | _ :: _ => Raise (TypeError "argument is not iterable")
    end.
Proof.
  unfold Memory.retrieve_memory, scanned. cbn [fst].
  rewrite (collect_prefixes_raising (cache w) _
             (TypeError "argument is not iterable")).
  - now destruct (records _ _).
  - intros m. now apply number_field_raises.
Qed.

Lemma list_query_on_number_field_raises_witness :
  fst (Memory.retrieve_memory [("confidence", Memory.QList ["high"])] "all"
         10 Scenario.w1)
  = Raise (TypeError "argument is not iterable")
  /\ fst (Memory.retrieve_memory [("confidence", Memory.QList ["high"])]
            "core" 10 Scenario.w1)
     = Return [].
Proof.
  split.
  - rewrite (list_query_on_number_field_raises "confidence" "high" [] []
               "all" 9 Scenario.w1 eq_refl).
    reflexivity.
  - rewrite (list_query_on_number_field_raises "confidence" "high" [] []
               "core" 9 Scenario.w1 eq_refl).
    reflexivity.
Defined.

Lemma existsb_eqb_in (k : string) (keys : list string) :
  In k keys -> existsb (String.eqb k) keys = true.
Proof.
  intros H. apply existsb_exists. exists k. split; [exact H|].
  apply String.eqb_refl.
Qed.

Lemma existsb_eqb_not_in (k : string) (keys : list string) :
  ~ In k keys -> existsb (String.eqb k) keys = false.
Proof.
  intros H. destruct (existsb (String.eqb k) keys) eqn:E; [|reflexivity].
  apply existsb_exists in E as (x & Hx & Hxk).
  apply String.eqb_eq in Hxk. subst x. now destruct H.
Qed.

Lemma scanned_tiers (c : Cache.t) (memory_type : string) :
  scanned c memory_type
  = records c
      ((if String.eqb memory_type "all"
           || String.eqb memory_type "short_term"
        then Cache.scan c Memory.short_term_cache_prefix else [])
       ++ (if String.eqb memory_type "all" || String.eqb memory_type "core"
           then Cache.scan c Memory.core_memory_cache_prefix else [])).
Proof.
  unfold scanned, Memory.prefixes_of.
  destruct (String.eqb memory_type "all" || String.eqb memory_type "short_term"),
    (String.eqb memory_type "all" || String.eqb memory_type "core");
    cbn [flat_map app]; now rewrite ?app_nil_r.
Qed.

(** *** The status report *)

Lemma cache_get_in_keys (c : Cache.t) (k : string) :
  In k (dict_keys c) -> exists v, Cache.get c k = Some v.
Proof.
  unfold Cache.get, dict_keys.
  induction c as [|[k' e] rest IH]; cbn; [intros []|].
  intros [->|Hin].
  - rewrite String.eqb_refl. now eexists.
  - destruct (String.eqb k' k); [now eexists | now apply IH].
Qed.

Lemma records_length (c : Cache.t) (keys : list string) :
  (forall k, In k keys -> In k (dict_keys c)) ->
  List.length (records c keys) = List.length keys.
Proof.
  induction keys as [|k rest IH]; intros H; [reflexivity|].
  cbn [records].
  destruct (cache_get_in_keys c k (H k (or_introl eq_refl))) as [v ->].
  cbn [List.length]. f_equal. apply IH. intros k' Hk'. apply H. now right.
Qed.

Lemma filter_all {A : Type} (f : A -> bool) (l : list A) :
  (forall x, f x = true) -> filter f l = l.
Proof.
  intros H. induction l as [|x rest IH]; cbn; [reflexivity|].
  now rewrite H, IH.
Qed.

(** X6. [get_system_status_and_recent_learnings] never reports a learned
    pattern: its query for patterns names the key ["type"], which no
    stored record has at its top level, so the pattern count is 0 and the
    sample is empty whatever the store holds, and the [Pattern]
    constructor is never run. The call returns, leaves the store as it
    is, and counts the core records up to three. *)
Theorem status_never_reports_a_pattern
    (pattern_name : Content -> Outcome PyVal) (llm : LLM.LLMManager)
    (w : World) :
  Brain.get_system_status_and_recent_learnings pattern_name llm w
  = (Return
       (Brain.mk_status "Operational" (LLM.default_provider_name llm)
          (Nat.min 3
             (List.length
                (Cache.scan (cache w) Memory.core_memory_cache_prefix)))
          0 []),
     w).
Proof.
  unfold Brain.get_system_status_and_recent_learnings, bind, lift, ret.
  rewrite retrieve_memory_safe by reflexivity.
  rewrite retrieve_memory_safe by reflexivity.
  rewrite (filter_none (matches [("type", Memory.QStr "core_pattern")]))
    by (intros m;
        apply (matches_unknown_key m [("type", Memory.QStr "core_pattern")]
                 "type" (Memory.QStr "core_pattern"));
        [now left | reflexivity]).
  rewrite (filter_all (matches [])) by reflexivity.
  rewrite length_firstn, scanned_tiers.
  cbn [firstn Brain.names List.length].
  cbn [String.eqb Ascii.eqb Bool.eqb orb app].
  rewrite records_length; [reflexivity|].
  intros k Hk. unfold Cache.scan in Hk. now apply filter_In in Hk.
Qed.

(** *** Forming and revising opinions *)

(** X7. An opinion whose computed confidence is below 0.6 is returned to
    the caller but not stored: [form_opinion] leaves the store and the
    record of memory calls as they were. The opinion returned has the
    text of the gateway as belief, the computed confidence and validation
    count 1. *)
Theorem weak_opinion_is_returned_but_not_stored
    (opinion_id memory_id : UUID) (now : datetime) (text topic : string)
    (analysis_result context : dict) (c : Q) (w : World)
    (Hctx : LLM.json_serializable (VDict context) = true)
    (Hconf : OpinionSystem._calculate_confidence analysis_result = Return c)
    (Hweak : (c < 0.6)%Q) :
  exists o,
    OpinionSystem.form_opinion opinion_id memory_id now (Return text) topic
      analysis_result context w = (Return o, w)
    /\ Opinion.id o = opinion_id
    /\ Opinion.belief o = text
    /\ Opinion.confidence o = c
    /\ Opinion.validation_count o = 1%Z.
Proof.
  eexists. split.
  - rewrite form_opinion_eq. unfold OpinionSystem._create_opinion_prompt.
    rewrite Hctx, Hconf. cbv zeta.
    assert (E : Qle_bool OpinionSystem.min_confidence c = false).
    { destruct (Qle_bool OpinionSystem.min_confidence c) eqn:E;
        [|reflexivity].
      apply Qle_bool_iff in E. unfold OpinionSystem.min_confidence in E.
      exfalso. exact (Qlt_not_le _ _ Hweak E). }
    rewrite E. reflexivity.
  - now repeat split.
Qed.

Lemma weak_opinion_is_returned_but_not_stored_witness :
  exists o,
    OpinionSystem.form_opinion "op-1" "mem-1" Scenario.now (Return "bullish")
      "AAPL" [] [] empty_world = (Return o, empty_world)
    /\ Opinion.confidence o = 0.5%Q.
Proof.
  destruct (weak_opinion_is_returned_but_not_stored "op-1" "mem-1"
              Scenario.now "bullish" "AAPL" [] [] 0.5%Q empty_world
              eq_refl eq_refl eq_refl)
    as (o & Hrun & _ & _ & Hc & _).
  exists o. split; [exact Hrun | exact Hc].
Defined.

(** *** Building the gateway *)

Lemma _initialize_providers_get (cfg : LLM.Settings) (order : list string)
    (acc : list (string * LLM.Provider)) (name : string) :
  dict_get (LLM._initialize_providers cfg order acc) name
  = if existsb (String.eqb name) order && LLM.ready cfg name
    then Some (LLM.mk_provider name)
    else dict_get acc name.
Proof.
  revert acc. induction order as [|n rest IH]; intros acc; [reflexivity|].
  cbn [LLM._initialize_providers existsb]. rewrite IH.
  destruct (existsb (String.eqb name) rest && LLM.ready cfg name) eqn:E.
  - apply andb_prop in E as [-> ->]. now rewrite orb_true_r.
  - destruct (String.eqb_spec name n) as [<-|Hne]; cbn [orb].
    + destruct (LLM.ready cfg name) eqn:R.
      * now rewrite dict_get_set_same.
      * rewrite andb_false_r. reflexivity.
    + rewrite E. destruct (LLM.ready cfg n); [|reflexivity].
      apply dict_get_set_other. congruence.
Qed.

Lemma _initialize_providers_none (cfg : LLM.Settings) (order : list string)
    (acc : list (string * LLM.Provider)) :
  find (LLM.ready cfg) order = None ->
  LLM._initialize_providers cfg order acc = acc.
Proof.
  revert acc. induction order as [|n rest IH]; intros acc; [reflexivity|].
  cbn [find LLM._initialize_providers].
  destruct (LLM.ready cfg n); [discriminate | apply IH].
Qed.

Lemma first_available_ready (cfg : LLM.Settings) (order l : list string) :
  incl l order ->
  LLM.first_available l (LLM._initialize_providers cfg order [])
  = find (LLM.ready cfg) l.
Proof.
  induction l as [|n rest IH]; intros Hincl; [reflexivity|].
  cbn [LLM.first_available find].
  rewrite _initialize_providers_get.
  rewrite (existsb_eqb_in n order) by (apply Hincl; now left).
  cbn [andb dict_get]. destruct (LLM.ready cfg n); [reflexivity|].
  apply IH. intros x Hx. apply Hincl. now right.
Qed.

(** X9. [create] returns a manager exactly when some name of the
    priority order is ready; its default provider is then the first
    ready name of the order, and its providers are the ready names of
    the order. When no name is ready it raises "No LLM providers
    configured."; the error "Could not determine a default LLM provider."
    is never raised. *)
Theorem create_defaults_to_first_ready (cfg : LLM.Settings) :
  match find (LLM.ready cfg) (LLM.LLM_PROVIDER_ORDER cfg) with
  | Some d =>
      exists m,
        LLM.create cfg = Return m
        /\ LLM.default_provider_name m = Some d
        /\ LLM.provider_order m = LLM.LLM_PROVIDER_ORDER cfg
        /\ forall name,
             dict_get (LLM.providers m) name
             = if existsb (String.eqb name) (LLM.LLM_PROVIDER_ORDER cfg)
                  && LLM.ready cfg name
               then Some (LLM.mk_provider name) else None
  | None =>
      LLM.create cfg = Raise (ValueError "No LLM providers configured." None)
  end.
Proof.
  unfold LLM.create.
  rewrite (first_available_ready cfg _ _ (incl_refl _)).
  destruct (find (LLM.ready cfg) (LLM.LLM_PROVIDER_ORDER cfg)) as [d|] eqn:F.
  - apply find_some in F as [Hin Hready].
    pose proof (_initialize_providers_get cfg (LLM.LLM_PROVIDER_ORDER cfg)
                  [] d) as Hget.
    rewrite (existsb_eqb_in d _ Hin), Hready in Hget. cbn [andb] in Hget.
    destruct (LLM._initialize_providers cfg (LLM.LLM_PROVIDER_ORDER cfg) [])
      as [|entry ps] eqn:E; [discriminate Hget|].
    destruct d as [|ch d]; [discriminate Hready|].
    eexists. split; [reflexivity|]. cbn [LLM.default_provider_name
      LLM.provider_order LLM.providers].
    split; [reflexivity|]. split; [reflexivity|].
    intros name. rewrite <- E. apply _initialize_providers_get.
  - now rewrite _initialize_providers_none.
Qed.

(** *** Serializing the context *)

(** X10. A context that [json.dumps] already accepts, one without any
    datetime, goes through [_serialize_context] unchanged, at every
    depth. *)
Theorem serializable_context_is_unchanged (v : PyVal)
    (Hv : LLM.json_serializable v = true) :
  LLM.serialize_value v = v
  /\ forall c, v = VDict c -> LLM._serialize_context (Some c) = Some c.
Proof.
  assert (H : forall u, LLM.json_serializable u = true ->
                        LLM.serialize_value u = u).
  { clear v Hv. intros u.
    induction u as [ | b | z | q | s | d | l IHl | entries IHe]
      using PyVal_nested_ind; try reflexivity.
    - discriminate.
    - cbn [LLM.serialize_value LLM.json_serializable]. intros H. f_equal.
      induction IHl as [|item rest Hitem _ IHrest]; [reflexivity|].
      cbn [forallb] in H. apply andb_true_iff in H as [Hi Hr].
      rewrite (IHrest Hr). f_equal.
      destruct item; try reflexivity; [discriminate Hi | exact (Hitem Hi)].
    - cbn [LLM.serialize_value LLM.json_serializable]. intros H. f_equal.
      induction IHe as [|[k x] rest Hx _ IHrest]; [reflexivity|].
      apply andb_true_iff in H as [Hi Hr]. cbn [snd] in Hx.
      now rewrite (Hx Hi), (IHrest Hr). }
  split; [exact (H v Hv)|].
  intros c ->. cbn [LLM._serialize_context]. f_equal.
  pose proof (H (VDict c) Hv) as Hc. cbn [LLM.serialize_value] in Hc.
  injection Hc as Hc. rewrite <- Hc at 2. unfold LLM.serialize_items.
  clear. induction c as [|[k x] rest IH]; [reflexivity|].
  cbn [map fst snd]. now rewrite IH.
Qed.

Lemma serializable_context_is_unchanged_witness :
  LLM._serialize_context
    (Some [("symbols", VList [VStr "AAPL"; VList [VInt 1]]);
           ("profile", VDict [("risk", VStr "moderate")])])
  = Some [("symbols", VList [VStr "AAPL"; VList [VInt 1]]);
          ("profile", VDict [("risk", VStr "moderate")])].
Proof.
  exact (proj2 (serializable_context_is_unchanged
                  (VDict [("symbols", VList [VStr "AAPL"; VList [VInt 1]]);
                          ("profile", VDict [("risk", VStr "moderate")])])
                  eq_refl) _ eq_refl).
Defined.

(** X11. [_serialize_context] is idempotent: serializing a serialized
    context changes nothing, whatever the context holds, and the keys of
    a context are kept in their order. *)
Theorem serialize_context_is_idempotent (context : option dict) :
  LLM._serialize_context (LLM._serialize_context context)
  = LLM._serialize_context context
  /\ option_map dict_keys (LLM._serialize_context context)
     = option_map dict_keys context.
Proof.
  assert (H : forall u,
             LLM.serialize_value (LLM.serialize_value u)
             = LLM.serialize_value u).
  { intros u.
    induction u as [ | b | z | q | s | d | l IHl | entries IHe]
      using PyVal_nested_ind; try reflexivity.
    - cbn [LLM.serialize_value]. f_equal.
      induction IHl as [|item rest Hitem _ IHrest]; [reflexivity|].
      rewrite IHrest. f_equal.
      destruct item; try reflexivity. exact Hitem.
    - cbn [LLM.serialize_value]. f_equal.
      induction IHe as [|[k x] rest Hx _ IHrest]; [reflexivity|].
      cbn [snd] in Hx. now rewrite Hx, IHrest. }
  destruct context as [c|]; [|split; reflexivity].
  cbn [LLM._serialize_context option_map]. split; f_equal.
  - unfold LLM.serialize_items. rewrite map_map. apply map_ext.
    intros [k x]. cbn [fst snd]. now rewrite H.
  - unfold LLM.serialize_items, dict_keys. rewrite map_map.
    now apply map_ext.
Qed.

(** *** Fences without a tag *)

Lemma json_loads_backtick (s : string) :
  Json.loads (String "`" s) = None.
Proof. reflexivity. Qed.

Lemma prefix_json_append (body : string) :
  String.prefix "json" (LLM.lower body) = false ->
  String.prefix "json" (LLM.lower (body ++ "```")) = false.
Proof.
  rewrite lower_app. change (LLM.lower "```") with "```".
  generalize (LLM.lower body). intros b.
  destruct b as [|c1 [|c2 [|c3 [|c4 b]]]];
    cbn [String.prefix append]; try reflexivity.
  - now destruct (ascii_dec "j" c1) as [<-|].
  - destruct (ascii_dec "j" c1); [|reflexivity].
    now destruct (ascii_dec "s" c2) as [<-|].
  - destruct (ascii_dec "j" c1); [|reflexivity].
    destruct (ascii_dec "s" c2); [|reflexivity].
    now destruct (ascii_dec "o" c3) as [<-|].
  - destruct (ascii_dec "j" c1); [|reflexivity].
    destruct (ascii_dec "s" c2); [|reflexivity].
    destruct (ascii_dec "o" c3); [|reflexivity].
    destruct (ascii_dec "n" c4); [|reflexivity].
    intros H. destruct b; discriminate H.
Qed.

(** X12. A reply fenced with three backticks but without the [json] tag
    is never decoded: only the closing fence is removed, the text handed
    to the decoder still opens with the three backticks, and a decoder
    that refuses a text opening with a backtick, as [json.loads] does,
    fails, so [generate_structured_output] raises its [ValueError],
    whatever stands between the fences. *)
Theorem untagged_fence_is_not_decoded
    (json_loads : string -> option PyVal) (backend : LLM.Backend)
    (m : LLM.LLMManager) (requested : option string) (p : LLM.Provider)
    (raw body : string)
    (Hdecoder : forall s, json_loads (String "`" s) = None)
    (Hp : LLM._get_provider m requested = Some p)
    (Hraw : backend (LLM.provider_name p) = Return raw)
    (Hstrip : LLM.strip raw = ("```" ++ body ++ "```")%string)
    (Htag : LLM.startswith (LLM.lower body) "json" = false) :
  LLM.unfence (LLM.strip raw) = ("```" ++ body)%string
  /\ fst (LLM.generate_structured_output json_loads backend m requested [])
     = Raise (ValueError LLM.parse_error_message
                (Some (JSONDecodeError ("```" ++ body)%string))).
Proof.
  assert (Hun : LLM.unfence (LLM.strip raw) = ("```" ++ body)%string).
  { rewrite Hstrip. unfold LLM.unfence.
    assert (E : LLM.startswith (LLM.lower ("```" ++ body ++ "```")) "```json"
                = false).
    { unfold LLM.startswith in *. apply prefix_json_append in Htag.
      cbn [append LLM.lower String.prefix].
      change (LLM.lower_char "`") with "`"%char.
      destruct (ascii_dec "`" "`") as [_|Hne]; [exact Htag | now destruct Hne]. }
    rewrite E.
    change ("```" ++ body ++ "```")%string
      with (("```" ++ body) ++ "```")%string.
    rewrite lower_app. change (LLM.lower "```") with "```".
    rewrite endswith_append, length_append.
    change (String.length "```") with 3%nat.
    replace (String.length ("```" ++ body) + 3 - 3)%nat
      with (String.length ("```" ++ body)) by lia.
    apply str_take_append. }
  split; [exact Hun|].
  rewrite generate_structured_output_eq, Hp. cbn [fst].
  rewrite Hraw, Hun. cbn [append]. now rewrite Hdecoder.
Qed.

Lemma untagged_fence_is_not_decoded_witness :
  fst (LLM.generate_structured_output Json.loads
         (Gateway.answers
            ("```" ++ Gateway.nl ++ Gateway.object_text ++ Gateway.nl
             ++ "```"))
         Gateway.manager None [])
  = Raise (ValueError LLM.parse_error_message
             (Some (JSONDecodeError
                      ("```" ++ Gateway.nl ++ Gateway.object_text
                       ++ Gateway.nl)%string)))
  /\ Json.loads Gateway.object_text = Some (VDict [("a", VInt 1)]).
Proof.
  split; [|reflexivity].
  exact (proj2 (untagged_fence_is_not_decoded Json.loads
                  (Gateway.answers
                     ("```" ++ Gateway.nl ++ Gateway.object_text
                      ++ Gateway.nl ++ "```"))
                  Gateway.manager None (LLM.mk_provider "openai")
                  ("```" ++ Gateway.nl ++ Gateway.object_text ++ Gateway.nl
                   ++ "```")
                  (Gateway.nl ++ Gateway.object_text ++ Gateway.nl)
                  json_loads_backtick eq_refl eq_refl eq_refl eq_refl)).
Defined.

(** *** Understanding a query *)

Lemma clean_key_get (entities : dict) (key k : string) :
  dict_get (Brain.clean_key entities key) k
  = if String.eqb key k
    then match dict_get entities key with
         | Some (VList l) => Some (VList l)
         | _ => Some (VList [])
         end
    else dict_get entities k.
Proof.
  unfold Brain.clean_key.
  destruct (String.eqb_spec key k) as [<-|Hne].
  - destruct (dict_get entities key) as [[ | | | | | | l | ]|] eqn:E;
      try apply dict_get_set_same.
    exact E.
  - destruct (dict_get entities key) as [[ | | | | | | l | ]|];
      try (apply dict_get_set_other; exact Hne).
    reflexivity.
Qed.

(** The entities after the three rounds of the loop. *)
Lemma cleaned_entities_get (entities : dict) (k : string) :
  dict_get
    (fold_left Brain.clean_key ["symbols"; "indicators"; "keywords"] entities)
    k
  = if existsb (String.eqb k) ["symbols"; "indicators"; "keywords"]
    then match dict_get entities k with
         | Some (VList l) => Some (VList l)
         | _ => Some (VList [])
         end
    else dict_get entities k.
Proof.
  cbn [fold_left existsb]. rewrite !clean_key_get.
  destruct (String.eqb_spec "keywords" k) as [<-|H3]; [reflexivity|].
  destruct (String.eqb_spec "indicators" k) as [<-|H2]; [reflexivity|].
  destruct (String.eqb_spec "symbols" k) as [<-|H1]; [reflexivity|].
  apply String.eqb_neq in H1, H2, H3.
  rewrite String.eqb_sym in H1, H2, H3. now rewrite H1, H2, H3.
Qed.

Lemma clean_dict (intent : dict) :
  Brain.clean (VDict intent)
  = Return
      (VDict
         (dict_set
            match dict_get intent "entities" with
            | Some (VDict _) => intent
            | _ => dict_set intent "entities" (VDict [])
            end
            "entities"
            (VDict
               (fold_left Brain.clean_key
                  ["symbols"; "indicators"; "keywords"]
                  match dict_get intent "entities" with
                  | Some (VDict entities) => entities
                  | _ => []
                  end)))).
Proof.
  unfold Brain.clean.
  destruct (dict_get intent "entities") as [[ | | | | | | | entities]|] eqn:E;
    try (rewrite dict_get_set_same; reflexivity).
  now rewrite E.
Qed.

(** X13. [understand_query_intent] answers with a dict whose ["entities"]
    is a dict whenever the chat context is absent, empty or accepted by
    [json.dumps]: whatever the gateway does, raise or answer, at most one
    provider is called, and an exception of the gateway or an answer that
    decodes to something other than an object gives the degraded intent
    with the text of the exception. A chat context that [json.dumps]
    refuses makes the call raise [TypeError] before any provider is
    called, the prompt being built outside the [try]. *)
Theorem understand_query_intent_degrades
    (json_loads : string -> option PyVal) (str : Exn -> string)
    (backend : LLM.Backend) (llm : LLM.LLMManager)
    (chat_context : option dict) (requested : option string)
    (log : LLM.CallLog) :
  let r := Brain.understand_query_intent json_loads str backend llm
             chat_context requested log in
  let g := LLM.generate_structured_output json_loads backend llm requested
             log in
  match Brain.intent_prompt chat_context with
  | Raise e => r = (Raise e, log)
  | Return _ =>
      snd r = snd g
      /\ (List.length (snd r) <= S (List.length log))%nat
      /\ (exists intent entities,
             fst r = Return (VDict intent)
             /\ dict_get intent "entities" = Some (VDict entities))
      /\ match fst g with
         | Raise e => fst r = Return (Brain.degraded str e)
         | Return (VDict intent) => fst r = Brain.clean (VDict intent)
         | Return other =>
             fst r
             = Return (Brain.degraded str
                         (AttributeError (Builtins.type_name other) "get"))
         end
  end.
Proof.
  cbv zeta. unfold Brain.understand_query_intent, bind, lift, try_except.
  destruct (Brain.intent_prompt chat_context) as [[]|e]; [|reflexivity].
  assert (Hlog : (List.length
                    (snd (LLM.generate_structured_output json_loads backend
                            llm requested log))
                  <= S (List.length log))%nat).
  { rewrite generate_structured_output_eq.
    destruct (LLM._get_provider llm requested); cbn [snd].
    - rewrite length_app. cbn. lia.
    - lia. }
  destruct (LLM.generate_structured_output json_loads backend llm requested
              log) as [[v|e] log'] eqn:G; cbn [fst snd] in *.
  - destruct v as [ | b | z | q | t | d | l | intent];
      try (cbn [Brain.clean fst snd Builtins.type_name];
           split; [reflexivity|]; split; [exact Hlog|];
           split; [|reflexivity];
           eexists; eexists; split; [reflexivity | reflexivity]).
    rewrite clean_dict. cbn [fst snd].
    split; [reflexivity|]. split; [exact Hlog|]. split; [|reflexivity].
    eexists; eexists. split; [reflexivity|]. apply dict_get_set_same.
  - split; [reflexivity|]. split; [exact Hlog|]. split; [|reflexivity].
    eexists; eexists. split; [reflexivity | reflexivity].
Qed.

(** X14. When the gateway answers with a JSON object,
    [understand_query_intent] returns that object with its entities
    normalized: ["entities"] is a dict in which ["symbols"],
    ["indicators"] and ["keywords"] are lists, a list that the answer
    gave being kept and anything else replaced by the empty list; the
    other entities and every other key of the answer, ["query_type"] and
    ["user_goal"] among them, are passed on as the gateway gave them,
    present or not. *)
Theorem decoded_intent_is_normalized
    (json_loads : string -> option PyVal) (str : Exn -> string)
    (backend : LLM.Backend) (llm : LLM.LLMManager)
    (chat_context : option dict) (requested : option string)
    (p : LLM.Provider) (raw : string) (answer : dict)
    (Hctx : Brain.intent_prompt chat_context = Return tt)
    (Hp : LLM._get_provider llm requested = Some p)
    (Hraw : backend (LLM.provider_name p) = Return raw)
    (Hjson : json_loads (LLM.unfence (LLM.strip raw)) = Some (VDict answer)) :
  exists intent entities,
    fst (Brain.understand_query_intent json_loads str backend llm
           chat_context requested [])
    = Return (VDict intent)
    /\ dict_get intent "entities" = Some (VDict entities)
    /\ (forall key,
          In key ["symbols"; "indicators"; "keywords"] ->
          exists l, dict_get entities key = Some (VList l))
    /\ (forall given key l,
          dict_get answer "entities" = Some (VDict given) ->
          dict_get given key = Some (VList l) ->
          dict_get entities key = Some (VList l))
    /\ (forall given key,
          dict_get answer "entities" = Some (VDict given) ->
          ~ In key ["symbols"; "indicators"; "keywords"] ->
          dict_get entities key = dict_get given key)
    /\ (forall key,
          key <> "entities" -> dict_get intent key = dict_get answer key).
Proof.
  unfold Brain.understand_query_intent, bind, lift, try_except.
  rewrite Hctx, generate_structured_output_eq, Hp, Hraw, Hjson.
  rewrite clean_dict. cbn [fst].
  eexists; eexists. split; [reflexivity|].
  split; [apply dict_get_set_same|].
  split; [|split; [|split]].
  - intros key Hkey. rewrite cleaned_entities_get.
    rewrite (existsb_eqb_in key _ Hkey).
    destruct (dict_get _ key) as [[ | | | | | | l | ]|]; now eexists.
  - intros given key l Hgiven Hl. rewrite cleaned_entities_get, Hgiven, Hl.
    now destruct (existsb _ _).
  - intros given key Hgiven Hkey. rewrite cleaned_entities_get, Hgiven.
    now rewrite (existsb_eqb_not_in key _ Hkey).
  - intros key Hkey.
    rewrite dict_get_set_other by congruence.
    destruct (dict_get answer "entities") as [[ | | | | | | | given]|];
      try (apply dict_get_set_other; congruence).
    reflexivity.
Qed.

Lemma decoded_intent_is_normalized_witness :
  Json.loads Asked.answer_text = Some (VDict Asked.answer)
  /\ fst (Brain.understand_query_intent Json.loads Asked.str
            (Gateway.answers Asked.answer_text) Gateway.manager None None [])
     = Return
         (VDict
            [("query_type", VStr "stock_price");
             ("entities",
               VDict [("symbols", VList [VStr "AAPL"]);
                      ("keywords", VList []);
                      ("indicators", VList [])])])
  /\ exists intent entities,
       fst (Brain.understand_query_intent Json.loads Asked.str
              (Gateway.answers Asked.answer_text) Gateway.manager None None
              [])
       = Return (VDict intent)
       /\ dict_get intent "entities" = Some (VDict entities)
       /\ dict_get entities "symbols" = Some (VList [VStr "AAPL"])
       /\ dict_get intent "user_goal" = None.
Proof.
  split; [reflexivity|]. split; [reflexivity|].
  destruct (decoded_intent_is_normalized Json.loads Asked.str
              (Gateway.answers Asked.answer_text) Gateway.manager None None
              (LLM.mk_provider "openai") Asked.answer_text Asked.answer
              eq_refl eq_refl eq_refl eq_refl)
    as (intent & entities & Hrun & Hentities & _ & Hkept & _ & Hother).
  exists intent, entities.
  split; [exact Hrun|]. split; [exact Hentities|]. split.
  - exact (Hkept [("symbols", VList [VStr "AAPL"]); ("keywords", VNone)]
             "symbols" [VStr "AAPL"] eq_refl eq_refl).
  - rewrite Hother by discriminate. reflexivity.
Defined.

(** *** Reading the answer of a service *)

(** X15. An answer of an OpenAI-style service that is a JSON object
    without ["choices"], as an error body is, is read as the empty text
    and raises nothing; so is a first choice without ["message"] and a
    message without ["content"]. An empty list of choices raises
    [IndexError]. A complete answer gives its content. *)
Theorem openai_error_body_reads_as_empty_text (response : dict) :
  (dict_get response "choices" = None ->
   Response.openai_text (VDict response) = Response.Found (VStr ""))
  /\ (dict_get response "choices" = Some (VList []) ->
      Response.openai_text (VDict response)
      = Response.Failed Response.IndexError)
  /\ (forall choice rest,
        dict_get response "choices" = Some (VList (VDict choice :: rest)) ->
        Response.openai_text (VDict response)
        = match dict_get choice "message" with
          | None => Response.Found (VStr "")
          | Some (VDict message) =>
              Response.Found
                match dict_get message "content" with
                | Some content => content
                | None => VStr ""
                end
          | Some _ => Response.Failed Response.AttributeError
          end).
Proof.
  unfold Response.openai_text, Response.get. cbn [Response.and_then].
  split; [|split].
  - now intros ->.
  - now intros ->.
  - intros choice rest ->. cbn [Response.first Response.and_then].
    destruct (dict_get choice "message") as [[ | | | | | | | message]|];
      reflexivity.
Qed.

Lemma and_then_failed (r : Response.Lookup)
    (k : PyVal -> Response.Lookup) (e : Response.LookupError) :
  Response.and_then r k = Response.Failed e ->
  r = Response.Failed e \/ exists v, k v = Response.Failed e.
Proof.
  destruct r as [v|e']; cbn [Response.and_then].
  - intros H. right. now exists v.
  - intros H. now left.
Qed.

Lemma item_no_attribute_error (key : string) (x : PyVal) :
  Response.item key x <> Response.Failed Response.AttributeError.
Proof.
  destruct x as [ | | | | | | | d]; cbn [Response.item]; try discriminate.
  destruct (dict_get d key); discriminate.
Qed.

Lemma first_no_attribute_error (x : PyVal) :
  Response.first x <> Response.Failed Response.AttributeError.
Proof.
  destruct x as [ | | | | [|c t] | | [|v l] | d]; discriminate.
Qed.

(** X16. The Gemini provider lets no [KeyError], [IndexError] or
    [AttributeError] out: an answer in which a key of the path is
    missing or a list of the path is empty is read as the empty text.
    Only [TypeError] escapes, raised when a value of the path cannot be
    subscripted as the path asks, a null or a number in the place of the
    candidates for one. *)
Theorem gemini_lets_only_type_errors_out :
  (forall response_data e,
     Response.gemini_text response_data = Response.Failed e ->
     e = Response.TypeError)
  /\ (forall response,
        dict_get response "candidates" = None
        \/ dict_get response "candidates" = Some (VList []) ->
        Response.gemini_text (VDict response) = Response.Found (VStr ""))
  /\ (forall response,
        dict_get response "candidates" = Some VNone ->
        Response.gemini_text (VDict response)
        = Response.Failed Response.TypeError).
Proof.
  split; [|split].
  - intros response_data e. unfold Response.gemini_text.
    destruct (Response.and_then _ _) as [v|[ | | | ]] eqn:E;
      try discriminate; try (intros H; injection H as <-; reflexivity).
    exfalso.
    apply and_then_failed in E as [E|[v1 E]];
      [exact (item_no_attribute_error _ _ E)|].
    apply and_then_failed in E as [E|[v2 E]];
      [exact (first_no_attribute_error _ E)|].
    apply and_then_failed in E as [E|[v3 E]];
      [exact (item_no_attribute_error _ _ E)|].
    apply and_then_failed in E as [E|[v4 E]];
      [exact (item_no_attribute_error _ _ E)|].
    apply and_then_failed in E as [E|[v5 E]];
      [exact (first_no_attribute_error _ E)|].
    exact (item_no_attribute_error _ _ E).
  - intros response [H|H]; unfold Response.gemini_text, Response.item;
      rewrite H; reflexivity.
  - intros response H. unfold Response.gemini_text, Response.item.
    rewrite H. reflexivity.
Qed.

(** *** The analysis pipeline *)

Lemma analyze_data_eq (dumps_with_encoder : dict -> Outcome unit)
    (memory_id : UUID) (now : datetime) (generated : Outcome string)
    (data context query_intent : dict) (w : World) :
  ReasoningSystem.analyze_data dumps_with_encoder memory_id now generated
    data context query_intent w
  = let query_type :=
      Builtins.get_or query_intent "query_type" (VStr "general") in
    match
      (if Builtins.eq_str query_type "technical_analysis"
       then ReasoningSystem._create_technical_analysis_prompt data context
       else if Builtins.eq_str query_type "fundamental_analysis"
       then ReasoningSystem._create_fundamental_analysis_prompt data context
       else if Builtins.eq_str query_type "market_sentiment"
       then ReasoningSystem._create_sentiment_analysis_prompt data context
       else ReasoningSystem._create_general_analysis_prompt
              dumps_with_encoder data context)
    with
    | Raise e => (Raise e, w)
    | Return _ =>
        match generated with
        | Raise e => (Raise e, w)
        | Return text =>
            match OpinionSystem.current_symbols context with
            | Raise e => (Raise e, w)
            | Return symbols =>
                (Return (ReasoningSystem.result_of text now data query_type),
                 snd (Memory.add_to_short_term memory_id now
                        (COther
                           (ReasoningSystem.result_of text now data
                              query_type))
                        "reasoning_analysis" (Some (query_type :: symbols))
                        w))
            end
        end
    end.
Proof.
  unfold ReasoningSystem.analyze_data, bind, lift, ret. cbv zeta.
  destruct (if Builtins.eq_str _ _ then _ else _); [|reflexivity].
  destruct generated as [text|e]; [|reflexivity].
  destruct (OpinionSystem.current_symbols context); reflexivity.
Qed.

(** The confidence that [form_opinion] computes from a result of
    [analyze_data] is the constant of the reasoning engine. *)
Lemma analysis_result_confidence (text : string) (now : datetime)
    (data : dict) (query_type : PyVal) :
  OpinionSystem._calculate_confidence
    (ReasoningSystem.result_of text now data query_type)
  = Return 0.7%Q.
Proof. reflexivity. Qed.

(** What a run of the pipeline that returns has gone through. *)
Lemma process_returns (dumps_with_encoder : dict -> Outcome unit)
    (str_of : PyVal -> string)
    (analysis_id opinion_id opinion_memory_id session_id : UUID)
    (analysis_now opinion_now session_now : datetime)
    (analysis_text opinion_text suggestion_text : Outcome string)
    (input_data query_intent request_context : dict) (w w' : World)
    (r : Brain.Analysis) :
  Brain.process_data_and_generate_analysis dumps_with_encoder str_of
    analysis_id opinion_id opinion_memory_id session_id analysis_now
    opinion_now session_now analysis_text opinion_text suggestion_text
    input_data query_intent request_context w = (Return r, w') ->
  exists text symbols topic belief tags,
    analysis_text = Return text
    /\ OpinionSystem.current_symbols request_context = Return symbols
    /\ Brain.topic_of str_of query_intent = Return topic
    /\ opinion_text = Return belief
    /\ Brain.session_tags query_intent = Return tags
    /\ let query_type :=
         Builtins.get_or query_intent "query_type" (VStr "general") in
       let a :=
         ReasoningSystem.result_of text analysis_now input_data query_type in
       let o :=
         formed opinion_id opinion_now belief topic 0.7%Q a request_context in
       Brain.analysis r = a
       /\ Brain.opinion r = o
       /\ (if Brain.trading_goal query_intent
           then exists suggestion,
                  ReasoningSystem.generate_trading_suggestion suggestion_text
                    a
                    (Builtins.get_or request_context "portfolio_snapshot"
                       VNone)
                    (Builtins.get_or request_context "user_risk_profile"
                       (VStr "moderate"))
                  = Return suggestion
                  /\ Brain.trading_suggestion r = Some suggestion
           else Brain.trading_suggestion r = None)
       /\ w'
          = snd (Memory.add_to_short_term session_id session_now
                   (COther
                      (Brain.session_content input_data query_intent a o
                         (Brain.trading_suggestion r)))
                   "chaetra_processing" (Some tags)
                   (after_formation opinion_memory_id opinion_now o
                      (VStr topic :: symbols)
                      (snd (Memory.add_to_short_term analysis_id
                              analysis_now (COther a) "reasoning_analysis"
                              (Some (query_type :: symbols)) w)))).
Proof.
  unfold Brain.process_data_and_generate_analysis.
  unfold bind at 1. rewrite analyze_data_eq. cbv zeta.
  destruct (if Builtins.eq_str _ _ then _ else _); [|discriminate].
  destruct analysis_text as [text|e]; [|discriminate].
  destruct (OpinionSystem.current_symbols request_context)
    as [symbols|e] eqn:Hsym; [|discriminate].
  unfold bind at 1, lift at 1.
  destruct (Brain.topic_of str_of query_intent) as [topic|e]; [|discriminate].
  unfold bind at 1. rewrite form_opinion_eq.
  destruct (OpinionSystem._create_opinion_prompt _ _ _); [|discriminate].
  destruct opinion_text as [belief|e]; [|discriminate].
  rewrite analysis_result_confidence, Hsym. cbv zeta.
  change (Qle_bool OpinionSystem.min_confidence 0.7) with true. cbv iota.
  unfold bind at 1.
  change (Opinion.confidence (formed _ _ _ _ 0.7%Q _ _)) with 0.7%Q.
  change (Qltb 0.7 0.7) with false. rewrite orb_false_r.
  destruct (Brain.trading_goal query_intent).
  - unfold bind at 1, lift at 1.
    destruct (ReasoningSystem.generate_trading_suggestion _ _ _ _)
      as [suggestion|e] eqn:Hs; [|discriminate].
    unfold ret at 1. unfold bind at 1, lift at 1.
    destruct (Brain.session_tags query_intent) as [tags|e]; [|discriminate].
    unfold bind, ret. intros H. injection H as <- <-.
    exists text, symbols, topic, belief, tags.
    repeat (split; [reflexivity|]).
    split; [now exists suggestion | reflexivity].
  - unfold ret at 1. unfold bind at 1, lift at 1.
    destruct (Brain.session_tags query_intent) as [tags|e]; [|discriminate].
    unfold bind, ret. intros H. injection H as <- <-.
    exists text, symbols, topic, belief, tags.
    repeat (split; [reflexivity|]). reflexivity.
Qed.

(** X17. In a run of [process_data_and_generate_analysis] that returns,
    the opinion has the confidence 0.7 of the reasoning engine, which is
    not above 0.7: the confidence arm of the condition never holds, and
    a trading suggestion is made exactly when the user goal of the intent
    is one of the three trading goals. *)
Theorem suggestion_only_for_trading_goals
    (dumps_with_encoder : dict -> Outcome unit) (str_of : PyVal -> string)
    (analysis_id opinion_id opinion_memory_id session_id : UUID)
    (analysis_now opinion_now session_now : datetime)
    (analysis_text opinion_text suggestion_text : Outcome string)
    (input_data query_intent request_context : dict) (w w' : World)
    (r : Brain.Analysis)
    (Hrun : Brain.process_data_and_generate_analysis dumps_with_encoder
              str_of analysis_id opinion_id opinion_memory_id session_id
              analysis_now opinion_now session_now analysis_text
              opinion_text suggestion_text input_data query_intent
              request_context w = (Return r, w')) :
  Opinion.confidence (Brain.opinion r) = 0.7%Q
  /\ Qltb 0.7 (Opinion.confidence (Brain.opinion r)) = false
  /\ (Brain.trading_suggestion r = None
      <-> Brain.trading_goal query_intent = false).
Proof.
  apply process_returns in Hrun
    as (text & symbols & topic & belief & tags & _ & _ & _ & _ & _ & H).
  cbv zeta in H. destruct H as (_ & Ho & Hs & _).
  rewrite Ho. split; [reflexivity|]. split; [reflexivity|].
  destruct (Brain.trading_goal query_intent).
  - destruct Hs as (suggestion & _ & Hs). rewrite Hs.
    split; discriminate.
  - now split.
Qed.

Lemma suggestion_only_for_trading_goals_witness :
  exists r w',
    Session.run = (Return r, w')
    /\ Opinion.confidence (Brain.opinion r) = 0.7%Q
    /\ Brain.trading_suggestion r = None.
Proof.
  assert (E : exists r w', Session.run = (Return r, w'))
    by (eexists; eexists; reflexivity).
  destruct E as (r & w' & E). exists r, w'.
  split; [exact E|].
  destruct (suggestion_only_for_trading_goals _ _ _ _ _ _ _ _ _ _ _ _ _ _ _
              _ _ _ E) as (Hc & _ & Hs).
  split; [exact Hc|]. apply Hs. reflexivity.
Defined.

(** X18. A run of [process_data_and_generate_analysis] that returns has
    made exactly three calls of the memory system, all of them
    [add_to_short_term] and in this order: for the analysis by the
    reasoning engine, for the opinion, and for the session record. It
    calls [move_to_core] for nothing, and the keys of the core tier are
    as before. *)
Theorem pipeline_writes_three_short_term_records
    (dumps_with_encoder : dict -> Outcome unit) (str_of : PyVal -> string)
    (analysis_id opinion_id opinion_memory_id session_id : UUID)
    (analysis_now opinion_now session_now : datetime)
    (analysis_text opinion_text suggestion_text : Outcome string)
    (input_data query_intent request_context : dict) (w w' : World)
    (r : Brain.Analysis)
    (Hrun : Brain.process_data_and_generate_analysis dumps_with_encoder
              str_of analysis_id opinion_id opinion_memory_id session_id
              analysis_now opinion_now session_now analysis_text
              opinion_text suggestion_text input_data query_intent
              request_context w = (Return r, w')) :
  (exists a o s,
      calls w' = calls w ++ [AddToShortTerm a; AddToShortTerm o;
                             AddToShortTerm s]
      /\ MemoryItem.id a = analysis_id
      /\ MemoryItem.source a = "reasoning_analysis"
      /\ MemoryItem.content a = COther (Brain.analysis r)
      /\ MemoryItem.id o = opinion_memory_id
      /\ MemoryItem.source o = "opinion_formation"
      /\ MemoryItem.content o = COpinion (Brain.opinion r)
      /\ MemoryItem.id s = session_id
      /\ MemoryItem.source s = "chaetra_processing")
  /\ promotions w' = promotions w
  /\ core_keys w' = core_keys w.
Proof.
  apply process_returns in Hrun
    as (text & symbols & topic & belief & tags & _ & _ & _ & _ & _ & H).
  cbv zeta in H. destruct H as (Ha & Ho & _ & ->).
  rewrite Ha, Ho. split; [|split].
  - eexists; eexists; eexists.
    split; [cbn [snd calls Memory.add_to_short_term after_formation];
            rewrite <- !app_assoc; reflexivity|].
    repeat (split; [reflexivity|]). reflexivity.
  - unfold promotions.
    cbn [snd calls Memory.add_to_short_term after_formation].
    rewrite !moves_app. cbn [moves]. now rewrite !app_nil_r.
  - unfold core_keys.
    cbn [snd cache Memory.add_to_short_term after_formation].
    now rewrite !scan_core_after_short_term_set.
Qed.

Lemma pipeline_writes_three_short_term_records_witness :
  exists r w',
    Session.run = (Return r, w')
    /\ List.length (calls w') = 3%nat
    /\ core_keys w' = [].
Proof.
  assert (E : exists r w', Session.run = (Return r, w'))
    by (eexists; eexists; reflexivity).
  destruct E as (r & w' & E). exists r, w'.
  split; [exact E|].
  destruct (pipeline_writes_three_short_term_records _ _ _ _ _ _ _ _ _ _ _ _
              _ _ _ _ _ _ E) as ((a & o & s & Hcalls & _) & _ & Hcore).
  split; [now rewrite Hcalls | exact Hcore].
Defined.

(** X19. Every intent that [understand_query_intent] returns passes the
    lookups of the pipeline: its symbols are a list, the empty one for
    the degraded intent, so the tags of the session record are computed
    without a [TypeError], whatever the gateway answered. *)
Theorem understood_intent_has_a_list_of_symbols
    (json_loads : string -> option PyVal) (str : Exn -> string)
    (backend : LLM.Backend) (llm : LLM.LLMManager)
    (chat_context : option dict) (requested : option string)
    (log : LLM.CallLog) (intent : dict)
    (Hrun : fst (Brain.understand_query_intent json_loads str backend llm
                   chat_context requested log)
            = Return (VDict intent)) :
  exists symbols,
    Brain.symbols_of intent = Return (VList symbols)
    /\ Brain.session_tags intent
       = Return (symbols
                 ++ [Builtins.get_or intent "query_type" (VStr "analysis")]).
Proof.
  assert (H : exists symbols,
             Brain.symbols_of intent = Return (VList symbols)).
  { revert Hrun.
    unfold Brain.understand_query_intent, bind, lift, try_except.
    destruct (Brain.intent_prompt chat_context) as [[]|e]; [|discriminate].
    destruct (LLM.generate_structured_output json_loads backend llm requested
                log) as [[v|e] log']; cbn [fst].
    - destruct v as [ | b | z | q | t | d | l | answer];
        try (cbn [Brain.clean fst]; intros H; injection H as <-;
             exists []; reflexivity).
      rewrite clean_dict. cbn [fst]. intros H. injection H as <-.
      unfold Brain.symbols_of, Builtins.get_or.
      rewrite dict_get_set_same. cbn [Builtins.attr_get].
      unfold Builtins.get_or.
      pose proof (cleaned_entities_get
                    match dict_get answer "entities" with
                    | Some (VDict entities) => entities
                    | _ => []
                    end "symbols") as Hget.
      cbn [fold_left] in Hget. rewrite Hget. clear Hget. cbn [existsb].
      change (String.eqb "symbols" "symbols") with true. cbn [orb].
      destruct (dict_get _ "symbols") as [[ | | | | | | l | ]|];
        eexists; reflexivity.
    - intros H. injection H as <-. exists []. reflexivity. }
  destruct H as [symbols H]. exists symbols. split; [exact H|].
  unfold Brain.session_tags. now rewrite H.
Qed.

Lemma understood_intent_has_a_list_of_symbols_witness :
  Brain.session_tags
    [("query_type", VStr "stock_price");
     ("entities",
       VDict [("symbols", VList [VStr "AAPL"]);
              ("keywords", VList []);
              ("indicators", VList [])])]
  = Return [VStr "AAPL"; VStr "stock_price"]
  /\ exists symbols,
       Brain.symbols_of
         [("query_type", VStr "unknown");
          ("entities", VDict []);
          ("user_goal", VStr "unknown");
          ("error", VStr "error")]
       = Return (VList symbols).
Proof.
  split; [reflexivity|].
  destruct (understood_intent_has_a_list_of_symbols Json.loads Asked.str
              Gateway.all_down Gateway.manager None None []
              [("query_type", VStr "unknown");
               ("entities", VDict []);
               ("user_goal", VStr "unknown");
               ("error", VStr "error")] eq_refl) as (symbols & H & _).
  now exists symbols.
Defined.

(** *** Finding records by tag *)

Lemma records_in (c : Cache.t) (keys : list string) (k : string)
    (v : MemoryItem.t) :
  In k keys -> Cache.get c k = Some v -> In v (records c keys).
Proof.
  intros Hin Hget. induction keys as [|key rest IH]; [destruct Hin|].
  cbn [records]. destruct Hin as [->|Hin].
  - rewrite Hget. now left.
  - destruct (Cache.get c key); [right|]; now apply IH.
Qed.

Lemma matches_tag (item : MemoryItem.t) (tag : string) :
  In (VStr tag) (MemoryItem.tags item) ->
  matches [("tags", Memory.QList [tag])] item = true.
Proof.
  intros Hin. unfold matches. cbn.
  assert (E : existsb (Memory.is_str tag) (MemoryItem.tags item) = true).
  { apply existsb_exists. exists (VStr tag). split; [exact Hin|].
    cbn. apply String.eqb_refl. }
  now rewrite E.
Qed.

(** X20. A record is found through each of its tags. In any store, a
    record that is read under a key listed for the short-term prefix and
    that carries the tag is among the records that match the query
    [{"tags": [tag]}] in the short-term tier and in all tiers, and
    [retrieve_memory] returns it whenever the limit is not below the
    number of matching records. *)
Theorem listed_record_is_found_by_its_tag (key : string)
    (item : MemoryItem.t) (tag : string) (limit : nat)
    (memory_type : string) (w : World)
    (Hkey : In key (Cache.scan (cache w) Memory.short_term_cache_prefix))
    (Hget : Cache.get (cache w) key = Some item)
    (Htag : In (VStr tag) (MemoryItem.tags item))
    (Hty : memory_type = "short_term" \/ memory_type = "all") :
  In item
    (filter (matches [("tags", Memory.QList [tag])])
       (scanned (cache w) memory_type))
  /\ ((List.length
         (filter (matches [("tags", Memory.QList [tag])])
            (scanned (cache w) memory_type)) <= limit)%nat ->
      exists l,
        Memory.retrieve_memory [("tags", Memory.QList [tag])] memory_type
          limit w = (Return l, w)
        /\ In item l).
Proof.
  assert (Hin : In item
                  (filter (matches [("tags", Memory.QList [tag])])
                     (scanned (cache w) memory_type))).
  { apply filter_In. split; [|now apply matches_tag].
    rewrite scanned_tiers. apply (records_in _ _ key); [|exact Hget].
    apply in_or_app. left.
    assert (E : String.eqb memory_type "all"
                || String.eqb memory_type "short_term" = true)
      by (destruct Hty as [-> | ->]; reflexivity).
    now rewrite E. }
  split; [exact Hin|].
  intros Hlen. rewrite retrieve_memory_safe by reflexivity.
  eexists. split; [reflexivity|]. now rewrite firstn_all2.
Qed.

Lemma listed_record_is_found_by_its_tag_witness :
  exists l,
    Memory.retrieve_memory [("tags", Memory.QList ["AAPL"])] "all" 10
      Listed.w = (Return l, Listed.w)
    /\ In Listed.item l.
Proof.
  destruct (listed_record_is_found_by_its_tag "st_memory:mem-9" Listed.item
              "AAPL" 10 "all" Listed.w) as (_ & Hfound).
  - vm_compute. now left.
  - reflexivity.
  - cbn. now left.
  - now right.
  - apply Hfound. vm_compute. lia.
Defined.

(** X21. [learn_from_feedback] returns and makes exactly one call of the
    memory system, [add_to_short_term], for a record with source
    ["feedback_learning"] and the tags ["learning"] and the symbol of the
    data context, ["unknown"] when the context names none; that record
    matches the query for the tag ["learning"]. Nothing is moved to the
    core tier. *)
Theorem feedback_is_recorded_under_the_learning_tag
    (memory_id : UUID) (now : datetime) (data_context outcome : dict)
    (previous_opinion : option Opinion.t) (w : World) :
  let r := LearningSystem.learn_from_feedback memory_id now data_context
             outcome previous_opinion w in
  exists item,
    fst r = Return tt
    /\ calls (snd r) = calls w ++ [AddToShortTerm item]
    /\ MemoryItem.id item = memory_id
    /\ MemoryItem.memory_type item = "short_term"
    /\ MemoryItem.source item = "feedback_learning"
    /\ MemoryItem.tags item
       = [VStr "learning";
          Builtins.get_or data_context "symbol" (VStr "unknown")]
    /\ matches [("tags", Memory.QList ["learning"])] item = true
    /\ promotions (snd r) = promotions w
    /\ core_keys (snd r) = core_keys w.
Proof.
  cbv zeta. unfold LearningSystem.learn_from_feedback, bind, ret.
  cbn [Memory.add_to_short_term fst snd cache calls].
  eexists. split; [reflexivity|]. split; [reflexivity|].
  split; [reflexivity|]. split; [reflexivity|].
  split; [reflexivity|]. split; [reflexivity|].
  split; [apply matches_tag; now left|]. split.
  - unfold promotions. cbn [calls]. rewrite moves_app. cbn [moves].
    now rewrite app_nil_r.
  - unfold core_keys. cbn [cache]. apply scan_core_after_short_term_set.
Qed.

(** *** Asking for a provider that is not there *)

(** X22. A request that names a provider the manager does not have, or
    the empty name, or no name, is served by the default provider: with a
    manager that [create] returned, [generate_text] makes exactly one
    call, to the default provider, and its text or its exception is the
    result; there is no error for the unknown name and no second call. *)
Theorem unknown_provider_is_served_by_the_default
    (cfg : LLM.Settings) (m : LLM.LLMManager) (backend : LLM.Backend)
    (requested : option string) (log : LLM.CallLog)
    (Hcreate : LLM.create cfg = Return m)
    (Hunknown : match requested with
                | Some name =>
                    name = "" \/ dict_get (LLM.providers m) name = None
                | None => True
                end) :
  exists d,
    LLM.default_provider_name m = Some d
    /\ LLM.generate_text backend m requested log = (backend d, log ++ [d]).
Proof.
  destruct (create_has_default cfg m Hcreate) as (d & p & Hd & Hp & Hnamed).
  pose proof (Hnamed d p Hp) as Hname.
  exists d. split; [exact Hd|].
  assert (Hget : LLM._get_provider m requested = Some p).
  { unfold LLM._get_provider. rewrite Hd, Hp.
    destruct requested as [name|]; [|reflexivity].
    destruct Hunknown as [-> | Hnone]; [reflexivity|].
    rewrite Hnone. now destruct (negb (String.eqb name "")). }
  unfold LLM.generate_text. rewrite Hget.
  unfold try_except, LLM.provider_generate_text. rewrite Hname.
  destruct (backend d) as [text|e]; [reflexivity|].
  unfold LLM.is_default. rewrite Hd, Hname, String.eqb_refl. reflexivity.
Qed.

Lemma unknown_provider_is_served_by_the_default_witness :
  LLM.create Gateway.cfg = Return Gateway.manager
  /\ LLM.generate_text Gateway.all_down Gateway.manager (Some "anthropic") []
     = (Raise (Gateway.refused "openai"), ["openai"]).
Proof.
  split; [reflexivity|].
  destruct (unknown_provider_is_served_by_the_default Gateway.cfg
              Gateway.manager Gateway.all_down (Some "anthropic") []
              eq_refl (or_intror eq_refl)) as (d & Hd & Hrun).
  injection Hd as <-. exact Hrun.
Defined.

(** *** A stage that fails *)

(** X23. The pipeline does not take back what it has written: when the
    analysis has been made and recorded and the gateway then fails to
    give the text of the opinion, [process_data_and_generate_analysis]
    raises the exception of the gateway, and the one call that the run
    has made of the memory system is the [add_to_short_term] for the
    analysis; no call deletes a record or moves one. *)
Theorem failed_opinion_leaves_the_analysis_record
    (dumps_with_encoder : dict -> Outcome unit) (str_of : PyVal -> string)
    (analysis_id opinion_id opinion_memory_id session_id : UUID)
    (analysis_now opinion_now session_now : datetime)
    (analysis_text suggestion_text : Outcome string) (e : Exn)
    (input_data query_intent request_context analysis_result : dict)
    (topic : string) (w w1 : World)
    (Hanalysis : ReasoningSystem.analyze_data dumps_with_encoder analysis_id
                   analysis_now analysis_text input_data request_context
                   query_intent w = (Return analysis_result, w1))
    (Htopic : Brain.topic_of str_of query_intent = Return topic)
    (Hctx : LLM.json_serializable (VDict request_context) = true) :
  Brain.process_data_and_generate_analysis dumps_with_encoder str_of
    analysis_id opinion_id opinion_memory_id session_id analysis_now
    opinion_now session_now analysis_text (Raise e) suggestion_text
    input_data query_intent request_context w = (Raise e, w1)
  /\ exists item,
       calls w1 = calls w ++ [AddToShortTerm item]
       /\ MemoryItem.id item = analysis_id
       /\ MemoryItem.content item = COther analysis_result.
Proof.
  split.
  - unfold Brain.process_data_and_generate_analysis.
    unfold bind at 1. rewrite Hanalysis.
    unfold bind at 1, lift at 1. rewrite Htopic.
    unfold bind at 1. rewrite form_opinion_eq.
    unfold OpinionSystem._create_opinion_prompt. now rewrite Hctx.
  - rewrite analyze_data_eq in Hanalysis. cbv zeta in Hanalysis.
    destruct (if Builtins.eq_str _ _ then _ else _); [|discriminate].
    destruct analysis_text as [text|e']; [|discriminate].
    destruct (OpinionSystem.current_symbols request_context)
      as [symbols|e']; [|discriminate].
    injection Hanalysis as <- <-.
    cbn [snd Memory.add_to_short_term cache calls].
    eexists. split; [reflexivity|]. split; reflexivity.
Qed.

Lemma failed_opinion_leaves_the_analysis_record_witness :
  exists w1,
    Brain.process_data_and_generate_analysis Session.encoder Session.str_of
      "mem-a" "op-1" "mem-o" "mem-s" Scenario.now Scenario.now Scenario.now
      (Return "uptrend") (Raise (Gateway.refused "openai")) (Return "buy")
      Session.input_data Session.query_intent Session.request_context
      empty_world = (Raise (Gateway.refused "openai"), w1)
    /\ List.length (calls w1) = 1%nat.
Proof.
  assert (E : exists a w1,
             ReasoningSystem.analyze_data Session.encoder "mem-a"
               Scenario.now (Return "uptrend") Session.input_data
               Session.request_context Session.query_intent empty_world
             = (Return a, w1))
    by (rewrite analyze_data_eq; eexists; eexists; reflexivity).
  destruct E as (a & w1 & E). exists w1.
  destruct (failed_opinion_leaves_the_analysis_record Session.encoder
              Session.str_of "mem-a" "op-1" "mem-o" "mem-s" Scenario.now
              Scenario.now Scenario.now (Return "uptrend") (Return "buy")
              (Gateway.refused "openai") Session.input_data
              Session.query_intent Session.request_context a
              "AAPL, MSFT (technical_analysis)" empty_world w1 E eq_refl
              eq_refl) as (Hrun & item & Hcalls & _).
  split; [exact Hrun | now rewrite Hcalls].
Defined.

(** *** Requests that find nothing *)

(** X24. A memory type other than ["all"], ["short_term"] and ["core"]
    selects no tier: [retrieve_memory] returns the empty list for every
    query, limit and store, without reading a record, and so also for a
    query that would raise on the records of a tier. *)
Theorem unknown_memory_type_retrieves_nothing (q : Memory.Query)
    (memory_type : string) (limit : nat) (w : World)
    (Hall : memory_type <> "all")
    (Hshort : memory_type <> "short_term")
    (Hcore : memory_type <> "core") :
  Memory.retrieve_memory q memory_type limit w = (Return [], w).
Proof.
  unfold Memory.retrieve_memory, Memory.prefixes_of.
  apply String.eqb_neq in Hall, Hshort, Hcore.
  rewrite Hall, Hshort, Hcore. cbn. now destruct limit.
Qed.

Lemma unknown_memory_type_retrieves_nothing_witness :
  Memory.retrieve_memory [("confidence", Memory.QList ["high"])] "long_term"
    5 (snd Scenario.r2)
  = (Return [], snd Scenario.r2)
  /\ fst (Memory.retrieve_memory [("confidence", Memory.QList ["high"])]
            "all" 5 (snd Scenario.r2))
     = Raise (TypeError "argument is not iterable").
Proof.
  split; [|reflexivity].
  apply unknown_memory_type_retrieves_nothing; discriminate.
Defined.

(** *** The tags of a formed opinion *)

(** X25. An opinion that [form_opinion] hands to the memory system is
    tagged with its topic: when the confidence reaches 0.6, the run makes
    exactly one call, [add_to_short_term], for a record that holds the
    opinion returned and whose tags are the topic followed by the symbols
    of the context, so that the record matches the query for the topic as
    a tag. *)
Theorem written_opinion_is_tagged_with_its_topic
    (opinion_id memory_id : UUID) (now : datetime) (text topic : string)
    (analysis_result context : dict) (c : Q) (symbols : list PyVal)
    (w : World)
    (Hctx : LLM.json_serializable (VDict context) = true)
    (Hconf : OpinionSystem._calculate_confidence analysis_result = Return c)
    (Hstrong : (0.6 <= c)%Q)
    (Hsym : OpinionSystem.current_symbols context = Return symbols) :
  let r := OpinionSystem.form_opinion opinion_id memory_id now (Return text)
             topic analysis_result context w in
  exists o item,
    fst r = Return o
    /\ calls (snd r) = calls w ++ [AddToShortTerm item]
    /\ MemoryItem.id item = memory_id
    /\ MemoryItem.memory_type item = "short_term"
    /\ MemoryItem.source item = "opinion_formation"
    /\ MemoryItem.content item = COpinion o
    /\ MemoryItem.tags item = VStr topic :: symbols
    /\ matches [("tags", Memory.QList [topic])] item = true.
Proof.
  cbv zeta. rewrite form_opinion_eq.
  unfold OpinionSystem._create_opinion_prompt. rewrite Hctx, Hconf.
  cbv zeta.
  assert (E : Qle_bool OpinionSystem.min_confidence c = true)
    by (apply Qle_bool_iff; exact Hstrong).
  rewrite E, Hsym. cbn [fst snd].
  set (o := formed opinion_id now text topic c analysis_result context).
  exists o, (formation_record memory_id now o (VStr topic :: symbols)).
  split; [reflexivity|]. split; [reflexivity|]. split; [reflexivity|].
  split; [reflexivity|]. split; [reflexivity|]. split; [reflexivity|].
  split; [reflexivity|]. apply matches_tag. now left.
Qed.

Lemma written_opinion_is_tagged_with_its_topic_witness :
  exists o item,
    fst (OpinionSystem.form_opinion "op-1" "mem-1" Scenario.now
           (Return "bullish") "AAPL" [("confidence", VFloat 0.675%Q)] []
           empty_world) = Return o
    /\ calls Scenario.w1 = [AddToShortTerm item]
    /\ MemoryItem.content item = COpinion o
    /\ MemoryItem.tags item = [VStr "AAPL"].
Proof.
  destruct (written_opinion_is_tagged_with_its_topic "op-1" "mem-1"
              Scenario.now "bullish" "AAPL" [("confidence", VFloat 0.675%Q)]
              [] 0.675%Q [] empty_world eq_refl eq_refl)
    as (o & item & Ho & Hcalls & _ & _ & _ & Hcontent & Htags & _).
  - discriminate.
  - reflexivity.
  - exists o, item. split; [exact Ho|]. split; [exact Hcalls|].
    split; [exact Hcontent | exact Htags].
Defined.

(** *** When the pipeline returns *)

(** X26. [process_data_and_generate_analysis] returns exactly when every
    stage does: the prompt of the analysis is rendered, the gateway gives
    the text of the analysis, the current symbols of the context can be
    unpacked, the topic can be derived from the intent, the context is
    accepted by [json.dumps], the gateway gives the text of the opinion
    and, for a trading goal, of the suggestion, and the symbols of the
    intent are a list. In every other case it raises. *)
Theorem pipeline_returns_iff_every_stage_does
    (dumps_with_encoder : dict -> Outcome unit) (str_of : PyVal -> string)
    (analysis_id opinion_id opinion_memory_id session_id : UUID)
    (analysis_now opinion_now session_now : datetime)
    (analysis_text opinion_text suggestion_text : Outcome string)
    (input_data query_intent request_context : dict) (w : World) :
  returns
    (fst (Brain.process_data_and_generate_analysis dumps_with_encoder
            str_of analysis_id opinion_id opinion_memory_id session_id
            analysis_now opinion_now session_now analysis_text opinion_text
            suggestion_text input_data query_intent request_context w))
  <-> (returns (selected_prompt dumps_with_encoder input_data
                  request_context query_intent)
       /\ returns analysis_text
       /\ returns (OpinionSystem.current_symbols request_context)
       /\ returns (Brain.topic_of str_of query_intent)
       /\ LLM.json_serializable (VDict request_context) = true
       /\ returns opinion_text
       /\ (Brain.trading_goal query_intent = true -> returns suggestion_text)
       /\ returns (Brain.session_tags query_intent)).
Proof.
  unfold returns, selected_prompt.
  unfold Brain.process_data_and_generate_analysis.
  unfold bind at 1. rewrite analyze_data_eq. cbv zeta.
  destruct (if Builtins.eq_str _ _ then _ else _) as [[]|e1];
    [|split; [intros [a H]; discriminate H
             | intros ([a H] & _); discriminate H]].
  destruct analysis_text as [text|e2];
    [|split; [intros [a H]; discriminate H
             | intros (_ & [a H] & _); discriminate H]].
  destruct (OpinionSystem.current_symbols request_context)
    as [symbols|e3] eqn:Hsym;
    [|split; [intros [a H]; discriminate H
             | intros (_ & _ & [a H] & _); discriminate H]].
  unfold bind at 1, lift at 1.
  destruct (Brain.topic_of str_of query_intent) as [topic|e4];
    [|split; [intros [a H]; discriminate H
             | intros (_ & _ & _ & [a H] & _); discriminate H]].
  unfold bind at 1. rewrite form_opinion_eq.
  unfold OpinionSystem._create_opinion_prompt.
  destruct (LLM.json_serializable (VDict request_context));
    [|split; [intros [a H]; discriminate H
             | intros (_ & _ & _ & _ & H & _); discriminate H]].
  destruct opinion_text as [belief|e5];
    [|split; [intros [a H]; discriminate H
             | intros (_ & _ & _ & _ & _ & [a H] & _); discriminate H]].
  rewrite analysis_result_confidence, Hsym. cbv zeta.
  change (Qle_bool OpinionSystem.min_confidence 0.7) with true. cbv iota.
  unfold bind at 1.
  change (Opinion.confidence (formed _ _ _ _ 0.7%Q _ _)) with 0.7%Q.
  change (Qltb 0.7 0.7) with false. rewrite orb_false_r.
  destruct (Brain.trading_goal query_intent).
  - unfold bind at 1, lift at 1.
    unfold ReasoningSystem.generate_trading_suggestion.
    destruct suggestion_text as [suggestion|e6];
      [|split; [intros [a H]; discriminate H
               | intros (_ & _ & _ & _ & _ & _ & H & _);
                 destruct (H eq_refl) as [a Ha]; discriminate Ha]].
    unfold ret at 1. unfold bind at 1, lift at 1.
    destruct (Brain.session_tags query_intent) as [tags|e7];
      [|split; [intros [a H]; discriminate H
               | intros (_ & _ & _ & _ & _ & _ & _ & [a H]); discriminate H]].
    unfold bind, ret. cbn [fst]. split; [intros _|intros _; now eexists].
    split; [now eexists|]. split; [now eexists|]. split; [now eexists|].
    split; [now eexists|]. split; [reflexivity|]. split; [now eexists|].
    split; [intros _; now eexists | now eexists].
  - unfold ret at 1. unfold bind at 1, lift at 1.
    destruct (Brain.session_tags query_intent) as [tags|e7];
      [|split; [intros [a H]; discriminate H
               | intros (_ & _ & _ & _ & _ & _ & _ & [a H]); discriminate H]].
    unfold bind, ret. cbn [fst]. split; [intros _|intros _; now eexists].
    split; [now eexists|]. split; [now eexists|]. split; [now eexists|].
    split; [now eexists|]. split; [reflexivity|]. split; [now eexists|].
    split; [discriminate | now eexists].
Qed.

(** *** Where the keys of the services go *)

Lemma rstrip_slash_keeps (a : string) (c : ascii) (b : string) :
  c <> "/"%char ->
  Providers.rstrip_slash (a ++ String c b)
  = (a ++ String c (Providers.rstrip_slash b))%string.
Proof.
  intros Hc. induction a as [|d a IH].
  - cbn [append Providers.rstrip_slash].
    apply Ascii.eqb_neq in Hc. rewrite Hc.
    now destruct (Providers.rstrip_slash b).
  - cbn [append Providers.rstrip_slash]. rewrite IH.
    now destruct a.
Qed.

Lemma str_contains_append (s a b : string) :
  str_contains s (a ++ s ++ b) = true.
Proof.
  induction a as [|c a IH].
  - cbn [append]. destruct (s ++ b)%string eqn:E;
      cbn [str_contains]; rewrite <- E, prefix_append; reflexivity.
  - cbn [append str_contains]. rewrite IH. apply orb_true_r.
Qed.

Lemma secret_given (key : option string) :
  Providers.secret key
  = match key with
    | Some k => if String.eqb k "" then None else Some k
    | None => None
    end.
Proof.
  unfold Providers.secret, Providers.given.
  destruct key as [k|]; [|reflexivity]. now destruct (String.eqb k "").
Qed.

(** X27. Only the OpenAI provider sends its key as a bearer header. The
    Gemini provider never has an [Authorization] header, whatever its
    key and model are, its address naming the Gemini host; the LM Studio
    provider drops the header that the OpenAI constructor made; the
    Ollama provider has no key. The OpenAI provider has the header
    exactly when its key is set and not empty. *)
Theorem only_openai_sends_a_bearer_header (settings : Providers.Settings) :
  Providers.headers (Providers.GeminiProvider settings)
  = [("Content-Type", "application/json")]
  /\ Providers.headers (Providers.LMStudioProvider settings)
     = [("Content-Type", "application/json")]
  /\ Providers.headers (Providers.OllamaProvider settings)
     = [("Content-Type", "application/json")]
  /\ Providers.headers (Providers.OpenAIProvider settings)
     = match Providers.OPENAI_API_KEY settings with
       | Some key =>
           if String.eqb key "" then [("Content-Type", "application/json")]
           else [("Content-Type", "application/json");
                 ("Authorization", ("Bearer " ++ key)%string)]
       | None => [("Content-Type", "application/json")]
       end.
Proof.
  assert (Hopenai :
            Providers.headers (Providers.OpenAIProvider settings)
            = match Providers.OPENAI_API_KEY settings with
              | Some key =>
                  if String.eqb key ""
                  then [("Content-Type", "application/json")]
                  else [("Content-Type", "application/json");
                        ("Authorization", ("Bearer " ++ key)%string)]
              | None => [("Content-Type", "application/json")]
              end).
  { unfold Providers.OpenAIProvider, Providers.init.
    cbn [Providers.headers]. rewrite secret_given.
    destruct (Providers.OPENAI_API_KEY settings) as [key|]; [|reflexivity].
    destruct (String.eqb key "") eqn:E; [reflexivity|].
    cbn [Providers.given]. rewrite E. reflexivity. }
  split; [|split; [|split]].
  - unfold Providers.GeminiProvider, Providers.init.
    cbn [Providers.headers]. rewrite secret_given.
    destruct (Providers.GEMINI_API_KEY settings) as [key|]; [|reflexivity].
    destruct (String.eqb key "") eqn:E; [reflexivity|].
    cbn [Providers.given]. rewrite E.
    change (negb false) with true. cbn [andb].
    change (String.eqb
              ("https://generativelanguage.googleapis.com/v1beta/models/"
               ++ Providers.GEMINI_MODEL settings) "") with false.
    cbn [negb option_map].
    change ("https://generativelanguage.googleapis.com/v1beta/models/"
            ++ Providers.GEMINI_MODEL settings)%string
      with (("https://" ++ Providers.gemini_host ++ "/v1beta/model")
            ++ String "s" ("/" ++ Providers.GEMINI_MODEL settings))%string.
    rewrite rstrip_slash_keeps by discriminate.
    set (tail := Providers.rstrip_slash
                   ("/" ++ Providers.GEMINI_MODEL settings)).
    change (("https://" ++ Providers.gemini_host ++ "/v1beta/model")
            ++ String "s" tail)%string
      with ("https://" ++ Providers.gemini_host
            ++ ("/v1beta/models" ++ tail))%string.
    now rewrite str_contains_append.
  - unfold Providers.LMStudioProvider. cbn [Providers.headers].
    rewrite Hopenai.
    destruct (Providers.OPENAI_API_KEY settings) as [key|]; [|reflexivity].
    destruct (String.eqb key ""); reflexivity.
  - reflexivity.
  - exact Hopenai.
Qed.
